(** * goprofiler: the profiling controller of quipo/goprofiler

    A shallow embedding of [profiler.go] (package [profiler]) and the
    properties of its scheduling loop, its snapshots and its cleanup list.

    The controller talks to the Go runtime, the file system, the clock and
    two loggers. Those collaborators are not part of the package, so they
    are modelled by
    - a [World]: the process-wide state the controller reads and writes
      (the runtime's profiling switches, the channel store, the next free
      file descriptor),
    - an [Env]: what the outside answers (the clock, whether a create, a
      write or a close fails, [time.ParseDuration], whether the timer has
      expired),
    - a trace of [Event]s: every call that leaves the package, in program
      order.
    Methods are functions in the monad [M]; a method with a pointer
    receiver returns the updated [profiler], a method with a value receiver
    works on a copy and returns nothing.

    The file has the definitions first (the model, the readers of a trace,
    the summaries the lemmas speak of, the examples' inputs), then the
    lemmas on the model, then the properties C1 to C10, the model at work
    on examples and the further properties X1 to X15. The embedding follows the current revision of
    [profiler.go], the one with mutex profiling and a logger; module
    [Earlier] holds the revision before it. *)

From Stdlib Require Import ZArith Ascii String List Bool Lia DecimalString.
From Stdlib Require DecimalPos DecimalZ.
From stdpp Require Import base gmap strings list.

Local Open Scope string_scope.
Local Open Scope list_scope.
Local Open Scope Z_scope.

(** ** Values of the outside world *)

(** A descriptor names one opened file and is never handed out twice;
    [*os.File] may be nil. *)
Definition Fd := nat.
Definition File := option Fd.

(** [time.Duration]: nanoseconds. *)
Definition Duration := Z.

(** Go's [error] values (non-nil). *)
Inductive error := Err (msg : string).

(** [*log.Logger]: where it writes, its prefix and its flags. *)
Inductive Stream := Stdout | Stderr.
Record Logger := { out : Stream; prefix : string; flags : Z }.

(** The standard logger used by [log.Println]. *)
Definition log_std : Logger := {| out := Stderr; prefix := ""; flags := 3 |}.

Definition log_Ldate : Z := 1.
Definition log_Ltime : Z := 2.
Definition log_New (o : Stream) (pre : string) (flag : Z) : Logger :=
  {| out := o; prefix := pre; flags := flag |}.

(** Arguments of a [Println]. *)
Inductive LogArg := LStr (s : string) | LErr (e : error).

(** Every call that leaves the package, with what it returned. *)
Inductive Event :=
| ESetCPUProfileRate (hz : Z)
| ESetMemProfileRate (rate : Z)
| ESetBlockProfileRate (rate : Z)
| ESetMutexProfileFraction (rate : Z)
| ECreate (name : string) (f : File) (err : option error)
| EStartCPUProfile (f : File) (err : option error)
| EStopCPUProfile
| EWriteHeapProfile (f : File) (err : option error)
| EWriteTo (profile : string) (f : File) (debug : Z) (err : option error)
| EClose (f : File) (err : option error)
| ELog (l : Logger) (args : list LogArg)
| ENewTimer (d : Duration)
| EMakeChan (c : nat)
| ECloseChan (c : nat).

(** What the outside answers. The [nat] argument is the number of answers
    given so far ([tick]), so that two calls of the same function may get
    different answers. [timer_fired] says whether the timer the [select]
    waits for has expired already. *)
Record Env := {
  ParseDuration : string -> Duration + error;
  clock : nat -> Z;
  create_err : nat -> string -> option error;
  write_err : nat -> File -> option error;
  close_err : nat -> Fd -> option error;
  timer_fired : nat -> bool
}.

(** Process-wide state. A channel maps to [true] once it is closed.
    [rt_CPUProfileRate] is the rate the runtime samples the CPU at, 0 when
    it does not; [rt_cpuProfiling] is the file the CPU profile of [pprof]
    is running on, if one is running. *)
Record World := {
  tick : nat;
  nextFd : Fd;
  nextCh : nat;
  chans : gmap nat bool;
  rt_CPUProfileRate : Z;
  rt_MemProfileRate : Z;
  rt_BlockProfileRate : Z;
  rt_MutexProfileFraction : Z;
  rt_cpuProfiling : option File
}.

Definition bump (w : World) : World :=
  {| tick := S (tick w); nextFd := nextFd w; nextCh := nextCh w;
     chans := chans w; rt_CPUProfileRate := rt_CPUProfileRate w;
     rt_MemProfileRate := rt_MemProfileRate w;
     rt_BlockProfileRate := rt_BlockProfileRate w;
     rt_MutexProfileFraction := rt_MutexProfileFraction w;
     rt_cpuProfiling := rt_cpuProfiling w |}.

Definition set_nextFd (n : Fd) (w : World) : World :=
  {| tick := tick w; nextFd := n; nextCh := nextCh w;
     chans := chans w; rt_CPUProfileRate := rt_CPUProfileRate w;
     rt_MemProfileRate := rt_MemProfileRate w;
     rt_BlockProfileRate := rt_BlockProfileRate w;
     rt_MutexProfileFraction := rt_MutexProfileFraction w;
     rt_cpuProfiling := rt_cpuProfiling w |}.

Definition set_chans (n : nat) (cs : gmap nat bool) (w : World) : World :=
  {| tick := tick w; nextFd := nextFd w; nextCh := n;
     chans := cs; rt_CPUProfileRate := rt_CPUProfileRate w;
     rt_MemProfileRate := rt_MemProfileRate w;
     rt_BlockProfileRate := rt_BlockProfileRate w;
     rt_MutexProfileFraction := rt_MutexProfileFraction w;
     rt_cpuProfiling := rt_cpuProfiling w |}.

Definition set_CPUProfileRate (hz : Z) (w : World) : World :=
  {| tick := tick w; nextFd := nextFd w; nextCh := nextCh w;
     chans := chans w; rt_CPUProfileRate := hz;
     rt_MemProfileRate := rt_MemProfileRate w;
     rt_BlockProfileRate := rt_BlockProfileRate w;
     rt_MutexProfileFraction := rt_MutexProfileFraction w;
     rt_cpuProfiling := rt_cpuProfiling w |}.

Definition set_MemProfileRate (r : Z) (w : World) : World :=
  {| tick := tick w; nextFd := nextFd w; nextCh := nextCh w;
     chans := chans w; rt_CPUProfileRate := rt_CPUProfileRate w;
     rt_MemProfileRate := r;
     rt_BlockProfileRate := rt_BlockProfileRate w;
     rt_MutexProfileFraction := rt_MutexProfileFraction w;
     rt_cpuProfiling := rt_cpuProfiling w |}.

Definition set_BlockProfileRate (r : Z) (w : World) : World :=
  {| tick := tick w; nextFd := nextFd w; nextCh := nextCh w;
     chans := chans w; rt_CPUProfileRate := rt_CPUProfileRate w;
     rt_MemProfileRate := rt_MemProfileRate w;
     rt_BlockProfileRate := r;
     rt_MutexProfileFraction := rt_MutexProfileFraction w;
     rt_cpuProfiling := rt_cpuProfiling w |}.

Definition set_MutexProfileFraction (r : Z) (w : World) : World :=
  {| tick := tick w; nextFd := nextFd w; nextCh := nextCh w;
     chans := chans w; rt_CPUProfileRate := rt_CPUProfileRate w;
     rt_MemProfileRate := rt_MemProfileRate w;
     rt_BlockProfileRate := rt_BlockProfileRate w;
     rt_MutexProfileFraction := r;
     rt_cpuProfiling := rt_cpuProfiling w |}.

Definition set_cpuProfiling (f : option File) (w : World) : World :=
  {| tick := tick w; nextFd := nextFd w; nextCh := nextCh w;
     chans := chans w; rt_CPUProfileRate := rt_CPUProfileRate w;
     rt_MemProfileRate := rt_MemProfileRate w;
     rt_BlockProfileRate := rt_BlockProfileRate w;
     rt_MutexProfileFraction := rt_MutexProfileFraction w;
     rt_cpuProfiling := f |}.

(** ** The monad: state, trace and panic *)

Inductive Outcome (A : Type) :=
| Done (a : A) (w : World)
| Panic (e : error) (w : World).
Arguments Done {A} a w.
Arguments Panic {A} e w.

Definition M (A : Type) : Type := World -> list Event * Outcome A.

#[export] Instance M_ret : MRet M := fun A a w => ([], Done a w).

#[export] Instance M_bind : MBind M := fun A B k m w =>
  match m w with
  | (evs, Done a w1) =>
      match k a w1 with
      | (evs', r) => ((evs ++ evs')%list, r)
      end
  | (evs, Panic e w1) => (evs, Panic e w1)
  end.

Definition emit (e : Event) : M unit := fun w => ([e], Done tt w).
Definition panic {A} (e : error) : M A := fun w => ([], Panic e w).

(** The conditional statement [if b { body }]. *)
Definition when (b : bool) (body : M unit) : M unit :=
  if b then body else mret tt.

(** [fmt.Sprintf] with the verb [%d] on an [int64]. *)
Definition string_of_Z (z : Z) : string :=
  NilZero.string_of_int (Z.to_int z).
Arguments string_of_Z : simpl never.

(** ** The package's data: [Config] and [profiler] *)

(** Config wraps the profiler settings. The three rates are Go [int]s; the
    package passes them on and compares one with 0, it computes nothing
    with them. *)
Record Config := {
  CPU : bool;
  Memory : bool;
  Block : bool;
  Goroutine : bool;
  Mutex : bool;
  Prefix : string;
  Interval : string;
  MemoryProfileRate : Z;
  CPUProfileRate : Z;
  MutexProfileFraction : Z
}.

(** The one closure the package builds (in [startProfilingCPU]): it
    captures the file [f] and closes it. *)
Inductive Closer := CloseFile (f : File).

Definition closer_file (c : Closer) : File :=
  match c with CloseFile f => f end.

Record profiler := {
  conf : Config;
  terminateCh : nat;
  closers : list Closer;
  logger : Logger
}.

Definition set_closers (cs : list Closer) (p : profiler) : profiler :=
  {| conf := conf p; terminateCh := terminateCh p; closers := cs;
     logger := logger p |}.

Definition isOn (c : Config) : bool :=
  CPU c || Memory c || Goroutine c || Block c || Mutex c.

(** ** The collaborators: runtime, pprof, os, time, log *)

Section Profiler.
Context (env : Env).

(** [time.Now().Unix()] *)
Definition time_Now_Unix : M Z := fun w =>
  ([], Done (clock env (tick w)) (bump w)).

(** [os.Create(name)]: a fresh descriptor, or nil and an error. *)
Definition os_Create (name : string) : M (File * option error) := fun w =>
  match create_err env (tick w) name with
  | Some e => ([ECreate name None (Some e)], Done (None, Some e) (bump w))
  | None =>
      let fd := nextFd w in
      ([ECreate name (Some fd) None],
       Done (Some fd, None) (set_nextFd (S fd) (bump w)))
  end.

(** [f.Close()]: a nil file gives [os.ErrInvalid]. *)
Definition ErrInvalid : error := Err "invalid argument".

Definition File_Close (f : File) : M (option error) := fun w =>
  match f with
  | None => ([EClose None (Some ErrInvalid)], Done (Some ErrInvalid) w)
  | Some fd =>
      let r := close_err env (tick w) fd in
      ([EClose f r], Done r (bump w))
  end.

(** The rate the runtime samples the CPU at after
    [runtime.SetCPUProfileRate(hz)] when it was [old] before; 0 is off.
    The runtime clamps [hz] to 0..1000000. It refuses a positive rate
    while a profile is on and keeps the rate it has; with 0 it switches
    the profile off. *)
Definition cpuprof_rate (hz old : Z) : Z :=
  let hz := Z.min (Z.max hz 0) 1000000 in
  if 0 <? hz then (if old =? 0 then hz else old) else 0.
Arguments cpuprof_rate : simpl never.

(** [runtime.SetCPUProfileRate(hz)] *)
Definition runtime_SetCPUProfileRate (hz : Z) : M unit := fun w =>
  ([ESetCPUProfileRate hz],
   Done tt (set_CPUProfileRate (cpuprof_rate hz (rt_CPUProfileRate w)) w)).

(** The assignment [runtime.MemProfileRate = r] *)
Definition runtime_MemProfileRate_assign (r : Z) : M unit := fun w =>
  ([ESetMemProfileRate r], Done tt (set_MemProfileRate r w)).

(** [runtime.SetBlockProfileRate(r)]. The package passes 0 and 1, which
    the runtime stores as they are. *)
Definition runtime_SetBlockProfileRate (r : Z) : M unit := fun w =>
  ([ESetBlockProfileRate r], Done tt (set_BlockProfileRate r w)).

(** [runtime.SetMutexProfileFraction(r)]: a negative [r] only reads the
    fraction and leaves it as it is. *)
Definition runtime_SetMutexProfileFraction (r : Z) : M unit := fun w =>
  ([ESetMutexProfileFraction r],
   Done tt (set_MutexProfileFraction
              (if r <? 0 then rt_MutexProfileFraction w else r) w)).

(** [pprof.StartCPUProfile(f)]: refused while a CPU profile is running.
    Otherwise the profile runs on [f], and pprof asks the runtime for a
    rate of 100 by [runtime.SetCPUProfileRate], which the runtime refuses
    when a rate is set already. *)
Definition ErrCPUInUse : error := Err "cpu profiling already in use".

Definition pprof_StartCPUProfile (f : File) : M (option error) := fun w =>
  match rt_cpuProfiling w with
  | Some _ => ([EStartCPUProfile f (Some ErrCPUInUse)], Done (Some ErrCPUInUse) w)
  | None =>
      ([EStartCPUProfile f None],
       Done None (set_CPUProfileRate (cpuprof_rate 100 (rt_CPUProfileRate w))
                    (set_cpuProfiling (Some f) w)))
  end.

(** [pprof.StopCPUProfile()]: when a profile is running it ends it and
    sets the runtime's rate to 0 by [runtime.SetCPUProfileRate(0)]; when
    none is running nothing changes. *)
Definition pprof_StopCPUProfile : M unit := fun w =>
  ([EStopCPUProfile],
   Done tt (set_CPUProfileRate
              (match rt_cpuProfiling w with
               | Some _ => 0
               | None => rt_CPUProfileRate w
               end)
              (set_cpuProfiling None w))).

(** [pprof.WriteHeapProfile(f)] *)
Definition pprof_WriteHeapProfile (f : File) : M (option error) := fun w =>
  let r := write_err env (tick w) f in
  ([EWriteHeapProfile f r], Done r (bump w)).

(** [pprof.Lookup(name)] for the predefined profiles, and
    [profile.WriteTo(f, debug)]. *)
Definition Profile := string.
Definition pprof_Lookup (name : string) : Profile := name.

Definition Profile_WriteTo (profile : Profile) (f : File) (debug : Z)
  : M (option error) := fun w =>
  let r := write_err env (tick w) f in
  ([EWriteTo profile f debug r], Done r (bump w)).

(** [l.Println(args...)] *)
Definition Logger_Println (l : Logger) (args : list LogArg) : M unit :=
  emit (ELog l args).

(** [time.NewTimer(d)] *)
Definition time_NewTimer (d : Duration) : M unit := emit (ENewTimer d).

(** [make(chan struct{})] and [close(c)]. Closing a closed or a nil
    channel panics. *)
Definition make_chan : M nat := fun w =>
  let c := nextCh w in
  ([EMakeChan c], Done c (set_chans (S c) (<[c := false]> (chans w)) w)).

Definition ErrCloseClosed : error := Err "close of closed channel".
Definition ErrCloseNil : error := Err "close of nil channel".

Definition close_chan (c : nat) : M unit := fun w =>
  match chans w !! c with
  | Some false =>
      ([ECloseChan c], Done tt (set_chans (nextCh w) (<[c := true]> (chans w)) w))
  | Some true => ([], Panic ErrCloseClosed w)
  | None => ([], Panic ErrCloseNil w)
  end.

(** ** The methods of [profiler] *)

(** NewProfiler initialises a new instance of a profiler *)
Definition NewProfiler (c : Config) : M profiler :=
  ch ← make_chan;
  mret {| conf := c;
          terminateCh := ch;
          closers := [];
          logger := log_New Stdout "[profiler] " (Z.lor log_Ldate log_Ltime) |}.

(** Calling a closure of [p.closers]. *)
Definition call_closer (p : profiler) (c : Closer) : M unit :=
  match c with
  | CloseFile f =>
      err ← File_Close f;
      match err with
      | Some e => Logger_Println (logger p) [LErr e]
      | None => mret tt
      end
  end.

(** opens a new output file to collect CPU profiling information *)
Definition startProfilingCPU (p : profiler) : M profiler :=
  t ← time_Now_Unix;
  let pprofFile := Prefix (conf p) +:+ "cpu." +:+ string_of_Z t +:+ ".pprof" in
  Logger_Println (logger p) [LStr "Starting new CPU Profiler:"; LStr pprofFile];;
  '(f, err) ← os_Create pprofFile;
  match err with
  | Some e => panic e
  | None =>
      err ← pprof_StartCPUProfile f;
      match err with
      | Some e =>
          Logger_Println (logger p) [LStr "could not start CPU profile: "; LErr e]
      | None => mret tt
      end;;
      mret (set_closers (closers p ++ [CloseFile f])%list p)
  end.

(** collect CPU profiling information *)
Definition takeCPUSnapshot (p : profiler) : M unit :=
  Logger_Println (logger p) [LStr "Stopping CPU Profiler"];;
  pprof_StopCPUProfile.


(** The statement [if err != nil { p.logger.Println(err) }]. *)
Definition log_err (p : profiler) (err : option error) : M unit :=
  match err with
  | Some e => Logger_Println (logger p) [LErr e]
  | None => mret tt
  end.

(** collect Memory profiling information *)
Definition takeMemorySnapshot (p : profiler) : M unit :=
  t ← time_Now_Unix;
  let pprofFile := Prefix (conf p) +:+ "mem." +:+ string_of_Z t +:+ ".pprof" in
  Logger_Println (logger p) [LStr "Taking Memory Profile Snapshot:"; LStr pprofFile];;
  '(f, err) ← os_Create pprofFile;
  log_err p err;;
  err ← pprof_WriteHeapProfile f;
  log_err p err;;
  err ← File_Close f;
  log_err p err.

(** collect Block profiling information *)
Definition takeBlockSnapshot (p : profiler) : M unit :=
  t ← time_Now_Unix;
  let pprofFile := Prefix (conf p) +:+ "block." +:+ string_of_Z t +:+ ".pprof" in
  Logger_Println (logger p) [LStr "Taking Block Profile Snapshot:"; LStr pprofFile];;
  '(f, err) ← os_Create pprofFile;
  log_err p err;;
  let profile := pprof_Lookup "block" in
  err ← Profile_WriteTo profile f 2;
  log_err p err;;
  err ← File_Close f;
  log_err p err;;
  runtime_SetBlockProfileRate 0.

(** collect Goroutine profiling information *)
Definition takeGoroutineSnapshot (p : profiler) : M unit :=
  t ← time_Now_Unix;
  let pprofFile := Prefix (conf p) +:+ "goroutine." +:+ string_of_Z t +:+ ".pprof" in
  Logger_Println (logger p) [LStr "Taking Goroutine Profile Snapshot:"; LStr pprofFile];;
  '(f, err) ← os_Create pprofFile;
  log_err p err;;
  let profile := pprof_Lookup "goroutine" in
  err ← Profile_WriteTo profile f 2;
  log_err p err;;
  err ← File_Close f;
  log_err p err.

(** collect Mutex profiling information *)
Definition takeMutexSnapshot (p : profiler) : M unit :=
  t ← time_Now_Unix;
  let pprofFile := Prefix (conf p) +:+ "mutex." +:+ string_of_Z t +:+ ".pprof" in
  Logger_Println (logger p) [LStr "Taking Mutex Profile Snapshot:"; LStr pprofFile];;
  '(f, err) ← os_Create pprofFile;
  log_err p err;;
  let profile := pprof_Lookup "mutex" in
  err ← Profile_WriteTo profile f 2;
  log_err p err;;
  err ← File_Close f;
  log_err p err.

(** The loop [for _, c := range p.closers { c() }]. *)
Fixpoint range_closers (p : profiler) (cs : list Closer) : M unit :=
  match cs with
  | [] => mret tt
  | c :: cs' => call_closer p c;; range_closers p cs'
  end.

(** The five guarded calls at the head of [TakeSnapshot]. *)
Definition snapshot_kinds (p : profiler) : M unit :=
  when (CPU (conf p)) (takeCPUSnapshot p);;
  when (Memory (conf p)) (takeMemorySnapshot p);;
  when (Block (conf p)) (takeBlockSnapshot p);;
  when (Goroutine (conf p)) (takeGoroutineSnapshot p);;
  when (Mutex (conf p)) (takeMutexSnapshot p).

(** TakeSnapshot takes a profiling data snapshot for the enabled
    resources *)
Definition TakeSnapshot (p : profiler) : M profiler :=
  snapshot_kinds p;;
  range_closers p (closers p);;
  mret (set_closers [] p).

(** Stop terminates the active profiler(s) *)
Definition Stop (p : profiler) : M unit :=
  close_chan (terminateCh p).

(** ** [Run]

    [Run] blocks in a [select] on the timer and on the termination
    channel. The embedding cuts it at that point: [Run_enter] is the
    body up to the [select] and says whether the call has returned or is
    blocked there; [Run_select] is what the body does once the [select]
    has chosen a case. *)

Inductive RunState :=
| Returned
| Blocked (timer : Duration).

Inductive SelectCase := case_timer_C | case_terminateCh.

(** The activation phase: the four guarded statements at the head of
    [Run]. *)
Definition Run_activate (p : profiler) : M profiler :=
  p ← (if CPU (conf p) then
         when (0 <? CPUProfileRate (conf p))
           (runtime_SetCPUProfileRate (CPUProfileRate (conf p)));;
         startProfilingCPU p
       else mret p);
  when (Memory (conf p))
    (runtime_MemProfileRate_assign (MemoryProfileRate (conf p)));;
  when (Block (conf p)) (runtime_SetBlockProfileRate 1);;
  when (Mutex (conf p))
    (runtime_SetMutexProfileFraction (MutexProfileFraction (conf p)));;
  mret p.

(** From the test on [isOn] and the interval to the [select]. *)
Definition Run_schedule (p : profiler) : M (profiler * RunState) :=
  if isOn (conf p) && negb (String.eqb "" (Interval (conf p))) then
    match ParseDuration env (Interval (conf p)) with
    | inr err =>
        Logger_Println log_std
          [LStr "Error parsing interval parameter:"; LErr err];;
        mret (p, Returned)
    | inl interval =>
        time_NewTimer interval;;
        mret (p, Blocked interval)
    end
  else mret (p, Returned).

Definition Run_enter (p : profiler) : M (profiler * RunState) :=
  p ← Run_activate p;
  Run_schedule p.

(** The two cases of the [select]. *)
Definition Run_select (c : SelectCase) (p : profiler)
  : M (profiler * RunState) :=
  match c with
  | case_timer_C =>
      p ← TakeSnapshot p;
      (* start again *)
      Run_enter p
  | case_terminateCh =>
      p ← TakeSnapshot p;
      mret (p, Returned)
  end.

(** Run starts the profiler. [wakes] lists the cases the successive
    [select]s choose; [Run] is still blocked when the list runs out. *)
Fixpoint Run_resume (wakes : list SelectCase) (r : profiler * RunState)
  : M (profiler * RunState) :=
  match r, wakes with
  | (p, Blocked _), c :: wakes' => r' ← Run_select c p; Run_resume wakes' r'
  | _, _ => mret r
  end.

Definition Run (wakes : list SelectCase) (p : profiler)
  : M (profiler * RunState) :=
  r ← Run_enter p;
  Run_resume wakes r.
End Profiler.

(** ** The controller and its callers

    A [System] is a controller, the state of its [Run] call ([Returned]:
    not running), the world and the trace so far. Its steps are the
    operations of the package, as the callers of the package and the
    scheduler drive them:
    - [op_Run]: [Run] is called (it is not running);
    - [op_select c]: the [select] [Run] is blocked in takes the case [c];
    - [op_TakeSnapshot], [op_Stop]: a caller calls the method.
    A [select] takes a case that is ready: the termination case once
    [Stop] has closed the channel; the timer case when the timer has
    expired. A [select] that is blocked is woken by one channel operation,
    which fixes its case: when the channel is closed before the timer has
    expired, the timer case is out. While the channel is open the timer
    case can be taken at any later time, so the model puts no condition on
    it then.
    Each operation runs to its end before the next one starts: the package
    has no lock, and what two of its methods do when they overlap in time
    is outside this model. A panic ends the run. *)

Record System := {
  sys_p : profiler;
  sys_run : RunState;
  sys_w : World;
  sys_trace : list Event
}.

Inductive Op :=
| op_Run
| op_select (c : SelectCase)
| op_TakeSnapshot
| op_Stop.

Inductive StepResult :=
| Next (s : System)
| Crash (e : error) (s : System)
| Disabled.

Definition chan_closed (w : World) (c : nat) : bool :=
  match chans w !! c with
  | Some true => true
  | _ => false
  end.

Definition select_enabled (env : Env) (w : World) (p : profiler)
    (c : SelectCase) : bool :=
  match c with
  | case_terminateCh => chan_closed w (terminateCh p)
  | case_timer_C =>
      negb (chan_closed w (terminateCh p)) || timer_fired env (tick w)
  end.

Section Controller.
Context (env : Env).

(** The method an operation calls, if it can take place now. *)
Definition op_call (o : Op) (s : System) : option (M (profiler * RunState)) :=
  match o, sys_run s with
  | op_Run, Returned => Some (Run_enter env (sys_p s))
  | op_select c, Blocked _ =>
      if select_enabled env (sys_w s) (sys_p s) c
      then Some (Run_select env c (sys_p s))
      else None
  | op_TakeSnapshot, st =>
      Some (p ← TakeSnapshot env (sys_p s); mret (p, st))
  | op_Stop, st => Some (Stop (sys_p s);; mret (sys_p s, st))
  | _, _ => None
  end.

Definition step (o : Op) (s : System) : StepResult :=
  match op_call o s with
  | None => Disabled
  | Some m =>
      match m (sys_w s) with
      | (evs, Done (p, st) w) =>
          Next {| sys_p := p; sys_run := st; sys_w := w;
                  sys_trace := sys_trace s ++ evs |}
      | (evs, Panic e w) =>
          Crash e {| sys_p := sys_p s; sys_run := sys_run s; sys_w := w;
                     sys_trace := sys_trace s ++ evs |}
      end
  end.

Fixpoint exec (ops : list Op) (s : System) : StepResult :=
  match ops with
  | [] => Next s
  | o :: ops' =>
      match step o s with
      | Next s' => exec ops' s'
      | r => r
      end
  end.

(** The system right after [NewProfiler c] in world [w]. *)
Definition boot (c : Config) (w : World) : System :=
  match NewProfiler c w with
  | (evs, Done p w') =>
      {| sys_p := p; sys_run := Returned; sys_w := w'; sys_trace := evs |}
  | (evs, Panic _ w') =>
      {| sys_p := {| conf := c; terminateCh := 0; closers := [];
                     logger := log_std |};
         sys_run := Returned; sys_w := w'; sys_trace := evs |}
  end.
End Controller.

(** ** An earlier revision of [profiler.go]

    The repository also holds an earlier revision of the file, without
    mutex profiling and without a logger, in which every method has a value
    receiver: each call works on a copy of the controller, so no method
    returns a controller here, and what [startProfilingCPU] appends to its
    copy of the cleanup list and what [TakeSnapshot] assigns to it are
    lost when the call returns. Errors of the writes and of [Close] are
    dropped. *)
Module Earlier.

Record Config := {
  CPU : bool;
  Memory : bool;
  Block : bool;
  Goroutine : bool;
  Prefix : string;
  Interval : string;
  MemoryProfileRate : Z;
  CPUProfileRate : Z
}.

Record profiler := {
  conf : Config;
  terminateCh : nat;
  closers : list Closer
}.

Definition set_closers (cs : list Closer) (p : profiler) : profiler :=
  {| conf := conf p; terminateCh := terminateCh p; closers := cs |}.

Definition isOn (c : Config) : bool :=
  CPU c || Memory c || Goroutine c || Block c.

(** [fmt.Println] writes to the standard output. *)
Definition fmt_Stdout : Logger := {| out := Stdout; prefix := ""; flags := 0 |}.
Definition fmt_Println (args : list LogArg) : M unit :=
  emit (ELog fmt_Stdout args).

Section Methods.
Context (env : Env).

Definition NewProfiler (c : Config) : M profiler :=
  ch ← make_chan;
  mret {| conf := c; terminateCh := ch; closers := [] |}.

(** The closure [func() { f.Close() }]. *)
Definition call_closer (c : Closer) : M unit :=
  match c with
  | CloseFile f => _ ← File_Close env f; mret tt
  end.

Definition startProfilingCPU (p : profiler) : M unit :=
  t ← time_Now_Unix env;
  let pprofFile := Prefix (conf p) +:+ "cpu." +:+ string_of_Z t +:+ ".pprof" in
  fmt_Println [LStr "Starting new CPU Profiler:"; LStr pprofFile];;
  '(f, err) ← os_Create env pprofFile;
  match err with
  | Some e => panic e
  | None =>
      _ ← pprof_StartCPUProfile f;
      (* the assignment to the receiver's copy *)
      let p := set_closers (closers p ++ [CloseFile f]) p in
      mret tt
  end.

Definition takeCPUSnapshot (p : profiler) : M unit :=
  fmt_Println [LStr "Stopping CPU Profiler"];;
  pprof_StopCPUProfile.

Definition takeMemorySnapshot (p : profiler) : M unit :=
  t ← time_Now_Unix env;
  let pprofFile := Prefix (conf p) +:+ "mem." +:+ string_of_Z t +:+ ".pprof" in
  fmt_Println [LStr "Taking Memory Profile Snapshot:"; LStr pprofFile];;
  '(f, err) ← os_Create env pprofFile;
  match err with Some e => fmt_Println [LErr e] | None => mret tt end;;
  _ ← pprof_WriteHeapProfile env f;
  _ ← File_Close env f;
  mret tt.

Definition takeBlockSnapshot (p : profiler) : M unit :=
  t ← time_Now_Unix env;
  let pprofFile := Prefix (conf p) +:+ "block." +:+ string_of_Z t +:+ ".pprof" in
  fmt_Println [LStr "Taking Block Profile Snapshot:"; LStr pprofFile];;
  '(f, err) ← os_Create env pprofFile;
  match err with Some e => fmt_Println [LErr e] | None => mret tt end;;
  let profile := pprof_Lookup "block" in
  _ ← Profile_WriteTo env profile f 2;
  _ ← File_Close env f;
  runtime_SetBlockProfileRate 0.

Definition takeGoroutineSnapshot (p : profiler) : M unit :=
  t ← time_Now_Unix env;
  let pprofFile :=
    Prefix (conf p) +:+ "goroutine." +:+ string_of_Z t +:+ ".pprof" in
  fmt_Println [LStr "Taking Goroutine Profile Snapshot:"; LStr pprofFile];;
  '(f, err) ← os_Create env pprofFile;
  match err with Some e => fmt_Println [LErr e] | None => mret tt end;;
  let profile := pprof_Lookup "goroutine" in
  _ ← Profile_WriteTo env profile f 2;
  _ ← File_Close env f;
  mret tt.

Fixpoint range_closers (cs : list Closer) : M unit :=
  match cs with
  | [] => mret tt
  | c :: cs' => call_closer c;; range_closers cs'
  end.

Definition TakeSnapshot (p : profiler) : M unit :=
  when (CPU (conf p)) (takeCPUSnapshot p);;
  when (Memory (conf p)) (takeMemorySnapshot p);;
  when (Block (conf p)) (takeBlockSnapshot p);;
  when (Goroutine (conf p)) (takeGoroutineSnapshot p);;
  range_closers (closers p);;
  (* the assignment to the receiver's copy *)
  let p := set_closers [] p in
  mret tt.

Definition Stop (p : profiler) : M unit :=
  close_chan (terminateCh p).

Definition Run_enter (p : profiler) : M RunState :=
  (if CPU (conf p) then
     when (0 <? CPUProfileRate (conf p))
       (runtime_SetCPUProfileRate (CPUProfileRate (conf p)));;
     startProfilingCPU p
   else mret tt);;
  when (Memory (conf p))
    (runtime_MemProfileRate_assign (MemoryProfileRate (conf p)));;
  when (Block (conf p)) (runtime_SetBlockProfileRate 1);;
  if isOn (conf p) && negb (String.eqb "" (Interval (conf p))) then
    match ParseDuration env (Interval (conf p)) with
    | inr err => fmt_Println [LErr err];; mret Returned
    | inl interval => time_NewTimer interval;; mret (Blocked interval)
    end
  else mret Returned.

Definition Run_select (c : SelectCase) (p : profiler) : M RunState :=
  match c with
  | case_timer_C => TakeSnapshot p;; Run_enter p
  | case_terminateCh => TakeSnapshot p;; mret Returned
  end.

Fixpoint Run_resume (wakes : list SelectCase) (p : profiler) (st : RunState)
  : M RunState :=
  match st, wakes with
  | Blocked _, c :: wakes' => st' ← Run_select c p; Run_resume wakes' p st'
  | _, _ => mret st
  end.

Definition Run (wakes : list SelectCase) (p : profiler) : M RunState :=
  st ← Run_enter p;
  Run_resume wakes p st.

End Methods.
End Earlier.

(** ** Reading a trace *)

(** The kinds of profile and the label each carries in a file name. *)
Inductive Kind := cpu | mem | block | goroutine | mutex.

#[export] Instance Kind_eq_dec : EqDecision Kind.
Proof. solve_decision. Defined.

Definition kind_label (k : Kind) : string :=
  match k with
  | cpu => "cpu"
  | mem => "mem"
  | block => "block"
  | goroutine => "goroutine"
  | mutex => "mutex"
  end.

Definition enabled (c : Config) (k : Kind) : bool :=
  match k with
  | cpu => CPU c
  | mem => Memory c
  | block => Block c
  | goroutine => Goroutine c
  | mutex => Mutex c
  end.

(** The artifact name [<prefix><kind>.<unix-seconds>.pprof]. *)
Definition artifact_name (pre : string) (k : Kind) (t : Z) : string :=
  pre +:+ kind_label k +:+ "." +:+ string_of_Z t +:+ ".pprof".

(** Names passed to [os.Create], files passed to [Close], timers armed. *)
Definition created (evs : list Event) : list string :=
  flat_map (fun e => match e with ECreate n _ _ => [n] | _ => [] end) evs.

Definition closed (evs : list Event) : list File :=
  flat_map (fun e => match e with EClose f _ => [f] | _ => [] end) evs.

Definition timers (evs : list Event) : list Duration :=
  flat_map (fun e => match e with ENewTimer d => [d] | _ => [] end) evs.

Definition is_log (e : Event) : bool :=
  match e with ELog _ _ => true | _ => false end.

(** The trace without the log lines. *)
Definition calls (evs : list Event) : list Event :=
  List.filter (fun e => negb (is_log e)) evs.

(** More readers of a trace. [snapshots] lists the capture calls by kind:
    stopping the CPU profile, writing the heap profile, writing a named
    profile. [opens] lists the files [os.Create] returned, [targets] the
    files a profile was written to. [errors] lists the errors returned by
    [os.Create], by the writes and by [Close]; [logged] lists the errors
    printed on their own by a logger. *)
Definition kind_of_profile (name : string) : list Kind :=
  if String.eqb name "block" then [block]
  else if String.eqb name "goroutine" then [goroutine]
  else if String.eqb name "mutex" then [mutex]
  else [].

Definition snapshots (evs : list Event) : list Kind :=
  flat_map (fun e => match e with
                     | EStopCPUProfile => [cpu]
                     | EWriteHeapProfile _ _ => [mem]
                     | EWriteTo name _ _ _ => kind_of_profile name
                     | _ => []
                     end) evs.

Definition opens (evs : list Event) : list File :=
  flat_map (fun e => match e with ECreate _ f _ => [f] | _ => [] end) evs.

Definition targets (evs : list Event) : list File :=
  flat_map (fun e => match e with
                     | EWriteHeapProfile f _ => [f]
                     | EWriteTo _ f _ _ => [f]
                     | _ => []
                     end) evs.

(** The profiles written without error to a file that was opened. *)
Definition persisted (evs : list Event) : list (Kind * Fd) :=
  flat_map (fun e => match e with
                     | EWriteHeapProfile (Some fd) None => [(mem, fd)]
                     | EWriteTo name (Some fd) _ None =>
                         map (fun k => (k, fd)) (kind_of_profile name)
                     | _ => []
                     end) evs.

(** The writes of a profile: the kind written and the file written to. *)
Definition attempts (evs : list Event) : list (Kind * File) :=
  flat_map (fun e => match e with
                     | EWriteHeapProfile f _ => [(mem, f)]
                     | EWriteTo name f _ _ =>
                         map (fun k => (k, f)) (kind_of_profile name)
                     | _ => []
                     end) evs.

Definition errors (evs : list Event) : list error :=
  flat_map (fun e => match e with
                     | ECreate _ _ (Some x) => [x]
                     | EWriteHeapProfile _ (Some x) => [x]
                     | EWriteTo _ _ _ (Some x) => [x]
                     | EClose _ (Some x) => [x]
                     | _ => []
                     end) evs.

Definition logged (evs : list Event) : list error :=
  flat_map (fun e => match e with ELog _ [LErr x] => [x] | _ => [] end) evs.

Definition all_kinds : list Kind := [cpu; mem; block; goroutine; mutex].

(** The snapshot of one kind, as [TakeSnapshot] calls it. *)
Definition takeKind (env : Env) (k : Kind) : profiler -> M unit :=
  match k with
  | cpu => takeCPUSnapshot
  | mem => takeMemorySnapshot env
  | block => takeBlockSnapshot env
  | goroutine => takeGoroutineSnapshot env
  | mutex => takeMutexSnapshot env
  end.

(** ** Reasoning about [M]

    [wp m w Q E]: run from [w], [m] returns with [Q] or panics with [E].
    [returns m w Q]: run from [w], [m] returns, with [Q]. *)

Definition wp {A} (m : M A) (w : World)
  (Q : list Event -> A -> World -> Prop)
  (E : list Event -> error -> World -> Prop) : Prop :=
  match m w with
  | (evs, Done a w') => Q evs a w'
  | (evs, Panic e w') => E evs e w'
  end.

Definition returns {A} (m : M A) (w : World)
  (Q : list Event -> A -> World -> Prop) : Prop :=
  wp m w Q (fun _ _ _ => False).

(** What a step leaves alone or only lets grow: the channel store, the
    clock's answers used, the descriptors handed out. Files closed in the
    step are nil, listed in [L], or were opened in the step. *)
Record frame (L : list File) (w : World) (evs : list Event) (w' : World)
  : Prop := {
  frame_tick : (tick w <= tick w')%nat;
  frame_fd : (nextFd w <= nextFd w')%nat;
  frame_chans : chans w' = chans w;
  frame_nextCh : nextCh w' = nextCh w;
  frame_opens : forall fd, In (Some fd) (opens evs) ->
                           (nextFd w <= fd < nextFd w')%nat;
  frame_closed : forall f, In f (closed evs) ->
                           f = None \/ In f L \/ In f (opens evs)
}.

(** ** Activation

    The calls of the activation phase of [Run], in program order, for a
    configuration [c], the CPU artifact [name], the file [f] it opened and
    the answer [r] of [pprof.StartCPUProfile]. *)
Definition activation_calls (c : Config) (name : string) (f : File)
    (r : option error) : list Event :=
  (if CPU c then
     (if 0 <? CPUProfileRate c then [ESetCPUProfileRate (CPUProfileRate c)]
      else [])
     ++ [ECreate name f None; EStartCPUProfile f r]
   else [])
  ++ (if Memory c then [ESetMemProfileRate (MemoryProfileRate c)] else [])
  ++ (if Block c then [ESetBlockProfileRate 1] else [])
  ++ (if Mutex c then [ESetMutexProfileFraction (MutexProfileFraction c)]
      else []).

(** [pprof.StartCPUProfile] answers from the state of the CPU profiler. *)
Definition start_answer (w : World) : option error :=
  match rt_cpuProfiling w with
  | Some _ => Some ErrCPUInUse
  | None => None
  end.

(** ** Summaries of a run *)

Section Summaries.
Context (env : Env).

(** A name built in a step carries a reading of the clock made in that
    step. *)
Definition stamped (pre : string) (w w' : World) (k : Kind) (n : string)
  : Prop :=
  exists i, (tick w <= i < tick w')%nat
            /\ n = artifact_name pre k (clock env i).

Definition file_kinds (K : list Kind) : list Kind :=
  List.filter (fun k => match k with cpu => false | _ => true end) K.

(** What the snapshots of the kinds [K], taken in this order, leave in
    the trace: one capture call per kind; one file opened per kind other
    than CPU, named after the kind; each profile written to the file just
    opened and that file closed; each error logged; no timer. *)
Record kinds_summary (p : profiler) (K : list Kind)
    (w : World) (evs : list Event) (w' : World) : Prop := {
  ks_snapshots : snapshots evs = K;
  ks_created : Forall2 (stamped (Prefix (conf p)) w w') (file_kinds K) (created evs);
  ks_targets : targets evs = opens evs;
  ks_closed : closed evs = opens evs;
  ks_errors : errors evs = logged evs;
  ks_timers : timers evs = [];
  ks_frame : frame [] w evs w';
  ks_attempts : attempts evs = combine (file_kinds K) (opens evs);
  ks_length : length (opens evs) = length (file_kinds K)
}.

(** Running the cleanup list: the files of the list are closed, in the
    order of the list, and nothing else happens but the logging of the
    errors. *)
Record closers_summary (fs : list File)
    (w : World) (evs : list Event) (w' : World) : Prop := {
  cs_closed : closed evs = fs;
  cs_opens : opens evs = [];
  cs_created : created evs = [];
  cs_snapshots : snapshots evs = [];
  cs_targets : targets evs = [];
  cs_timers : timers evs = [];
  cs_errors : errors evs = logged evs;
  cs_frame : frame fs w evs w';
  cs_nextFd : nextFd w' = nextFd w;
  cs_cpuProfiling : rt_cpuProfiling w' = rt_cpuProfiling w;
  cs_BlockProfileRate : rt_BlockProfileRate w' = rt_BlockProfileRate w
}.

(** The name of the CPU artifact [Run] opens from world [w]. *)
Definition cpu_name (p : profiler) (w : World) : string :=
  artifact_name (Prefix (conf p)) cpu (clock env (tick w)).

(** Whether [os.Create] lets [Run] open its CPU artifact from [w]. *)
Definition cpu_create_err (p : profiler) (w : World) : option error :=
  if CPU (conf p) then create_err env (S (tick w)) (cpu_name p w) else None.

(** What the activation phase of [Run] leaves when it returns: the CPU
    artifact was opened, if CPU is on, and its file appended to the cleanup
    list; the calls are [activation_calls]; the switches of the enabled
    kinds are set (the mutex fraction unless the configured one is
    negative). *)
Record activated (p : profiler) (w : World)
    (evs : list Event) (p' : profiler) (w' : World) : Prop := {
  act_create : cpu_create_err p w = None;
  act_profiler :
    p' = if CPU (conf p)
         then set_closers (closers p ++ [CloseFile (Some (nextFd w))]) p
         else p;
  act_calls :
    calls evs =
      activation_calls (conf p) (cpu_name p w) (Some (nextFd w))
        (start_answer w);
  act_created : created evs = if CPU (conf p) then [cpu_name p w] else [];
  act_opens : opens evs = if CPU (conf p) then [Some (nextFd w)] else [];
  act_closed : closed evs = [];
  act_snapshots : snapshots evs = [];
  act_timers : timers evs = [];
  act_frame : frame [] w evs w';
  act_tick : (tick w' <= tick w + 2)%nat
             /\ (CPU (conf p) = true -> tick w' = tick w + 2)%nat;
  act_cpu :
    CPU (conf p) = true ->
    rt_cpuProfiling w' =
      match rt_cpuProfiling w with
      | Some f => Some f
      | None => Some (Some (nextFd w))
      end;
  act_mem :
    Memory (conf p) = true ->
    rt_MemProfileRate w' = MemoryProfileRate (conf p);
  act_block : Block (conf p) = true -> rt_BlockProfileRate w' = 1;
  act_mutex :
    Mutex (conf p) = true ->
    rt_MutexProfileFraction w' =
      if MutexProfileFraction (conf p) <? 0 then rt_MutexProfileFraction w
      else MutexProfileFraction (conf p)
}.

(** What every operation respects. [effect p w evs p' w']: a run from
    controller [p] in world [w] to [p'] in [w'] with trace [evs] keeps the
    configuration, the channel and the logger of the controller; closes
    only nil files, files of the cleanup list of [p] and files it opened
    itself; leaves in the cleanup list only what was there or what it
    opened; and opens only files named [<prefix><kind>.<time>.pprof] for a
    reading of the clock it made. *)
Record effect (p : profiler) (w : World) (evs : list Event)
    (p' : profiler) (w' : World) : Prop := {
  eff_conf : conf p' = conf p;
  eff_chan : terminateCh p' = terminateCh p;
  eff_logger : logger p' = logger p;
  eff_tick : (tick w <= tick w')%nat;
  eff_fd : (nextFd w <= nextFd w')%nat;
  eff_opens : forall fd, In (Some fd) (opens evs) ->
                         (nextFd w <= fd < nextFd w')%nat;
  eff_closed : forall f, In f (closed evs) ->
               f = None \/ In (CloseFile f) (closers p) \/ In f (opens evs);
  eff_closers : forall c, In c (closers p') ->
                In c (closers p)
                \/ exists fd, c = CloseFile (Some fd) /\ In (Some fd) (opens evs);
  eff_created : Forall (fun n => exists k, stamped (Prefix (conf p)) w w' k n)
                  (created evs)
}.

End Summaries.

(** The state a step or a run ends in, also when it ends in a panic. *)
Definition final (r : StepResult) : option System :=
  match r with
  | Next s => Some s
  | Crash _ s => Some s
  | Disabled => None
  end.

Definition is_Next (r : StepResult) : bool :=
  match r with Next _ => true | _ => false end.

Definition is_Stop (o : Op) : bool :=
  match o with op_Stop => true | _ => false end.

(** ** An environment to run examples in

    [simple_ParseDuration] reads a decimal number followed by one unit; it
    stands in for [time.ParseDuration] in the examples only. Its errors
    carry the messages of [time.ParseDuration], which quotes the strings. *)

Definition quoted (s : string) : string :=
  String "034"%char (s +:+ String "034"%char EmptyString).

Definition digit_of (a : ascii) : option Z :=
  let n := Z.of_nat (nat_of_ascii a) in
  if (48 <=? n) && (n <=? 57) then Some (n - 48) else None.

Fixpoint read_digits (acc : option Z) (s : string) : option Z * string :=
  match s with
  | String a s' =>
      match digit_of a with
      | Some d => read_digits (Some (10 * default 0 acc + d)) s'
      | None => (acc, s)
      end
  | EmptyString => (acc, s)
  end.

Definition unit_ns (u : string) : option Z :=
  if String.eqb u "ns" then Some 1
  else if String.eqb u "us" then Some 1000
  else if String.eqb u "ms" then Some 1000000
  else if String.eqb u "s" then Some 1000000000
  else if String.eqb u "m" then Some 60000000000
  else if String.eqb u "h" then Some 3600000000000
  else None.

Definition simple_ParseDuration (s : string) : Duration + error :=
  match read_digits None s with
  | (Some n, u) =>
      match unit_ns u with
      | Some k => inl (n * k)
      | None =>
          if String.eqb u EmptyString
          then inr (Err ("time: missing unit in duration " +:+ quoted s))
          else inr (Err ("time: unknown unit " +:+ quoted u
                         +:+ " in duration " +:+ quoted s))
      end
  | (None, _) => inr (Err ("time: invalid duration " +:+ quoted s))
  end.

(** An environment where nothing fails and the clock stands still. *)
Definition calm (t : Z) : Env :=
  {| ParseDuration := simple_ParseDuration;
     clock := fun _ => t;
     create_err := fun _ _ => None;
     write_err := fun _ _ => None;
     close_err := fun _ _ => None;
     timer_fired := fun _ => false |}.

(** An environment where the clock advances by one second at every
    answer. *)
Definition ticking (t : Z) : Env :=
  {| ParseDuration := simple_ParseDuration;
     clock := fun n => t + Z.of_nat n;
     create_err := fun _ _ => None;
     write_err := fun _ _ => None;
     close_err := fun _ _ => None;
     timer_fired := fun _ => false |}.

(** An environment where every [os.Create] of a name in [bad] fails. *)
Definition failing (t : Z) (bad : list string) : Env :=
  {| ParseDuration := simple_ParseDuration;
     clock := fun _ => t;
     create_err := fun _ n =>
       if existsb (String.eqb n) bad then Some (Err ("open " +:+ n)) else None;
     write_err := fun _ f =>
       match f with None => Some ErrInvalid | Some _ => None end;
     close_err := fun _ _ => None;
     timer_fired := fun _ => false |}.

(** An environment where every [os.Create] fails from the answer [n] on. *)
Definition failing_from (t : Z) (n : nat) : Env :=
  {| ParseDuration := simple_ParseDuration;
     clock := fun _ => t;
     create_err := fun i name =>
       if (n <=? i)%nat then Some (Err ("open " +:+ name)) else None;
     write_err := fun _ f =>
       match f with None => Some ErrInvalid | Some _ => None end;
     close_err := fun _ _ => None;
     timer_fired := fun _ => false |}.

Definition world0 : World :=
  {| tick := 0; nextFd := 3%nat; nextCh := 0; chans := ∅;
     rt_CPUProfileRate := 0; rt_MemProfileRate := 524288;
     rt_BlockProfileRate := 0; rt_MutexProfileFraction := 0;
     rt_cpuProfiling := None |}.

Definition conf_cpu_mem : Config :=
  {| CPU := true; Memory := true; Block := false; Goroutine := false;
     Mutex := false; Prefix := "/tmp/t."; Interval := "50ms";
     MemoryProfileRate := 1; CPUProfileRate := 0;
     MutexProfileFraction := 0 |}.

(** The system after [NewProfiler conf_cpu_mem] and the start of [Run]:
    blocked in the [select], the CPU file in the cleanup list. *)
Definition blocked_example : System :=
  Eval vm_compute in
    match exec (ticking 100) [op_Run] (boot conf_cpu_mem world0) with
    | Next s => s
    | _ => boot conf_cpu_mem world0
    end.

(** The conditions under which [Run] reaches its [select], with the
    duration it arms the timer with. *)
Definition scheduled (env : Env) (c : Config) (d : Duration) : Prop :=
  isOn c = true /\ Interval c <> "" /\ ParseDuration env (Interval c) = inl d.

(** The cleanup list holds open files handed out earlier. *)
Definition closers_known (p : profiler) (w : World) : Prop :=
  forall c, In c (closers p) ->
            exists fd, c = CloseFile (Some fd) /\ (fd < nextFd w)%nat.

(** The system after two starts of [Run] with no interval: two CPU files
    in the cleanup list. *)
Definition conf_cpu_once : Config :=
  {| CPU := true; Memory := true; Block := false; Goroutine := false;
     Mutex := false; Prefix := "/tmp/t."; Interval := "";
     MemoryProfileRate := 1; CPUProfileRate := 0;
     MutexProfileFraction := 0 |}.

Definition two_closers_example : System :=
  Eval vm_compute in
    match exec (calm 100) [op_Run; op_Run] (boot conf_cpu_once world0) with
    | Next s => s
    | _ => boot conf_cpu_once world0
    end.

(** The names [names] are artifact names under the prefix [pre] that all
    carry one time. *)
Definition share_stamp (pre : string) (names : list string) : Prop :=
  exists t, forall n, In n names -> exists k, n = artifact_name pre k t.

(** A controller with memory and block profiling on. *)
Definition conf_mem_block : Config :=
  {| CPU := false; Memory := true; Block := true; Goroutine := false;
     Mutex := false; Prefix := "/tmp/t."; Interval := "";
     MemoryProfileRate := 1; CPUProfileRate := 0;
     MutexProfileFraction := 0 |}.

(** The system after [NewProfiler conf_cpu_mem] and the start of [Run],
    under a clock that stands still. *)
Definition calm_example : System :=
  Eval vm_compute in
    match exec (calm 100) [op_Run] (boot conf_cpu_mem world0) with
    | Next s => s
    | _ => boot conf_cpu_mem world0
    end.

(** The earlier revision's controller for CPU and memory profiling every
    50ms, as [NewProfiler] builds it in [world0]. *)
Definition earlier_example : Earlier.profiler :=
  {| Earlier.conf :=
       {| Earlier.CPU := true; Earlier.Memory := true;
          Earlier.Block := false; Earlier.Goroutine := false;
          Earlier.Prefix := "/tmp/t."; Earlier.Interval := "50ms";
          Earlier.MemoryProfileRate := 1; Earlier.CPUProfileRate := 0 |};
     Earlier.terminateCh := 0;
     Earlier.closers := [] |}.

(** A configuration whose interval does not parse. *)
Definition conf_banana : Config :=
  {| CPU := true; Memory := true; Block := true; Goroutine := false;
     Mutex := true; Prefix := "/tmp/t."; Interval := "banana";
     MemoryProfileRate := 1; CPUProfileRate := 100;
     MutexProfileFraction := 5 |}.

(** ** Further readers and relations *)

(** The descriptors among a list of files (the nil file left out). *)
Definition somes (fs : list File) : list Fd := omap id fs.

(** The descriptors on the cleanup list of a controller. *)
Definition closer_fds (p : profiler) : list Fd :=
  somes (map closer_file (closers p)).

(** The files [pprof.StartCPUProfile] was called on. *)
Definition started (evs : list Event) : list File :=
  flat_map (fun e => match e with EStartCPUProfile f _ => [f] | _ => [] end)
    evs.

(** The three sampling rates of the runtime are the same in [w'] as in
    [w]. *)
Definition keeps_rates (w w' : World) : Prop :=
  rt_CPUProfileRate w' = rt_CPUProfileRate w
  /\ rt_MemProfileRate w' = rt_MemProfileRate w
  /\ rt_MutexProfileFraction w' = rt_MutexProfileFraction w.

(** The books of the files across a run from controller [p] in world [w]
    to [p'] in [w'] with trace [evs]: the descriptors handed out are the
    consecutive ones from [nextFd w]; the descriptors opened in the run
    together with those on the cleanup list before it are those closed in
    the run together with those on the cleanup list after it. *)
Record ledger (p : profiler) (w : World) (evs : list Event)
    (p' : profiler) (w' : World) : Prop := {
  led_fd : (nextFd w <= nextFd w')%nat;
  led_opens : somes (opens evs) = seq (nextFd w) (nextFd w' - nextFd w);
  led_balance :
    somes (opens evs) ++ closer_fds p ≡ₚ somes (closed evs) ++ closer_fds p'
}.

(** The capture calls an operation makes on a controller configured with
    [c]: one round of the enabled kinds for a call of [TakeSnapshot] and
    for either case of the [select], none for [Run] and [Stop]. *)
Definition rounds (c : Config) (o : Op) : list Kind :=
  match o with
  | op_TakeSnapshot | op_select _ => List.filter (enabled c) all_kinds
  | op_Run | op_Stop => []
  end.

(** An operation that enters [Run]: a call of it, or the timer case of its
    [select]. *)
Definition enters_Run (o : Op) : bool :=
  match o with
  | op_Run | op_select case_timer_C => true
  | _ => false
  end.

Definition is_select (o : Op) : bool :=
  match o with op_select _ => true | _ => false end.

(** What a run of operations adds to the trace [evs] of a controller
    configured with [c]: the capture calls are the rounds of the
    operations, and every timer armed carries the parsed interval. *)
Record paced (env : Env) (c : Config) (ops : list Op) (evs : list Event)
  : Prop := {
  paced_snapshots : snapshots evs = flat_map (rounds c) ops;
  paced_timers : Forall (scheduled env c) (timers evs);
  paced_count : (length (timers evs)
                 <= length (List.filter enters_Run ops))%nat
}.

(** The wake-ups of a [Run]: the number of expiries of the timer before
    the first termination, and whether there is a termination. *)
Fixpoint expiries (wakes : list SelectCase) : nat :=
  match wakes with
  | case_timer_C :: wakes' => S (expiries wakes')
  | _ => 0%nat
  end.

Definition is_terminate (c : SelectCase) : bool :=
  match c with case_terminateCh => true | case_timer_C => false end.

Definition terminated (wakes : list SelectCase) : bool :=
  existsb is_terminate wakes.

(** [os.Create] never refuses the CPU artifact of a controller configured
    with [c]. *)
Definition cpu_opens (env : Env) (c : Config) : Prop :=
  forall p w, conf p = c -> cpu_create_err env p w = None.

(** The files a run started the CPU profile on and the files it closed
    are apart: the first are descriptors handed out in the run, the second
    are nil or descriptors handed out in the run, and no file is among
    both. *)
Record apart (w : World) (evs : list Event) (w' : World) : Prop := {
  apart_fd : (nextFd w <= nextFd w')%nat;
  apart_started : forall f, In f (started evs) ->
                  exists fd, f = Some fd /\ (nextFd w <= fd < nextFd w')%nat;
  apart_closed : forall fd, In (Some fd) (closed evs) ->
                            (nextFd w <= fd < nextFd w')%nat;
  apart_disjoint : forall f, In f (started evs) -> ~ In f (closed evs)
}.

(** The system after [NewProfiler conf_cpu_mem] and a [Stop]: [Run] has not
    been called, the channel is closed. *)
Definition stopped_example : System :=
  Eval vm_compute in
    match exec (calm 100) [op_Stop] (boot conf_cpu_mem world0) with
    | Next s => s
    | _ => boot conf_cpu_mem world0
    end.

(** * Lemmas on the model *)

Lemma wp_bind {A B} (m : M A) (k : A -> M B) w Q E :
  wp m w (fun e1 a w1 =>
            wp (k a) w1 (fun e2 b w2 => Q (e1 ++ e2) b w2)
                        (fun e2 x w2 => E (e1 ++ e2) x w2)) E ->
  wp (m ≫= k) w Q E.
Proof.
  unfold wp, mbind, M_bind.
  destruct (m w) as [e1 [a w1|x w1]]; [|done].
  destruct (k a w1) as [e2 [b w2|x w2]]; done.
Qed.

Lemma wp_mono {A} (m : M A) w (Q Q' : list Event -> A -> World -> Prop)
    (E E' : list Event -> error -> World -> Prop) :
  wp m w Q E ->
  (forall evs a w', Q evs a w' -> Q' evs a w') ->
  (forall evs x w', E evs x w' -> E' evs x w') ->
  wp m w Q' E'.
Proof.
  unfold wp. destruct (m w) as [evs [a w'|x w']]; auto.
Qed.

Lemma returns_bind {A B} (m : M A) (k : A -> M B) w Q :
  returns m w (fun e1 a w1 =>
                 returns (k a) w1 (fun e2 b w2 => Q (e1 ++ e2) b w2)) ->
  returns (m ≫= k) w Q.
Proof.
  intros H. apply wp_bind.
  eapply wp_mono; [exact H| |]; simpl; auto.
Qed.

Lemma returns_mono {A} (m : M A) w (Q Q' : list Event -> A -> World -> Prop) :
  returns m w Q ->
  (forall evs a w', Q evs a w' -> Q' evs a w') ->
  returns m w Q'.
Proof.
  intros H HQ. eapply wp_mono; [exact H|exact HQ|auto].
Qed.

Lemma returns_when (b : bool) (m : M unit) w
    (Q : list Event -> unit -> World -> Prop) :
  (b = true -> returns m w Q) ->
  (b = false -> Q [] tt w) ->
  returns (when b m) w Q.
Proof. intros Ht Hf. destruct b; unfold when; [by apply Ht|by apply Hf]. Qed.

Lemma returns_eq {A} (m : M A) w Q :
  returns m w Q <-> exists evs a w', m w = (evs, Done a w') /\ Q evs a w'.
Proof.
  unfold returns, wp. destruct (m w) as [evs [a w'|x w']].
  - split; [eauto|]. by intros (? & ? & ? & [= <- <- <-] & ?).
  - split; [done|]. by intros (? & ? & ? & [=] & ?).
Qed.

Lemma returns_and {A} (m : M A) w (Q1 Q2 : list Event -> A -> World -> Prop) :
  returns m w Q1 -> returns m w Q2 ->
  returns m w (fun evs a w' => Q1 evs a w' /\ Q2 evs a w').
Proof.
  unfold returns, wp. destruct (m w) as [evs [a w'|x w']]; auto.
Qed.

Lemma combine_app {A B} (l1 l2 : list A) (k1 k2 : list B) :
  length l1 = length k1 ->
  combine (l1 ++ l2) (k1 ++ k2) = combine l1 k1 ++ combine l2 k2.
Proof.
  revert k1. induction l1 as [|a l1 IH]; intros [|b k1]; simpl; try done.
  intros [= H]. by rewrite IH.
Qed.

Lemma filter_cons_app {A} (f : A -> bool) (x : A) (l : list A) :
  List.filter f (x :: l) = (if f x then [x] else []) ++ List.filter f l.
Proof. simpl. by destruct (f x). Qed.

(** The readers distribute over the concatenation of traces. *)
Lemma created_app e1 e2 : created (e1 ++ e2) = created e1 ++ created e2.
Proof. apply flat_map_app. Qed.
Lemma closed_app e1 e2 : closed (e1 ++ e2) = closed e1 ++ closed e2.
Proof. apply flat_map_app. Qed.
Lemma timers_app e1 e2 : timers (e1 ++ e2) = timers e1 ++ timers e2.
Proof. apply flat_map_app. Qed.
Lemma snapshots_app e1 e2 : snapshots (e1 ++ e2) = snapshots e1 ++ snapshots e2.
Proof. apply flat_map_app. Qed.
Lemma opens_app e1 e2 : opens (e1 ++ e2) = opens e1 ++ opens e2.
Proof. apply flat_map_app. Qed.
Lemma targets_app e1 e2 : targets (e1 ++ e2) = targets e1 ++ targets e2.
Proof. apply flat_map_app. Qed.
Lemma persisted_app e1 e2 : persisted (e1 ++ e2) = persisted e1 ++ persisted e2.
Proof. apply flat_map_app. Qed.
Lemma errors_app e1 e2 : errors (e1 ++ e2) = errors e1 ++ errors e2.
Proof. apply flat_map_app. Qed.
Lemma logged_app e1 e2 : logged (e1 ++ e2) = logged e1 ++ logged e2.
Proof. apply flat_map_app. Qed.
Lemma attempts_app e1 e2 : attempts (e1 ++ e2) = attempts e1 ++ attempts e2.
Proof. apply flat_map_app. Qed.
Lemma calls_app e1 e2 : calls (e1 ++ e2) = calls e1 ++ calls e2.
Proof. apply List.filter_app. Qed.

Create Rewrite HintDb trace.
#[export] Hint Rewrite created_app closed_app timers_app snapshots_app
  opens_app targets_app persisted_app attempts_app errors_app logged_app
  calls_app : trace.

Lemma frame_nil L w : frame L w [] w.
Proof. split; simpl; auto; try lia; intros ? []. Qed.

Lemma frame_app L w e1 w1 e2 w2 :
  frame L w e1 w1 -> frame L w1 e2 w2 -> frame L w (e1 ++ e2) w2.
Proof.
  intros [T1 F1 C1 N1 O1 K1] [T2 F2 C2 N2 O2 K2].
  split; try lia; try congruence.
  - intros fd. rewrite opens_app, in_app_iff. intros [H|H].
    + apply O1 in H. lia.
    + apply O2 in H. lia.
  - intros f. rewrite closed_app, opens_app, !in_app_iff. intros [H|H].
    + apply K1 in H. tauto.
    + apply K2 in H. tauto.
Qed.

Lemma frame_weaken L L' w evs w' :
  (forall f, In f L -> In f L') -> frame L w evs w' -> frame L' w evs w'.
Proof.
  intros HL [T1 F1 C1 N1 O1 K1]. split; auto.
  intros f Hf. apply K1 in Hf. destruct Hf as [?|[?|?]]; auto.
Qed.

(** ** Snapshots *)

Section Snapshots.
Context (env : Env).

Ltac run :=
  unfold returns, wp, takeKind, takeCPUSnapshot, takeMemorySnapshot,
    takeBlockSnapshot, takeGoroutineSnapshot, takeMutexSnapshot,
    startProfilingCPU, call_closer, log_err,
    os_Create, File_Close, time_Now_Unix, pprof_WriteHeapProfile,
    Profile_WriteTo, pprof_Lookup, pprof_StartCPUProfile,
    pprof_StopCPUProfile, runtime_SetBlockProfileRate,
    runtime_SetCPUProfileRate, runtime_MemProfileRate_assign,
    runtime_SetMutexProfileFraction, time_NewTimer,
    Logger_Println, emit, panic, mbind, M_bind, mret, M_ret;
  simpl.

(** The snapshot of a kind other than CPU: it reads the clock once,
    opens [<prefix><kind>.<time>.pprof], writes the kind's profile to the
    file it got, closes that file, and logs every error on the way. *)
Lemma takeKind_file (k : Kind) (p : profiler) (w : World) :
  k <> cpu ->
  returns (takeKind env k p) w (fun evs _ w' =>
    created evs = [artifact_name (Prefix (conf p)) k (clock env (tick w))]
    /\ snapshots evs = [k]
    /\ (opens evs = [None] \/ opens evs = [Some (nextFd w)])
    /\ targets evs = opens evs
    /\ closed evs = opens evs
    /\ errors evs = logged evs
    /\ timers evs = []
    /\ frame [] w evs w'
    /\ attempts evs = combine [k] (opens evs)
    /\ (tick w < tick w')%nat
    /\ rt_cpuProfiling w' = rt_cpuProfiling w
    /\ rt_BlockProfileRate w' =
         match k with block => 0 | _ => rt_BlockProfileRate w end).
Proof.
  intros Hk. destruct k; [done| | | |]; run.
  all: destruct (create_err env _ _) as [e1|]; simpl.
  all: destruct (write_err env _ _) as [e2|]; simpl.
  all: try (destruct (close_err env _ _) as [e3|]; simpl).
  all: repeat split; simpl; auto; try lia.
  all: simpl in *; intuition (try discriminate; try congruence; try lia).
  all: match goal with H : Some _ = Some _ |- _ => injection H as <-; lia end.
Qed.

Lemma stamped_wider pre w0 w w' w1 k n :
  (tick w0 <= tick w)%nat -> (tick w' <= tick w1)%nat ->
  stamped env pre w w' k n -> stamped env pre w0 w1 k n.
Proof. intros ? ? (i & ? & ?). exists i. split; [lia|done]. Qed.

Lemma kinds_summary_nil p w : kinds_summary env p [] w [] w.
Proof. split; simpl; auto using frame_nil. Qed.

Lemma kinds_summary_app p K1 K2 w e1 w1 e2 w2 :
  kinds_summary env p K1 w e1 w1 -> kinds_summary env p K2 w1 e2 w2 ->
  kinds_summary env p (K1 ++ K2) w (e1 ++ e2) w2.
Proof.
  intros [S1 N1 T1 C1 E1 M1 F1 A1 L1] [S2 N2 T2 C2 E2 M2 F2 A2 L2].
  assert (file_kinds (K1 ++ K2) = file_kinds K1 ++ file_kinds K2) as HK
    by apply List.filter_app.
  split; autorewrite with trace; try congruence.
  - unfold file_kinds. rewrite List.filter_app. apply Forall2_app.
    + eapply Forall2_impl; [exact N1|]. intros k n.
      apply stamped_wider; [lia|apply F2].
    + eapply Forall2_impl; [exact N2|]. intros k n.
      apply stamped_wider; [apply F1|lia].
  - by rewrite M1, M2.
  - eapply frame_app; eauto.
  - by rewrite A1, A2, HK, combine_app.
  - rewrite HK, !length_app. congruence.
Qed.

Lemma takeCPUSnapshot_eq (p : profiler) (w : World) :
  takeCPUSnapshot p w =
    ([ELog (logger p) [LStr "Stopping CPU Profiler"]; EStopCPUProfile],
     Done tt (set_CPUProfileRate
                (match rt_cpuProfiling w with
                 | Some _ => 0
                 | None => rt_CPUProfileRate w
                 end)
                (set_cpuProfiling None w))).
Proof. reflexivity. Qed.

Lemma when_takeKind (k : Kind) (p : profiler) (w : World) :
  returns (when (enabled (conf p) k) (takeKind env k p)) w (fun evs _ w' =>
    kinds_summary env p (if enabled (conf p) k then [k] else []) w evs w').
Proof.
  apply returns_when; intros ->; [|apply kinds_summary_nil].
  destruct (decide (k = cpu)) as [->|Hk].
  - unfold returns, wp. simpl takeKind. rewrite takeCPUSnapshot_eq.
    split; simpl; auto.
    split; simpl; auto; intros ? [].
  - eapply returns_mono; [by apply takeKind_file|]. simpl.
    intros evs _ w' (Hc & Hs & Ho & Ht & Hcl & He & Hti & Hf & Ha & Hlt & _).
    assert (file_kinds [k] = [k]) as Hfk by (by destruct k).
    split; rewrite ?Hfk; auto; [|by destruct Ho as [-> | ->]].
    rewrite Hc. unfold file_kinds. simpl.
    destruct k; try done; repeat constructor.
    all: exists (tick w); split; [lia|done].
Qed.

Lemma snapshot_kinds_summary (p : profiler) (w : World) :
  returns (snapshot_kinds env p) w (fun evs _ w' =>
    kinds_summary env p (List.filter (enabled (conf p)) all_kinds) w evs w').
Proof.
  unfold snapshot_kinds, all_kinds. rewrite !filter_cons_app.
  apply returns_bind.
  eapply returns_mono; [apply (when_takeKind cpu)|]. intros e1 [] w1 H1.
  apply returns_bind.
  eapply returns_mono; [apply (when_takeKind mem)|]. intros e2 [] w2 H2.
  apply returns_bind.
  eapply returns_mono; [apply (when_takeKind block)|]. intros e3 [] w3 H3.
  apply returns_bind.
  eapply returns_mono; [apply (when_takeKind goroutine)|]. intros e4 [] w4 H4.
  eapply returns_mono; [apply (when_takeKind mutex)|]. intros e5 [] w5 H5.
  simpl List.filter. rewrite app_nil_r.
  eauto using kinds_summary_app.
Qed.

(** The runtime's switches after the snapshot of a kind. *)
Lemma when_takeKind_knobs (k : Kind) (p : profiler) (w : World) :
  returns (when (enabled (conf p) k) (takeKind env k p)) w (fun _ _ w' =>
    rt_cpuProfiling w' =
      (if enabled (conf p) k && bool_decide (k = cpu) then None
       else rt_cpuProfiling w)
    /\ rt_BlockProfileRate w' =
      (if enabled (conf p) k && bool_decide (k = block) then 0
       else rt_BlockProfileRate w)).
Proof.
  apply returns_when; intros ->; [|done].
  destruct (decide (k = cpu)) as [->|Hk]; [done|].
  eapply returns_mono; [by apply takeKind_file|]. simpl.
  intros evs _ w' (_ & _ & _ & _ & _ & _ & _ & _ & _ & _ & Hc & Hb).
  rewrite Hc, Hb. destruct k; done.
Qed.

Lemma snapshot_kinds_knobs (p : profiler) (w : World) :
  returns (snapshot_kinds env p) w (fun _ _ w' =>
    rt_cpuProfiling w' =
      (if CPU (conf p) then None else rt_cpuProfiling w)
    /\ rt_BlockProfileRate w' =
      (if Block (conf p) then 0 else rt_BlockProfileRate w)).
Proof.
  unfold snapshot_kinds.
  apply returns_bind.
  eapply returns_mono; [apply (when_takeKind_knobs cpu)|].
  intros e1 [] w1 [C1 B1].
  apply returns_bind.
  eapply returns_mono; [apply (when_takeKind_knobs mem)|].
  intros e2 [] w2 [C2 B2].
  apply returns_bind.
  eapply returns_mono; [apply (when_takeKind_knobs block)|].
  intros e3 [] w3 [C3 B3].
  apply returns_bind.
  eapply returns_mono; [apply (when_takeKind_knobs goroutine)|].
  intros e4 [] w4 [C4 B4].
  eapply returns_mono; [apply (when_takeKind_knobs mutex)|].
  intros e5 [] w5 [C5 B5].
  simpl in *. rewrite ?andb_false_r, ?andb_true_r in *.
  split; [congruence|destruct (Block (conf p)); congruence].
Qed.

Lemma closers_summary_app fs1 fs2 w e1 w1 e2 w2 :
  closers_summary fs1 w e1 w1 -> closers_summary fs2 w1 e2 w2 ->
  closers_summary (fs1 ++ fs2) w (e1 ++ e2) w2.
Proof.
  intros [A1 B1 C1 D1 E1 F1 G1 H1 I1 J1 K1] [A2 B2 C2 D2 E2 F2 G2 H2 I2 J2 K2].
  split; autorewrite with trace;
    rewrite ?A1, ?A2, ?B1, ?B2, ?C1, ?C2, ?D1, ?D2, ?E1, ?E2, ?F1, ?F2,
      ?G1, ?G2; auto; try congruence.
  eapply frame_app; (eapply frame_weaken; [|eassumption]);
    intros f; rewrite in_app_iff; auto.
Qed.

Lemma call_closer_spec (p : profiler) (f : File) (w : World) :
  returns (call_closer env p (CloseFile f)) w (fun evs _ w' =>
    closers_summary [f] w evs w').
Proof.
  run. destruct f as [fd|]; [destruct (close_err env (tick w) fd)|].
  all: simpl; split; simpl; auto.
  all: split; simpl; auto; intros ? [].
Qed.

Lemma range_closers_spec (p : profiler) (cs : list Closer) (w : World) :
  returns (range_closers env p cs) w (fun evs _ w' =>
    closers_summary (map closer_file cs) w evs w').
Proof.
  revert w. induction cs as [|[f] cs IH]; intros w.
  - unfold returns, wp. simpl. split; auto using frame_nil.
  - simpl range_closers. apply returns_bind.
    eapply returns_mono; [apply call_closer_spec|]. intros e1 [] w1 H1.
    eapply returns_mono; [apply IH|]. intros e2 [] w2 H2.
    apply (closers_summary_app [f] _ _ _ _ _ _ H1 H2).
Qed.

(** [TakeSnapshot] always returns. Its trace is the trace of the
    snapshots of the enabled kinds followed by the trace of the cleanup
    list, and it hands back the controller with an empty cleanup list. *)
Lemma TakeSnapshot_spec (p : profiler) (w : World) :
  returns (TakeSnapshot env p) w (fun evs p' w' =>
    p' = set_closers [] p
    /\ exists evsK wK evsC,
        snapshot_kinds env p w = (evsK, Done tt wK)
        /\ evs = evsK ++ evsC
        /\ kinds_summary env p (List.filter (enabled (conf p)) all_kinds) w evsK wK
        /\ closers_summary (map closer_file (closers p)) wK evsC w'
        /\ rt_cpuProfiling w' =
             (if CPU (conf p) then None else rt_cpuProfiling w)
        /\ rt_BlockProfileRate w' =
             (if Block (conf p) then 0 else rt_BlockProfileRate w)).
Proof.
  destruct (proj1 (returns_eq _ _ _)
              (returns_and _ _ _ _ (snapshot_kinds_summary p w)
                 (snapshot_kinds_knobs p w)))
    as (evsK & [] & wK & HeqK & HK & HcK & HbK).
  destruct (proj1 (returns_eq _ _ _) (range_closers_spec p (closers p) wK))
    as (evsC & [] & w' & HeqC & HC).
  unfold TakeSnapshot, returns, wp, mbind, M_bind.
  rewrite HeqK, HeqC. simpl. rewrite app_nil_r.
  split; [done|]. exists evsK, wK, evsC.
  split; [done|]. split; [done|]. split; [exact HK|]. split; [exact HC|].
  split.
  - by rewrite (cs_cpuProfiling _ _ _ _ HC).
  - by rewrite (cs_BlockProfileRate _ _ _ _ HC).
Qed.
End Snapshots.

(** ** The activation phase *)

Section Activation.
Context (env : Env).

Ltac run :=
  unfold returns, wp, Run_activate, Run_schedule, when,
    startProfilingCPU,
    os_Create, time_Now_Unix, pprof_StartCPUProfile,
    runtime_SetBlockProfileRate,
    runtime_SetCPUProfileRate, runtime_MemProfileRate_assign,
    runtime_SetMutexProfileFraction, time_NewTimer,
    Logger_Println, emit, panic, mbind, M_bind, mret, M_ret;
  simpl.

(** The activation phase returns with everything activated, unless the
    CPU artifact cannot be opened: then it panics, having called
    [os.Create] last. *)
Lemma Run_activate_spec (p : profiler) (w : World) :
  wp (Run_activate env p) w
    (fun evs p' w' => activated env p w evs p' w')
    (fun evs e w' =>
       CPU (conf p) = true
       /\ cpu_create_err env p w = Some e
       /\ last evs = Some (ECreate (cpu_name env p w) None (Some e))
       /\ created evs = [cpu_name env p w] /\ opens evs = [None]
       /\ closed evs = [] /\ snapshots evs = [] /\ timers evs = []
       /\ frame [] w evs w' /\ (tick w < tick w')%nat).
Proof.
  destruct p as [[c m b g x pre itv mr cr xr] ch cs lg]. run.
  destruct c, m, b, x; simpl.
  all: try (destruct (0 <? cr) eqn:Hcr; simpl).
  all: try (destruct (create_err env _ _) as [e|] eqn:Hcreate; simpl).
  all: try (destruct (rt_cpuProfiling w) eqn:Hcpu; simpl).
  all: try split.
  all: unfold cpu_create_err, cpu_name, activation_calls, start_answer,
         artifact_name in *; simpl in *;
       rewrite ?Hcr, ?Hcpu, ?Hcreate; simpl; auto; try lia; try done.
  all: repeat match goal with |- _ /\ _ => split end;
       simpl; auto; try lia; try done.
  all: try (split; simpl; auto; try lia).
  all: intuition (try discriminate; try lia).
  all: try match goal with
       | H : Some _ = Some _ |- _ => injection H as <-; lia
       end.
Qed.
End Activation.

(** ** Every method keeps to [effect] *)

Section Effects.
Context (env : Env).

Lemma effect_refl p w : effect env p w [] p w.
Proof. split; simpl; auto; intros ? []. Qed.

Lemma effect_trans p w e1 p1 w1 e2 p2 w2 :
  effect env p w e1 p1 w1 -> effect env p1 w1 e2 p2 w2 ->
  effect env p w (e1 ++ e2) p2 w2.
Proof.
  intros [A1 B1 C1 T1 F1 O1 K1 L1 N1] [A2 B2 C2 T2 F2 O2 K2 L2 N2].
  split; try congruence; try lia.
  - intros fd. rewrite opens_app, in_app_iff. intros [H|H].
    + apply O1 in H. lia.
    + apply O2 in H. lia.
  - intros f. rewrite closed_app, opens_app, !in_app_iff. intros [H|H].
    + apply K1 in H. tauto.
    + apply K2 in H. destruct H as [H|[H|H]]; auto.
      apply L1 in H. destruct H as [H|(fd & [= ->] & H)]; auto.
  - intros c Hc. rewrite opens_app. setoid_rewrite in_app_iff.
    apply L2 in Hc. destruct Hc as [Hc|(fd & -> & H)]; [|eauto].
    apply L1 in Hc. destruct Hc as [Hc|(fd & -> & H)]; eauto.
  - rewrite created_app. apply Forall_app. split.
    + eapply Forall_impl; [exact N1|]. intros n (k & Hk). exists k.
      eapply stamped_wider; [| |exact Hk]; lia.
    + eapply Forall_impl; [exact N2|]. intros n (k & Hk). exists k.
      rewrite A1 in Hk. eapply stamped_wider; [| |exact Hk]; lia.
Qed.

Lemma Forall2_exists_l {A B} (P : A -> B -> Prop) (l : list A) (k : list B) :
  Forall2 P l k -> Forall (fun y => exists x, P x y) k.
Proof. induction 1; constructor; eauto. Qed.

Lemma closer_file_in (f : File) (cs : list Closer) :
  In f (map closer_file cs) <-> In (CloseFile f) cs.
Proof.
  rewrite in_map_iff. split.
  - by intros ([g] & <- & H).
  - intros H. by exists (CloseFile f).
Qed.

Lemma effect_forget p w evs p' w' :
  effect env p w evs p' w' -> effect env p w evs p w'.
Proof. intros [A B C T F O K L N]. split; auto. Qed.

Lemma TakeSnapshot_effect (p : profiler) (w : World) :
  returns (TakeSnapshot env p) w (fun evs p' w' =>
    effect env p w evs p' w' /\ chans w' = chans w).
Proof.
  eapply returns_mono; [apply TakeSnapshot_spec|].
  intros evs p' w' (-> & evsK & wK & evsC & _ & -> & HK & HC & _).
  destruct HK as [_ HN _ HKc _ _ HKf _ _].
  destruct HC as [HCc HCo HCr _ _ _ _ HCf _ _ _].
  pose proof (frame_app _ _ _ _ _ _
                (frame_weaken [] (map closer_file (closers p)) _ _ _
                   ltac:(intros ? []) HKf) HCf) as [T F C _ O K].
  split; [|done]. split; simpl; auto.
  - intros f Hf. apply K in Hf. rewrite closer_file_in in Hf. exact Hf.
  - intros c [].
  - rewrite created_app, HCr, app_nil_r.
    eapply Forall_impl; [exact (Forall2_exists_l _ _ _ HN)|].
    intros n (k & Hk). exists k.
    eapply stamped_wider; [| |exact Hk]; [lia|apply HCf].
Qed.

Lemma Run_schedule_eq (p : profiler) (w : World) :
  Run_schedule env p w =
    if isOn (conf p) && negb (String.eqb "" (Interval (conf p))) then
      match ParseDuration env (Interval (conf p)) with
      | inr err =>
          ([ELog log_std [LStr "Error parsing interval parameter:"; LErr err]],
           Done (p, Returned) w)
      | inl d => ([ENewTimer d], Done (p, Blocked d) w)
      end
    else ([], Done (p, Returned) w).
Proof.
  unfold Run_schedule.
  destruct (isOn (conf p) && negb (String.eqb "" (Interval (conf p))));
    [|done].
  by destruct (ParseDuration env (Interval (conf p))).
Qed.

Lemma Run_schedule_effect (p : profiler) (w : World) :
  returns (Run_schedule env p) w (fun evs r w' =>
    effect env p w evs r.1 w' /\ w' = w /\ snapshots evs = []).
Proof.
  unfold returns, wp. rewrite Run_schedule_eq.
  destruct (isOn (conf p) && negb (String.eqb "" (Interval (conf p)))).
  - destruct (ParseDuration env (Interval (conf p))); simpl.
    all: split; [|done]; split; simpl; auto; intros ? [].
  - simpl. auto using effect_refl.
Qed.

Lemma activated_effect p w evs p' w' :
  activated env p w evs p' w' -> effect env p w evs p' w'.
Proof.
  intros [Hc -> _ Hcr Ho Hcl _ _ [T F _ _ O K] [Ht1 Ht2] _ _ _ _].
  split; auto; try (by destruct (CPU (conf p))).
  - intros f Hf. apply K in Hf. destruct Hf as [?|[[]|?]]; auto.
  - rewrite Ho. destruct (CPU (conf p)); simpl; auto.
    intros c. rewrite in_app_iff. simpl. intros [?|[<-|[]]]; eauto.
  - rewrite Hcr. destruct (CPU (conf p)) eqn:HCPU; constructor; [|done].
    exists cpu, (tick w). split; [|done]. specialize (Ht2 eq_refl). lia.
Qed.

(** [Run] up to its [select]: it keeps to [effect] whether it returns,
    blocks or panics. *)
Lemma Run_enter_effect (p : profiler) (w : World) :
  wp (Run_enter env p) w
    (fun evs r w' => effect env p w evs r.1 w' /\ chans w' = chans w)
    (fun evs _ w' => effect env p w evs p w' /\ chans w' = chans w).
Proof.
  unfold Run_enter. apply wp_bind.
  eapply wp_mono; [apply Run_activate_spec| |]; simpl.
  - intros e1 p1 w1 H1.
    eapply wp_mono; [apply Run_schedule_effect| |]; simpl; [|done].
    intros e2 [p2 st] w2 (H2 & -> & _). simpl in *. split.
    + eapply effect_trans; [|exact H2]. by apply activated_effect.
    + apply H1.
  - intros evs e w' (HCPU & Hc & _ & Hcr & Ho & Hcl & _ & _ & [T F C N O K] & Hlt).
    split; [|done]. split; auto.
    + intros f Hf. rewrite Hcl in Hf. destruct Hf.
    + rewrite Hcr. constructor; [|done]. exists cpu, (tick w).
      split; [lia|done].
Qed.

Lemma Run_select_effect (c : SelectCase) (p : profiler) (w : World) :
  wp (Run_select env c p) w
    (fun evs r w' => effect env p w evs r.1 w' /\ chans w' = chans w)
    (fun evs _ w' => effect env p w evs p w' /\ chans w' = chans w).
Proof.
  destruct c; unfold Run_select; apply wp_bind.
  all: eapply wp_mono; [apply TakeSnapshot_effect| |]; simpl; [|done].
  all: intros e1 p1 w1 [H1 C1].
  - eapply wp_mono; [apply Run_enter_effect| |]; simpl.
    + intros e2 r w2 [H2 C2]. split; [|congruence].
      eapply effect_trans; eauto.
    + intros e2 _ w2 [H2 C2]. split; [|congruence].
      eapply effect_forget, effect_trans; eauto.
  - unfold wp. simpl. by rewrite app_nil_r.
Qed.
End Effects.

(** ** Steps and runs of the system *)

Section Steps.
Context (env : Env).

Lemma Stop_eq (p : profiler) (w : World) :
  Stop p w =
    match chans w !! terminateCh p with
    | Some false =>
        ([ECloseChan (terminateCh p)],
         Done tt (set_chans (nextCh w)
                    (<[terminateCh p := true]> (chans w)) w))
    | Some true => ([], Panic ErrCloseClosed w)
    | None => ([], Panic ErrCloseNil w)
    end.
Proof. reflexivity. Qed.

(** Every step keeps to [effect]; only a [Stop] that returns touches the
    channel store, and it marks the controller's channel closed. *)
Lemma step_effect (o : Op) (s s' : System) :
  final (step env o s) = Some s' ->
  exists evs,
    sys_trace s' = sys_trace s ++ evs
    /\ effect env (sys_p s) (sys_w s) evs (sys_p s') (sys_w s')
    /\ chans (sys_w s') =
         if is_Stop o && is_Next (step env o s)
         then <[terminateCh (sys_p s) := true]> (chans (sys_w s))
         else chans (sys_w s).
Proof.
  destruct s as [p st w tr]. unfold step, op_call. simpl.
  destruct o as [|c| |]; simpl.
  - destruct st; [|done].
    pose proof (Run_enter_effect env p w) as H. unfold wp in H.
    destruct (Run_enter env p w) as [evs [[p1 st1] w1|e w1]];
      simpl; intros [= <-]; exists evs; simpl in *; tauto.
  - destruct st; [done|].
    destruct (select_enabled env w p c); [|done].
    pose proof (Run_select_effect env c p w) as H. unfold wp in H.
    destruct (Run_select env c p w) as [evs [[p1 st1] w1|e w1]];
      simpl; intros [= <-]; exists evs; simpl in *; tauto.
  - pose proof (TakeSnapshot_effect env p w) as H.
    unfold returns, wp in H. unfold mbind, M_bind.
    destruct (TakeSnapshot env p w) as [evs [p1 w1|e w1]]; [|done].
    simpl. intros [= <-]. exists (evs ++ []). simpl.
    rewrite app_nil_r. tauto.
  - unfold mbind, M_bind. rewrite Stop_eq.
    destruct (chans w !! terminateCh p) as [[|]|] eqn:Hch;
      simpl; intros [= <-]; eexists; simpl; (split; [reflexivity|]).
    all: split; [apply effect_forget with p|]; simpl.
    all: try (split; simpl; auto; intros ? []).
    all: try done.
Qed.

(** A run of operations, as one step. *)
Lemma exec_effect (ops : list Op) (s s' : System) :
  final (exec env ops s) = Some s' ->
  exists evs,
    sys_trace s' = sys_trace s ++ evs
    /\ effect env (sys_p s) (sys_w s) evs (sys_p s') (sys_w s').
Proof.
  revert s. induction ops as [|o ops IH]; intros s; simpl.
  - intros [= <-]. exists []. rewrite app_nil_r. auto using effect_refl.
  - destruct (step env o s) as [s1|e s1|] eqn:Hstep; simpl; [| |done].
    + intros H. apply IH in H as (e2 & Ht2 & H2).
      destruct (step_effect o s s1) as (e1 & Ht1 & H1 & _);
        [by rewrite Hstep|].
      exists (e1 ++ e2). rewrite Ht2, Ht1, app_assoc. split; [done|].
      eapply effect_trans; eauto.
    + intros [= <-].
      destruct (step_effect o s s1) as (e1 & Ht1 & H1 & _);
        [by rewrite Hstep|].
      eauto.
Qed.

(** The controller's channel along a run: open until the first [Stop],
    closed from then on. *)
Lemma exec_chan (ops : list Op) (s s' : System) (b : bool) :
  chans (sys_w s) !! terminateCh (sys_p s) = Some b ->
  exec env ops s = Next s' ->
  chans (sys_w s') !! terminateCh (sys_p s') = Some (b || existsb is_Stop ops).
Proof.
  revert s b. induction ops as [|o ops IH]; intros s b Hb; simpl.
  - intros [= <-]. by rewrite orb_false_r.
  - destruct (step env o s) as [s1|e s1|] eqn:Hstep; [|done|done].
    intros H.
    destruct (step_effect o s s1) as (e1 & _ & H1 & Hc); [by rewrite Hstep|].
    rewrite Hstep, andb_true_r in Hc.
    assert (chans (sys_w s1) !! terminateCh (sys_p s1)
            = Some (b || is_Stop o)) as Hb1.
    { rewrite Hc, (eff_chan _ _ _ _ _ _ H1).
      destruct (is_Stop o).
      - by rewrite lookup_insert_eq, orb_true_r.
      - by rewrite orb_false_r. }
    rewrite (IH s1 (b || is_Stop o) Hb1 H). by rewrite orb_assoc.
Qed.

Lemma boot_eq (c : Config) (w : World) :
  boot c w =
    {| sys_p := {| conf := c; terminateCh := nextCh w; closers := [];
                   logger := log_New Stdout "[profiler] "
                               (Z.lor log_Ldate log_Ltime) |};
       sys_run := Returned;
       sys_w := set_chans (S (nextCh w)) (<[nextCh w := false]> (chans w)) w;
       sys_trace := [EMakeChan (nextCh w)] |}.
Proof. reflexivity. Qed.
End Steps.

(** * Supporting lemmas *)

Lemma Run_resume_Returned (env : Env) (wakes : list SelectCase)
    (p : profiler) (w : World) :
  Run_resume env wakes (p, Returned) w = ([], Done (p, Returned) w).
Proof. by destruct wakes. Qed.

(** A run of operations from any state keeps the configuration of the
    controller it started with. *)
Lemma exec_keeps_conf (env : Env) (ops : list Op) (s0 s : System) :
  final (exec env ops s0) = Some s ->
  conf (sys_p s) = conf (sys_p s0).
Proof.
  intros H. apply exec_effect in H as (evs & _ & H).
  apply (eff_conf _ _ _ _ _ _ H).
Qed.

(** One [TakeSnapshot], read off its trace. *)
Lemma TakeSnapshot_trace (env : Env) (p : profiler) (w : World) :
  returns (TakeSnapshot env p) w (fun evs p' w' =>
    p' = set_closers [] p
    /\ snapshots evs = List.filter (enabled (conf p)) all_kinds
    /\ Forall2 (stamped env (Prefix (conf p)) w w')
         (file_kinds (List.filter (enabled (conf p)) all_kinds)) (created evs)
    /\ targets evs = opens evs
    /\ errors evs = logged evs
    /\ timers evs = []
    /\ chans w' = chans w).
Proof.
  eapply returns_mono; [apply TakeSnapshot_spec|].
  intros evs p' w' (-> & evsK & wK & evsC & _ & -> & HK & HC & _).
  destruct HK as [HKs HKn HKt _ HKe HKti HKf _ _].
  destruct HC as [_ HCo HCr HCs HCt HCti HCe HCf _ _ _].
  autorewrite with trace.
  rewrite HKs, HCs, HCr, HKt, HCt, HCo, HKe, HCe, HKti, HCti, !app_nil_r.
  repeat split; auto.
  - eapply Forall2_impl; [exact HKn|]. intros k n.
    apply stamped_wider; [lia|apply HCf].
  - destruct HKf, HCf. congruence.
Qed.

(** [Run] blocks only when a kind is on and the interval parses. *)
Lemma Run_schedule_blocked (env : Env) (p : profiler) (w : World) :
  returns (Run_schedule env p) w (fun evs r w' =>
    r.1 = p /\ forall d, r.2 = Blocked d ->
               scheduled env (conf p) d /\ evs = [ENewTimer d]).
Proof.
  unfold returns, wp, scheduled. rewrite Run_schedule_eq.
  destruct (isOn (conf p)); cbn [andb];
    [|split; [done|intros ? [=]]].
  destruct (String.eqb "" (Interval (conf p))) eqn:Heq; cbn [negb];
    [split; [done|intros ? [=]]|].
  destruct (ParseDuration env (Interval (conf p))); simpl;
    [|split; [done|intros ? [=]]].
  split; [done|]. intros ? [= <-]. repeat split; auto.
  intros H. rewrite H in Heq. discriminate.
Qed.

Lemma Run_enter_blocked (env : Env) (p : profiler) (w : World) :
  wp (Run_enter env p) w
    (fun _ r _ => forall d, r.2 = Blocked d -> scheduled env (conf r.1) d)
    (fun _ _ _ => True).
Proof.
  unfold Run_enter. apply wp_bind.
  eapply wp_mono; [apply Run_activate_spec| |]; simpl; [|done].
  intros e1 p1 w1 H1.
  eapply wp_mono; [apply Run_schedule_blocked| |]; simpl; [|done].
  intros e2 [p2 st] w2 [-> H2] d Hd. simpl in *. by apply H2.
Qed.

Lemma step_blocked (env : Env) (o : Op) (s s' : System) :
  step env o s = Next s' ->
  (forall d, sys_run s = Blocked d -> scheduled env (conf (sys_p s)) d) ->
  forall d, sys_run s' = Blocked d -> scheduled env (conf (sys_p s')) d.
Proof.
  intros Hstep Hs.
  destruct (step_effect env o s s') as (evs & _ & Heff & _);
    [by rewrite Hstep|].
  pose proof (eff_conf _ _ _ _ _ _ Heff) as Hconf.
  revert Hstep. destruct s as [p st w tr]. unfold step, op_call. simpl in *.
  destruct o as [|c| |]; simpl.
  - destruct st; [|done].
    pose proof (Run_enter_blocked env p w) as H. unfold wp in H.
    destruct (Run_enter env p w) as [e1 [[p1 st1] w1|x w1]]; [|done].
    by intros [= <-].
  - destruct st; [done|]. destruct (select_enabled env w p c); [|done].
    destruct c; unfold Run_select, mbind, M_bind.
    + pose proof (TakeSnapshot_effect env p w) as HT.
      unfold returns, wp in HT.
      destruct (TakeSnapshot env p w) as [e1 [p1 w1|x w1]]; [|done].
      pose proof (Run_enter_blocked env p1 w1) as H. unfold wp in H.
      destruct (Run_enter env p1 w1) as [e2 [[p2 st2] w2|x w2]]; [|done].
      by intros [= <-].
    + destruct (TakeSnapshot env p w) as [e1 [p1 w1|x w1]]; [|done].
      simpl. by intros [= <-].
  - unfold mbind, M_bind.
    destruct (TakeSnapshot env p w) as [e1 [p1 w1|x w1]]; [|done].
    simpl. intros [= <-]. simpl in *. by rewrite Hconf.
  - unfold mbind, M_bind.
    destruct (Stop p w) as [e1 [[] w1|x w1]]; [|done].
    simpl. by intros [= <-].
Qed.

Lemma exec_blocked (env : Env) (c : Config) (w : World) (ops : list Op)
    (s : System) (d : Duration) :
  exec env ops (boot c w) = Next s ->
  sys_run s = Blocked d ->
  scheduled env (conf (sys_p s)) d.
Proof.
  assert (forall s0,
            (forall d, sys_run s0 = Blocked d ->
                       scheduled env (conf (sys_p s0)) d) ->
            exec env ops s0 = Next s ->
            forall d, sys_run s = Blocked d ->
                      scheduled env (conf (sys_p s)) d) as Hgen.
  { induction ops as [|o ops IH]; intros s0 H0; simpl.
    - by intros [= <-].
    - destruct (step env o s0) as [s1| |] eqn:Hstep; [|done|done].
      apply IH. by apply (step_blocked env o s0). }
  intros Hexec. apply (Hgen (boot c w)); [|done].
  rewrite boot_eq. simpl. discriminate.
Qed.

Lemma attempts_no_targets (evs : list Event) :
  targets evs = [] -> attempts evs = [].
Proof.
  induction evs as [|e evs IH]; [done|].
  destruct e; simpl; try done; apply IH.
Qed.

Lemma persisted_attempts (evs : list Event) (k : Kind) (fd : Fd) :
  In (k, fd) (persisted evs) -> In (k, Some fd) (attempts evs).
Proof.
  induction evs as [|e evs IH]; [done|].
  change (e :: evs) with ([e] ++ evs).
  rewrite persisted_app, attempts_app, !in_app_iff.
  intros [H|H]; [left|right; by apply IH].
  destruct e as [| | | | | | | [fd'|] [x|] |name [fd'|] dbg [x|] | | | | |];
    simpl in *; try done.
  - destruct H as [[= <- <-]|[]]. by left.
  - rewrite app_nil_r in *. apply in_map_iff in H as (k' & [= <- <-] & H).
    apply in_map_iff. by exists k'.
Qed.

Lemma combine_functional {A B} (l : list A) (k : list B) (a : A) (b b' : B) :
  NoDup l -> In (a, b) (combine l k) -> In (a, b') (combine l k) -> b = b'.
Proof.
  revert k. induction l as [|x l IH]; intros [|y k] Hnd; simpl; try done.
  apply NoDup_cons in Hnd as [Hx Hnd].
  intros [[= -> ->]|H1] [[= <-]|H2]; try done.
  - apply in_combine_l in H2. by apply list_elem_of_In in H2.
  - apply in_combine_l in H1. subst. by apply list_elem_of_In in H1.
  - by apply (IH k).
Qed.

Lemma NoDup_file_kinds (c : Config) :
  NoDup (file_kinds (List.filter (enabled c) all_kinds)).
Proof.
  unfold all_kinds. simpl.
  destruct (CPU c), (Memory c), (Block c), (Goroutine c), (Mutex c); simpl.
  all: apply (bool_decide_unpack _); vm_compute; exact I.
Qed.

(** Registration appends to the cleanup list. *)
Lemma startProfilingCPU_appends (env : Env) (p : profiler) (w : World) :
  wp (startProfilingCPU env p) w
    (fun _ p' _ => closers p' = closers p ++ [CloseFile (Some (nextFd w))])
    (fun _ _ _ => True).
Proof.
  unfold wp, startProfilingCPU, os_Create, time_Now_Unix,
    pprof_StartCPUProfile, Logger_Println, emit, panic, mbind, M_bind,
    mret, M_ret.
  simpl. destruct (create_err env _ _); simpl; [done|].
  by destruct (rt_cpuProfiling w).
Qed.

(** Every state a controller built by [NewProfiler] reaches keeps
    [closers_known]. *)
Lemma exec_closers_known (env : Env) (c : Config) (w : World)
    (ops : list Op) (s : System) :
  final (exec env ops (boot c w)) = Some s ->
  closers_known (sys_p s) (sys_w s).
Proof.
  intros H. apply exec_effect in H as (evs & _ & H).
  intros x Hx. apply (eff_closers _ _ _ _ _ _ H) in Hx.
  destruct Hx as [[]|(fd & -> & Hfd)].
  exists fd. split; [done|]. by apply (eff_opens _ _ _ _ _ _ H).
Qed.

Lemma Forall2_map_eq {A B} (f : A -> B) (l : list A) (k : list B) :
  Forall2 (fun a b => b = f a) l k -> k = map f l.
Proof. induction 1; simpl; congruence. Qed.

(** * Properties *)

(** C1. A call of [TakeSnapshot] on a controller whose cleanup list holds
    files opened earlier. After the snapshots of the kinds it runs the
    cleanup list: the files of the list are closed one after the other in
    the order of the list, which is the order of registration since
    [startProfilingCPU] appends. It hands back an empty cleanup list.
    Whatever operations follow, none of them closes a file of that list
    again. *)
Theorem cleanups_run_once_in_order (env : Env) (p : profiler) (w : World)
    (st : RunState) (tr : list Event) :
  closers_known p w ->
  exists evsK wK evsC p' w',
    snapshot_kinds env p w = (evsK, Done tt wK)
    /\ range_closers env p (closers p) wK = (evsC, Done tt w')
    /\ TakeSnapshot env p w = (evsK ++ evsC, Done p' w')
    /\ closed evsC = map closer_file (closers p)
    /\ closers p' = []
    /\ forall ops s,
         final (exec env ops {| sys_p := p'; sys_run := st; sys_w := w';
                                sys_trace := tr |}) = Some s ->
         forall c, In c (closers p) ->
                   ~ In (closer_file c) (closed (drop (length tr) (sys_trace s))).
Proof.
  intros Hknown.
  destruct (proj1 (returns_eq _ _ _) (snapshot_kinds_summary env p w))
    as (evsK & [] & wK & HeqK & HK).
  destruct (proj1 (returns_eq _ _ _) (range_closers_spec env p (closers p) wK))
    as (evsC & [] & w' & HeqC & HC).
  exists evsK, wK, evsC, (set_closers [] p), w'.
  split; [done|]. split; [done|].
  split.
  { unfold TakeSnapshot, mbind, M_bind. rewrite HeqK, HeqC. simpl.
    by rewrite app_nil_r. }
  split; [apply HC|]. split; [done|].
  intros ops s Hs c Hc Hin.
  apply exec_effect in Hs as (evs & Htr & Heff). simpl in *.
  rewrite Htr, drop_app_length in Hin.
  destruct (Hknown c Hc) as (fd & -> & Hfd). simpl in Hin.
  apply (eff_closed _ _ _ _ _ _ Heff) in Hin as [?|[[]|Hin]]; [done|].
  apply (eff_opens _ _ _ _ _ _ Heff) in Hin.
  pose proof (frame_fd _ _ _ _ (ks_frame _ _ _ _ _ _ HK)).
  pose proof (cs_nextFd _ _ _ _ HC). lia.
Qed.

Lemma cleanups_run_once_in_order_witness :
  closers_known (sys_p two_closers_example) (sys_w two_closers_example)
  /\ closers (sys_p two_closers_example)
     = [CloseFile (Some 3%nat); CloseFile (Some 4%nat)]
  /\ exists evsK wK evsC p' w',
    snapshot_kinds (calm 100) (sys_p two_closers_example)
      (sys_w two_closers_example) = (evsK, Done tt wK)
    /\ range_closers (calm 100) (sys_p two_closers_example)
         (closers (sys_p two_closers_example)) wK = (evsC, Done tt w')
    /\ TakeSnapshot (calm 100) (sys_p two_closers_example)
         (sys_w two_closers_example) = (evsK ++ evsC, Done p' w')
    /\ closed evsC = map closer_file (closers (sys_p two_closers_example))
    /\ closers p' = []
    /\ forall ops s,
         final (exec (calm 100) ops
                  {| sys_p := p'; sys_run := Returned; sys_w := w';
                     sys_trace := [] |}) = Some s ->
         forall c, In c (closers (sys_p two_closers_example)) ->
                   ~ In (closer_file c)
                       (closed (drop (length (@nil Event)) (sys_trace s))).
Proof.
  split.
  { intros c [<-|[<-|[]]]; eexists; (split; [reflexivity|]);
      vm_compute; lia. }
  split; [reflexivity|].
  apply (cleanups_run_once_in_order (calm 100) (sys_p two_closers_example)
           (sys_w two_closers_example) Returned []).
  intros c [<-|[<-|[]]]; eexists; (split; [reflexivity|]); vm_compute; lia.
Defined.

(** C2. A [Run] blocked in its [select] (its channel still open, its
    timer not expired) and a call of [Stop]: [Stop] returns and leaves the
    [select] only the termination case; that case takes one snapshot (one
    capture call per enabled kind, one file per enabled kind other than
    CPU, no timer) and [Run] has returned: no timer was armed and no
    [select] is left to wake. *)
Theorem Stop_ends_blocked_Run (env : Env) (s : System) (d : Duration) :
  sys_run s = Blocked d ->
  chans (sys_w s) !! terminateCh (sys_p s) = Some false ->
  timer_fired env (tick (sys_w s)) = false ->
  exists s1 s2 evs,
    step env op_Stop s = Next s1
    /\ sys_run s1 = Blocked d
    /\ select_enabled env (sys_w s1) (sys_p s1) case_timer_C = false
    /\ step env (op_select case_terminateCh) s1 = Next s2
    /\ sys_trace s2 =
         sys_trace s ++ ECloseChan (terminateCh (sys_p s)) :: evs
    /\ snapshots evs = List.filter (enabled (conf (sys_p s))) all_kinds
    /\ Forall2 (stamped env (Prefix (conf (sys_p s))) (sys_w s1) (sys_w s2))
         (file_kinds (List.filter (enabled (conf (sys_p s))) all_kinds))
         (created evs)
    /\ timers evs = []
    /\ sys_run s2 = Returned
    /\ closers (sys_p s2) = []
    /\ forall c, step env (op_select c) s2 = Disabled.
Proof.
  destruct s as [p st w tr]. simpl. intros -> Hch Htimer.
  set (w1 := set_chans (nextCh w) (<[terminateCh p := true]> (chans w)) w).
  assert (chan_closed w1 (terminateCh p) = true) as Hclosed.
  { unfold chan_closed, w1. simpl. by rewrite lookup_insert_eq. }
  destruct (proj1 (returns_eq _ _ _) (TakeSnapshot_trace env p w1))
    as (evs & p2 & w2 & Heq & -> & Hs & Hn & _ & _ & Hti & _).
  eexists _, _, evs.
  split.
  { unfold step, op_call, mbind, M_bind. simpl. rewrite Stop_eq, Hch.
    simpl. reflexivity. }
  simpl. fold w1. rewrite Hclosed. simpl.
  split; [done|]. split; [exact Htimer|].
  split.
  { unfold step, op_call. simpl. rewrite Hclosed.
    unfold Run_select, mbind, M_bind. rewrite Heq. simpl. reflexivity. }
  simpl. rewrite app_nil_r, <- app_assoc. simpl.
  repeat split; auto.
Qed.

Lemma Stop_ends_blocked_Run_witness :
  sys_run blocked_example = Blocked 50000000
  /\ chans (sys_w blocked_example) !! terminateCh (sys_p blocked_example)
     = Some false
  /\ timer_fired (ticking 100) (tick (sys_w blocked_example)) = false
  /\ exists s1 s2 evs,
    step (ticking 100) op_Stop blocked_example = Next s1
    /\ sys_run s1 = Blocked 50000000
    /\ select_enabled (ticking 100) (sys_w s1) (sys_p s1) case_timer_C = false
    /\ step (ticking 100) (op_select case_terminateCh) s1 = Next s2
    /\ sys_trace s2 =
         sys_trace blocked_example
         ++ ECloseChan (terminateCh (sys_p blocked_example)) :: evs
    /\ snapshots evs =
         List.filter (enabled (conf (sys_p blocked_example))) all_kinds
    /\ Forall2 (stamped (ticking 100) (Prefix (conf (sys_p blocked_example)))
                  (sys_w s1) (sys_w s2))
         (file_kinds
            (List.filter (enabled (conf (sys_p blocked_example))) all_kinds))
         (created evs)
    /\ timers evs = []
    /\ sys_run s2 = Returned
    /\ closers (sys_p s2) = []
    /\ forall c, step (ticking 100) (op_select c) s2 = Disabled.
Proof.
  split; [reflexivity|]. split; [vm_compute; reflexivity|].
  split; [reflexivity|].
  apply (Stop_ends_blocked_Run (ticking 100) blocked_example 50000000).
  - reflexivity.
  - vm_compute; reflexivity.
  - reflexivity.
Defined.





(** C5. When no kind is enabled, [Run] does nothing at all, whatever the
    interval: its trace is empty (no activation call, no file created, no
    timer armed), the world and the controller are unchanged, and it has
    returned without waiting for a [select]. *)
Theorem Run_nothing_enabled (env : Env) (p : profiler) (w : World)
    (wakes : list SelectCase) :
  (forall k, enabled (conf p) k = false) ->
  Run env wakes p w = ([], Done (p, Returned) w).
Proof.
  intros H.
  pose proof (H cpu) as Hc. pose proof (H mem) as Hm.
  pose proof (H block) as Hb. pose proof (H goroutine) as Hg.
  pose proof (H mutex) as Hx. clear H.
  destruct p as [[c m b g x pre itv mr cr xr] ch cs lg].
  simpl in *. subst.
  unfold Run, Run_enter, Run_activate, Run_schedule, isOn, mbind, M_bind.
  simpl. by rewrite Run_resume_Returned.
Qed.

Lemma Run_nothing_enabled_witness :
  Run (calm 0) [case_timer_C]
    {| conf := {| CPU := false; Memory := false; Block := false;
                  Goroutine := false; Mutex := false; Prefix := "/tmp/t.";
                  Interval := "15s"; MemoryProfileRate := 1;
                  CPUProfileRate := 100; MutexProfileFraction := 1 |};
       terminateCh := 0; closers := []; logger := log_std |} world0
  = ([], Done ({| conf := {| CPU := false; Memory := false; Block := false;
                  Goroutine := false; Mutex := false; Prefix := "/tmp/t.";
                  Interval := "15s"; MemoryProfileRate := 1;
                  CPUProfileRate := 100; MutexProfileFraction := 1 |};
       terminateCh := 0; closers := []; logger := log_std |}, Returned) world0).
Proof.
  apply Run_nothing_enabled. intros k. destruct k; reflexivity.
Defined.

(** C6, as stated, fails: under a clock that advances during the snapshot,
    the memory and the block artifact of one [TakeSnapshot] are named
    [/tmp/t.mem.100.pprof] and [/tmp/t.block.104.pprof]; no single time
    fits both names. *)
Lemma snapshot_stamps_differ :
  created (fst (TakeSnapshot (ticking 100) (sys_p (boot conf_mem_block world0))
                  (sys_w (boot conf_mem_block world0))))
  = ["/tmp/t.mem.100.pprof"; "/tmp/t.block.104.pprof"]
  /\ ~ share_stamp "/tmp/t."
       (created (fst (TakeSnapshot (ticking 100)
                        (sys_p (boot conf_mem_block world0))
                        (sys_w (boot conf_mem_block world0))))).
Proof.
  split; [vm_compute; reflexivity|].
  intros (t & H).
  assert (created (fst (TakeSnapshot (ticking 100)
                          (sys_p (boot conf_mem_block world0))
                          (sys_w (boot conf_mem_block world0))))
          = ["/tmp/t.mem.100.pprof"; "/tmp/t.block.104.pprof"]) as Heq
    by (vm_compute; reflexivity).
  rewrite Heq in H. clear Heq.
  destruct (H "/tmp/t.mem.100.pprof") as (k1 & H1); [by left|].
  destruct (H "/tmp/t.block.104.pprof") as (k2 & H2); [right; by left|].
  unfold artifact_name in *.
  destruct k1; cbv [String.append kind_label] in H1; try discriminate H1.
  destruct k2; cbv [String.append kind_label] in H2; try discriminate H2.
  injection H1 as H1. injection H2 as H2.
  rewrite <- H2 in H1. discriminate H1.
Qed.

(** C6, amended. Every file a controller built by [NewProfiler c] has
    created, whatever operations were run, is named
    [<prefix><kind>.<time>.pprof] with a kind among cpu, mem, block,
    goroutine and mutex and a time the clock gave; each name carries its
    own reading of the clock. The CPU artifact is not created by a
    snapshot: the activation phase of [Run] creates it, under the reading
    taken when that phase starts. A snapshot creates one file for each
    enabled kind other than CPU, in the order of the code, each under a
    reading taken during that snapshot; when the clock gives the one time
    [t] during the snapshot, these files all carry [t]. *)
Theorem artifact_names (env : Env) (c : Config) (w0 : World)
    (ops : list Op) (s : System) (t : Z) :
  final (exec env ops (boot c w0)) = Some s ->
  Forall (fun n => exists k i, n = artifact_name (Prefix c) k (clock env i))
    (created (sys_trace s))
  /\ created (fst (Run_activate env (sys_p s) (sys_w s)))
     = (if CPU c
        then [artifact_name (Prefix c) cpu (clock env (tick (sys_w s)))]
        else [])
  /\ exists evs p' w',
       TakeSnapshot env (sys_p s) (sys_w s) = (evs, Done p' w')
       /\ Forall2 (stamped env (Prefix c) (sys_w s) w')
            (file_kinds (List.filter (enabled c) all_kinds)) (created evs)
       /\ ((forall i, (tick (sys_w s) <= i < tick w')%nat -> clock env i = t) ->
           created evs
           = map (fun k => artifact_name (Prefix c) k t)
               (file_kinds (List.filter (enabled c) all_kinds))).
Proof.
  intros Hs.
  assert (conf (sys_p s) = c) as Hc
    by (rewrite (exec_keeps_conf env ops (boot c w0) s Hs); by rewrite boot_eq).
  apply exec_effect in Hs as (evs & Htr & Heff).
  split; [|split].
  - rewrite Htr, boot_eq, created_app. simpl.
    eapply Forall_impl; [apply (eff_created _ _ _ _ _ _ Heff)|].
    rewrite boot_eq. simpl. intros n (k & i & _ & ->). by exists k, i.
  - pose proof (Run_activate_spec env (sys_p s) (sys_w s)) as HA.
    unfold wp in HA. rewrite <- Hc.
    destruct (Run_activate env (sys_p s) (sys_w s)) as [eA [pA wA|x wA]];
      simpl.
    + apply (act_created _ _ _ _ _ _ HA).
    + destruct HA as (-> & _ & _ & -> & _). done.
  - destruct (proj1 (returns_eq _ _ _)
                (TakeSnapshot_trace env (sys_p s) (sys_w s)))
      as (e1 & p1 & w1 & Heq & _ & _ & Hn & _).
    rewrite Hc in Hn. exists e1, p1, w1.
    split; [done|]. split; [done|].
    intros Hclock. apply Forall2_map_eq. eapply Forall2_impl; [exact Hn|].
    intros k n (i & Hi & ->). by rewrite Hclock.
Qed.

Lemma artifact_names_witness :
  final (exec (calm 100) [op_Run] (boot conf_cpu_mem world0))
  = Some calm_example
  /\ Forall (fun n => exists k i,
               n = artifact_name (Prefix conf_cpu_mem) k (clock (calm 100) i))
       (created (sys_trace calm_example))
  /\ created (fst (Run_activate (calm 100) (sys_p calm_example)
                     (sys_w calm_example)))
     = ["/tmp/t.cpu.100.pprof"]
  /\ exists evs p' w',
       TakeSnapshot (calm 100) (sys_p calm_example) (sys_w calm_example)
       = (evs, Done p' w')
       /\ created evs
          = map (fun k => artifact_name (Prefix conf_cpu_mem) k 100)
              (file_kinds (List.filter (enabled conf_cpu_mem) all_kinds)).
Proof.
  split; [vm_compute; reflexivity|].
  destruct (artifact_names (calm 100) conf_cpu_mem world0 [op_Run]
              calm_example 100)
    as (H1 & H2 & evs & p' & w' & H3 & _ & H4); [vm_compute; reflexivity|].
  split; [exact H1|]. split; [exact H2|].
  exists evs, p', w'. split; [exact H3|]. apply H4. reflexivity.
Defined.

(** C7. The snapshot of the block kind calls, in this order and nothing
    else but the logger: [os.Create] on [<prefix>block.<time>.pprof], which
    hands out a descriptor not used before (or nil when it fails);
    [WriteTo] of the profile ["block"] on that file with debug level 2;
    [Close] of that file; [runtime.SetBlockProfileRate(0)]. It returns
    with the rate at 0. *)
Theorem takeBlockSnapshot_order (env : Env) (p : profiler) (w : World) :
  exists f e1 e2 e3 evs w',
    takeBlockSnapshot env p w = (evs, Done tt w')
    /\ calls evs =
         [ECreate (artifact_name (Prefix (conf p)) block (clock env (tick w)))
            f e1;
          EWriteTo "block" f 2 e2;
          EClose f e3;
          ESetBlockProfileRate 0]
    /\ (f = None \/ f = Some (nextFd w))
    /\ rt_BlockProfileRate w' = 0.
Proof.
  unfold takeBlockSnapshot, log_err, os_Create, File_Close, time_Now_Unix,
    Profile_WriteTo, pprof_Lookup, runtime_SetBlockProfileRate,
    Logger_Println, emit, mbind, M_bind, mret, M_ret, artifact_name.
  simpl.
  destruct (create_err env _ _) as [x1|]; simpl.
  - destruct (write_err env _ _) as [x2|]; simpl.
    all: do 6 eexists; (split; [reflexivity|]); simpl; auto.
  - destruct (write_err env _ _) as [x2|]; simpl.
    all: destruct (close_err env _ _) as [x3|]; simpl.
    all: do 6 eexists; (split; [reflexivity|]); simpl; auto.
Qed.

(** C8. Whatever operations are run on a controller built by
    [NewProfiler c], and also when the last one panics, the configuration
    the controller holds is still [c]. *)
Theorem conf_never_mutated (env : Env) (c : Config) (w : World)
    (ops : list Op) (s : System) :
  final (exec env ops (boot c w)) = Some s ->
  conf (sys_p s) = c.
Proof.
  intros H. apply exec_keeps_conf in H. by rewrite H, boot_eq.
Qed.

Lemma conf_never_mutated_witness :
  exists s,
    final (exec (ticking 100)
             [op_Run; op_TakeSnapshot; op_select case_timer_C; op_Stop;
              op_select case_terminateCh]
             (boot conf_cpu_mem world0)) = Some s
    /\ conf (sys_p s) = conf_cpu_mem.
Proof.
  eexists. split; [vm_compute; reflexivity|].
  eapply (conf_never_mutated (ticking 100) conf_cpu_mem world0
            [op_Run; op_TakeSnapshot; op_select case_timer_C; op_Stop;
             op_select case_terminateCh]).
  vm_compute. reflexivity.
Defined.

(** C9, as stated, fails: [Run] for CPU and memory profiling every 50ms is
    blocked in its [select], and [os.Create] fails from the fifth answer of
    the outside on, that is once the memory artifact of the next snapshot
    is open. On the expiry of the timer the snapshot is taken (the memory
    file 4 and the CPU file 3 are closed), then the new CPU artifact cannot
    be opened and the re-invoked [Run] panics: no new file is opened for
    the cleanup list, and no timer is armed again. *)
Lemma timer_expiry_panics :
  exec (failing_from 100 5) [op_Run] (boot conf_cpu_mem world0)
  = Next calm_example
  /\ sys_run calm_example = Blocked 50000000
  /\ exists evs w',
       Run_select (failing_from 100 5) case_timer_C (sys_p calm_example)
         (sys_w calm_example)
       = (evs, Panic (Err "open /tmp/t.cpu.100.pprof") w')
       /\ snapshots evs = [cpu; mem]
       /\ opens evs = [Some 4%nat; None]
       /\ closed evs = [Some 4%nat; Some 3%nat]
       /\ timers evs = [].
Proof.
  split; [vm_compute; reflexivity|]. split; [reflexivity|].
  eexists _, _. split; [vm_compute; reflexivity|].
  repeat split.
Qed.

(** C9, amended. The timer case of the [select], from any state in which a
    controller built by [NewProfiler c] is blocked there with a timer of
    [d]. It takes a snapshot, which empties the cleanup list, stops the CPU
    profile when CPU is on and leaves the block rate at 0 when Block is on;
    then it runs [Run] again. If the CPU artifact cannot be opened that
    call panics with the error of [os.Create], the failed create being its
    only call to the file system: no timer is armed. Otherwise the calls of
    the whole activation phase follow the snapshot: with CPU on a new file
    is opened under a name made from a new reading of the clock, the CPU
    profile is started on it and it is the one entry of the cleanup list;
    with Block on the block rate is back at 1. Last, the timer is armed
    with [d] again and [Run] is blocked again. *)
Theorem timer_expiry_restarts_Run (env : Env) (c : Config) (w0 : World)
    (ops : list Op) (s : System) (d : Duration) :
  exec env ops (boot c w0) = Next s ->
  sys_run s = Blocked d ->
  exists evsS pS wS,
    TakeSnapshot env (sys_p s) (sys_w s) = (evsS, Done pS wS)
    /\ closers pS = []
    /\ (CPU c = true -> start_answer wS = None)
    /\ (Block c = true -> rt_BlockProfileRate wS = 0)
    /\ match Run_select env case_timer_C (sys_p s) (sys_w s) with
       | (evs, Done (p', st) w') =>
           cpu_create_err env pS wS = None
           /\ st = Blocked d
           /\ exists evsA,
               evs = evsS ++ evsA ++ [ENewTimer d]
               /\ calls evsA =
                    activation_calls c (cpu_name env pS wS)
                      (Some (nextFd wS)) (start_answer wS)
               /\ (CPU c = true ->
                   created evsA = [cpu_name env pS wS]
                   /\ closers p' = [CloseFile (Some (nextFd wS))]
                   /\ rt_cpuProfiling w' = Some (Some (nextFd wS)))
               /\ (Block c = true -> rt_BlockProfileRate w' = 1)
       | (evs, Panic e w') =>
           CPU c = true
           /\ cpu_create_err env pS wS = Some e
           /\ exists evsA,
               evs = evsS ++ evsA
               /\ opens evsA = [None]
               /\ timers evs = []
       end.
Proof.
  intros Hexec Hrun.
  pose proof (exec_blocked env c w0 ops s d Hexec Hrun) as (Hon & Hitv & Hparse).
  assert (conf (sys_p s) = c) as Hc.
  { rewrite (exec_keeps_conf env ops (boot c w0) s) by (by rewrite Hexec).
    by rewrite boot_eq. }
  destruct s as [p st w tr]. simpl in *. subst st.
  destruct (proj1 (returns_eq _ _ _)
              (returns_and _ _ _ _ (TakeSnapshot_spec env p w)
                 (TakeSnapshot_trace env p w)))
    as (evsS & pS & wS & HeqS
        & (-> & _ & _ & _ & _ & _ & _ & _ & Hcpu & Hblk)
        & (_ & _ & _ & _ & _ & HtiS & _)).
  exists evsS, (set_closers [] p), wS.
  split; [done|]. split; [done|].
  split; [intros H; unfold start_answer; by rewrite Hcpu, Hc, H|].
  split; [intros H; by rewrite Hblk, Hc, H|].
  unfold Run_select, Run_enter, mbind, M_bind. rewrite HeqS.
  pose proof (Run_activate_spec env (set_closers [] p) wS) as HA.
  unfold wp in HA.
  destruct (Run_activate env (set_closers [] p) wS) as [evsA [pA wA|e wA]].
  - destruct HA as [Hcreate -> Hcalls Hcreated _ _ _ _ _ _ HAcpu _ HAblk _].
    simpl in *.
    assert (conf (if CPU (conf p)
                  then set_closers [CloseFile (Some (nextFd wS))]
                         (set_closers [] p)
                  else set_closers [] p) = conf p) as Hconf
      by (by destruct (CPU (conf p))).
    rewrite Run_schedule_eq, Hconf, Hon, Hparse.
    apply String.eqb_neq in Hitv. rewrite String.eqb_sym, Hitv. simpl.
    split; [done|]. split; [done|]. exists evsA.
    split; [done|]. rewrite <- Hc. split; [done|].
    split.
    + intros H. rewrite H in *. by rewrite Hcreated, HAcpu, Hcpu.
    + exact HAblk.
  - simpl. destruct HA as (H1 & H2 & _ & _ & Ho & _ & _ & Hti & _).
    rewrite <- Hc. split; [done|]. split; [done|]. exists evsA.
    split; [done|]. split; [done|].
    by rewrite timers_app, HtiS, Hti.
Qed.

Lemma timer_expiry_restarts_Run_witness :
  exec (ticking 100) [op_Run] (boot conf_cpu_mem world0) = Next blocked_example
  /\ sys_run blocked_example = Blocked 50000000
  /\ exists evsS pS wS,
    TakeSnapshot (ticking 100) (sys_p blocked_example) (sys_w blocked_example)
    = (evsS, Done pS wS)
    /\ closers pS = []
    /\ (CPU conf_cpu_mem = true -> start_answer wS = None)
    /\ (Block conf_cpu_mem = true -> rt_BlockProfileRate wS = 0)
    /\ match Run_select (ticking 100) case_timer_C (sys_p blocked_example)
               (sys_w blocked_example) with
       | (evs, Done (p', st) w') =>
           cpu_create_err (ticking 100) pS wS = None
           /\ st = Blocked 50000000
           /\ exists evsA,
               evs = evsS ++ evsA ++ [ENewTimer 50000000]
               /\ calls evsA =
                    activation_calls conf_cpu_mem (cpu_name (ticking 100) pS wS)
                      (Some (nextFd wS)) (start_answer wS)
               /\ (CPU conf_cpu_mem = true ->
                   created evsA = [cpu_name (ticking 100) pS wS]
                   /\ closers p' = [CloseFile (Some (nextFd wS))]
                   /\ rt_cpuProfiling w' = Some (Some (nextFd wS)))
               /\ (Block conf_cpu_mem = true -> rt_BlockProfileRate w' = 1)
       | (evs, Panic e w') =>
           CPU conf_cpu_mem = true
           /\ cpu_create_err (ticking 100) pS wS = Some e
           /\ exists evsA,
               evs = evsS ++ evsA
               /\ opens evsA = [None]
               /\ timers evs = []
       end.
Proof.
  split; [vm_compute; reflexivity|]. split; [reflexivity|].
  apply (timer_expiry_restarts_Run (ticking 100) conf_cpu_mem world0 [op_Run]
           blocked_example 50000000).
  - vm_compute; reflexivity.
  - reflexivity.
Defined.

(** C10. On a controller built by [NewProfiler] and driven by any
    operations, [Stop] never waits: it returns or it panics. As long as
    [Stop] was not called, it returns, having closed the termination
    channel and nothing else; once it was called, every further call
    panics on the close of the closed channel. *)
Theorem Stop_once_then_panic (env : Env) (c : Config) (w : World)
    (ops : list Op) (s : System) :
  exec env ops (boot c w) = Next s ->
  step env op_Stop s <> Disabled
  /\ (existsb is_Stop ops = false ->
      exists s',
        step env op_Stop s = Next s'
        /\ sys_trace s' = sys_trace s ++ [ECloseChan (terminateCh (sys_p s))]
        /\ chan_closed (sys_w s) (terminateCh (sys_p s)) = false
        /\ chan_closed (sys_w s') (terminateCh (sys_p s')) = true
        /\ sys_p s' = sys_p s /\ sys_run s' = sys_run s)
  /\ (existsb is_Stop ops = true ->
      exists s',
        step env op_Stop s = Crash ErrCloseClosed s'
        /\ sys_trace s' = sys_trace s
        /\ sys_w s' = sys_w s).
Proof.
  intros Hexec.
  assert (chans (sys_w s) !! terminateCh (sys_p s)
          = Some (existsb is_Stop ops)) as Hch.
  { rewrite (exec_chan env ops (boot c w) s false); [done| |done].
    rewrite boot_eq. simpl. by rewrite lookup_insert_eq. }
  destruct s as [p st w1 tr]. simpl in *.
  unfold step, op_call, chan_closed, mbind, M_bind. simpl.
  rewrite Stop_eq, Hch.
  destruct (existsb is_Stop ops); simpl.
  - split; [done|]. split; [done|]. intros _.
    eexists. split; [reflexivity|]. simpl. by rewrite app_nil_r.
  - split; [done|]. split; [|done]. intros _.
    eexists. split; [reflexivity|]. simpl.
    by rewrite lookup_insert_eq.
Qed.

Lemma Stop_once_then_panic_witness :
  exists s s',
    exec (calm 100) [op_Run; op_Stop] (boot conf_cpu_mem world0) = Next s
    /\ step (calm 100) op_Stop s = Crash ErrCloseClosed s'.
Proof.
  eexists.
  destruct (Stop_once_then_panic (calm 100) conf_cpu_mem world0
              [op_Run; op_Stop] _ ltac:(vm_compute; reflexivity))
    as (_ & _ & H).
  destruct (H eq_refl) as (s' & Hs' & _).
  exists s'. split; [vm_compute; reflexivity|exact Hs'].
Defined.

(** * The model at work *)

(** One cycle of the loop and a stop, under a clock that stands still: the
    CPU file opened by each activation is closed by the next snapshot,
    after the files of that snapshot. *)
Example loop_opens_and_closes :
  match exec (calm 100)
          [op_Run; op_select case_timer_C; op_Stop; op_select case_terminateCh]
          (boot conf_cpu_mem world0) with
  | Next s =>
      sys_run s = Returned
      /\ created (sys_trace s)
         = ["/tmp/t.cpu.100.pprof"; "/tmp/t.mem.100.pprof";
            "/tmp/t.cpu.100.pprof"; "/tmp/t.mem.100.pprof"]
      /\ opens (sys_trace s)
         = [Some 3; Some 4; Some 5; Some 6]%nat
      /\ closed (sys_trace s)
         = [Some 4; Some 3; Some 6; Some 5]%nat
      /\ timers (sys_trace s) = [50000000; 50000000]
      /\ closers (sys_p s) = []
  | _ => False
  end.
Proof. vm_compute. repeat split. Qed.

(** When the memory artifact cannot be opened, the error is logged, the
    heap profile goes to the nil file, and the block snapshot is taken all
    the same. *)
Example snapshot_survives_failed_open :
  let evs :=
    fst (TakeSnapshot (failing 100 ["/tmp/t.mem.100.pprof"])
           (sys_p (boot conf_mem_block world0))
           (sys_w (boot conf_mem_block world0))) in
  snapshots evs = [mem; block]
  /\ attempts evs = [(mem, None); (block, Some 3%nat)]
  /\ persisted evs = [(block, 3%nat)]
  /\ logged evs
     = [Err "open /tmp/t.mem.100.pprof"; ErrInvalid; ErrInvalid].
Proof. vm_compute. repeat split. Qed.

(** A second [Stop] panics. *)
Example second_Stop_panics :
  match exec (calm 100) [op_Run; op_Stop; op_select case_terminateCh; op_Stop]
          (boot conf_cpu_mem world0) with
  | Crash e _ => e = ErrCloseClosed
  | _ => False
  end.
Proof. vm_compute. reflexivity. Qed.

(** ** The earlier revision: the cleanup list never fills *)

(** A snapshot of the earlier revision closes the files it opened and the
    files of the cleanup list of the copy it was called on. *)
Lemma Earlier_range_closers_closed (env : Env) (cs : list Closer) (w : World) :
  returns (Earlier.range_closers env cs) w (fun evs _ _ =>
    closed evs = map closer_file cs /\ opens evs = []).
Proof.
  revert w. induction cs as [|[f] cs IH]; intros w; [done|].
  simpl. apply returns_bind.
  unfold Earlier.call_closer, File_Close, returns at 1, wp, mbind, M_bind,
    mret, M_ret.
  destruct f as [fd|]; simpl.
  all: eapply returns_mono; [apply IH|].
  all: intros evs [] w' [-> ->]; done.
Qed.

Lemma Earlier_kinds_closed (env : Env) (p : Earlier.profiler) (w : World) :
  returns (when (Earlier.CPU (Earlier.conf p)) (Earlier.takeCPUSnapshot p)) w
    (fun evs _ _ => closed evs = opens evs)
  /\ returns (when (Earlier.Memory (Earlier.conf p))
                (Earlier.takeMemorySnapshot env p)) w
       (fun evs _ _ => closed evs = opens evs)
  /\ returns (when (Earlier.Block (Earlier.conf p))
                (Earlier.takeBlockSnapshot env p)) w
       (fun evs _ _ => closed evs = opens evs)
  /\ returns (when (Earlier.Goroutine (Earlier.conf p))
                (Earlier.takeGoroutineSnapshot env p)) w
       (fun evs _ _ => closed evs = opens evs).
Proof.
  unfold returns, wp, when, Earlier.takeCPUSnapshot,
    Earlier.takeMemorySnapshot, Earlier.takeBlockSnapshot,
    Earlier.takeGoroutineSnapshot, Earlier.fmt_Println, os_Create,
    File_Close, time_Now_Unix, pprof_WriteHeapProfile, Profile_WriteTo,
    pprof_Lookup, pprof_StopCPUProfile, runtime_SetBlockProfileRate,
    emit, mbind, M_bind, mret, M_ret.
  destruct (Earlier.CPU _), (Earlier.Memory _), (Earlier.Block _),
    (Earlier.Goroutine _); simpl.
  all: repeat match goal with
         | |- context [create_err ?e ?a ?b] =>
             destruct (create_err e a b); simpl
         end.
  all: repeat split.
Qed.

Lemma Earlier_TakeSnapshot_closed (env : Env) (p : Earlier.profiler)
    (w : World) :
  returns (Earlier.TakeSnapshot env p) w (fun evs _ _ =>
    closed evs = opens evs ++ map closer_file (Earlier.closers p)).
Proof.
  unfold Earlier.TakeSnapshot.
  apply returns_bind. eapply returns_mono;
    [apply (Earlier_kinds_closed env p w)|]. intros e1 [] w1 H1.
  apply returns_bind. eapply returns_mono;
    [apply (Earlier_kinds_closed env p w1)|]. intros e2 [] w2 H2.
  apply returns_bind. eapply returns_mono;
    [apply (Earlier_kinds_closed env p w2)|]. intros e3 [] w3 H3.
  apply returns_bind. eapply returns_mono;
    [apply (Earlier_kinds_closed env p w3)|]. intros e4 [] w4 H4.
  apply returns_bind. eapply returns_mono;
    [apply Earlier_range_closers_closed|]. intros e5 [] w5 [H5 H5'].
  unfold returns, wp. simpl. autorewrite with trace. simpl.
  rewrite H1, H2, H3, H4, H5, H5', !app_nil_r, <- !app_assoc. done.
Qed.

(** In the earlier revision too, [Run] with no kind enabled does nothing,
    whatever the interval. *)
Lemma Earlier_Run_nothing_enabled (env : Env) (p : Earlier.profiler)
    (w : World) (wakes : list SelectCase) :
  Earlier.isOn (Earlier.conf p) = false ->
  Earlier.Run env wakes p w = ([], Done Returned w).
Proof.
  destruct p as [[c m b g pre itv mr cr] ch cs].
  unfold Earlier.isOn. simpl. intros H.
  destruct c, m, g, b; try discriminate H.
  unfold Earlier.Run, Earlier.Run_enter, Earlier.isOn, mbind, M_bind.
  simpl. by destruct wakes.
Qed.

(** The earlier [Run] for CPU and memory profiling, stopped while it waits:
    the CPU file (descriptor 3) is opened and the profile started on it,
    the final snapshot closes the memory file (descriptor 4) only. The CPU
    file is in no cleanup list and stays open. *)
Example Earlier_cpu_file_stays_open :
  let evs := fst (Earlier.Run (calm 100) [case_terminateCh] earlier_example
                    world0) in
  opens evs = [Some 3; Some 4]%nat
  /\ closed evs = [Some 4]%nat
  /\ snapshots evs = [cpu; mem].
Proof. vm_compute. repeat split. Qed.

(** * Further properties *)

(** ** The runtime's switches across a snapshot *)

Lemma keeps_rates_trans (w w1 w2 : World) :
  keeps_rates w w1 -> keeps_rates w1 w2 -> keeps_rates w w2.
Proof. unfold keeps_rates. intuition congruence. Qed.

Lemma when_takeKind_rates (env : Env) (k : Kind) (p : profiler) (w : World) :
  k <> cpu ->
  returns (when (enabled (conf p) k) (takeKind env k p)) w
    (fun _ _ w' => keeps_rates w w' /\ rt_cpuProfiling w' = rt_cpuProfiling w).
Proof.
  intros Hk. apply returns_when; intros _; [|done].
  unfold returns, wp, keeps_rates, takeKind, takeCPUSnapshot,
    takeMemorySnapshot, takeBlockSnapshot, takeGoroutineSnapshot,
    takeMutexSnapshot, log_err, os_Create, File_Close, time_Now_Unix,
    pprof_WriteHeapProfile, Profile_WriteTo, pprof_Lookup,
    pprof_StopCPUProfile, runtime_SetBlockProfileRate, Logger_Println,
    emit, mbind, M_bind, mret, M_ret.
  destruct k; simpl; [done| | | |].
  all: destruct (create_err env _ _); simpl.
  all: destruct (write_err env _ _); simpl.
  all: try (destruct (close_err env _ _); simpl).
  all: done.
Qed.

(** The sampling rates after the snapshots of the kinds: only the CPU
    rate moves, to 0, when CPU is on and a profile was running. *)
Lemma snapshot_kinds_rates (env : Env) (p : profiler) (w : World) :
  returns (snapshot_kinds env p) w (fun _ _ w' =>
    rt_MemProfileRate w' = rt_MemProfileRate w
    /\ rt_MutexProfileFraction w' = rt_MutexProfileFraction w
    /\ rt_CPUProfileRate w' =
         if CPU (conf p)
         then match rt_cpuProfiling w with
              | Some _ => 0
              | None => rt_CPUProfileRate w
              end
         else rt_CPUProfileRate w).
Proof.
  unfold snapshot_kinds.
  apply returns_bind.
  assert (returns (when (CPU (conf p)) (takeCPUSnapshot p)) w
            (fun _ _ w' =>
               rt_MemProfileRate w' = rt_MemProfileRate w
               /\ rt_MutexProfileFraction w' = rt_MutexProfileFraction w
               /\ rt_CPUProfileRate w' =
                    if CPU (conf p)
                    then match rt_cpuProfiling w with
                         | Some _ => 0
                         | None => rt_CPUProfileRate w
                         end
                    else rt_CPUProfileRate w)) as Hcpu.
  { destruct (CPU (conf p)); [|done].
    unfold returns, wp. cbn [when]. by rewrite takeCPUSnapshot_eq. }
  eapply returns_mono; [exact Hcpu|].
  intros e1 [] w1 (M1 & X1 & C1). apply returns_bind.
  eapply returns_mono; [by apply (when_takeKind_rates env mem)|].
  intros e2 [] w2 [(C2 & M2 & X2) _]. apply returns_bind.
  eapply returns_mono; [by apply (when_takeKind_rates env block)|].
  intros e3 [] w3 [(C3 & M3 & X3) _]. apply returns_bind.
  eapply returns_mono; [by apply (when_takeKind_rates env goroutine)|].
  intros e4 [] w4 [(C4 & M4 & X4) _].
  eapply returns_mono; [by apply (when_takeKind_rates env mutex)|].
  intros e5 [] w5 [(C5 & M5 & X5) _].
  repeat split; congruence.
Qed.

Lemma range_closers_rates (env : Env) (p : profiler) (cs : list Closer)
    (w : World) :
  returns (range_closers env p cs) w (fun _ _ w' => keeps_rates w w').
Proof.
  revert w. induction cs as [|[f] cs IH]; intros w; [done|].
  simpl range_closers. apply returns_bind.
  assert (returns (call_closer env p (CloseFile f)) w
            (fun _ _ w' => keeps_rates w w')) as Hc.
  { unfold returns, wp, keeps_rates, call_closer, File_Close, Logger_Println,
      emit, mbind, M_bind, mret, M_ret.
    destruct f as [fd|]; simpl; [|done].
    by destruct (close_err env _ _). }
  eapply returns_mono; [exact Hc|]. intros e1 [] w1 H1.
  eapply returns_mono; [apply IH|]. intros e2 [] w2 H2.
  eauto using keeps_rates_trans.
Qed.

(** X1. A snapshot switches off what it captured for the CPU and the block
    kind only. With CPU on it stops the CPU profile, and the runtime's CPU
    rate is 0 afterwards if a profile was running (if none was running the
    rate is as it was); with Block on it sets the block rate to 0. The
    memory rate and the mutex fraction are as they were, so memory and
    mutex sampling stay on after every snapshot, the last one included. *)
Theorem TakeSnapshot_switches (env : Env) (p : profiler) (w : World) :
  exists evs p' w',
    TakeSnapshot env p w = (evs, Done p' w')
    /\ rt_cpuProfiling w' = (if CPU (conf p) then None else rt_cpuProfiling w)
    /\ rt_CPUProfileRate w' =
         (if CPU (conf p)
          then match rt_cpuProfiling w with
               | Some _ => 0
               | None => rt_CPUProfileRate w
               end
          else rt_CPUProfileRate w)
    /\ rt_BlockProfileRate w' =
         (if Block (conf p) then 0 else rt_BlockProfileRate w)
    /\ rt_MemProfileRate w' = rt_MemProfileRate w
    /\ rt_MutexProfileFraction w' = rt_MutexProfileFraction w.
Proof.
  destruct (proj1 (returns_eq _ _ _)
              (returns_and _ _ _ _ (snapshot_kinds_knobs env p w)
                 (snapshot_kinds_rates env p w)))
    as (evsK & [] & wK & HeqK & [HcK HbK] & (HmK & HxK & HrK)).
  destruct (proj1 (returns_eq _ _ _)
              (returns_and _ _ _ _ (range_closers_spec env p (closers p) wK)
                 (range_closers_rates env p (closers p) wK)))
    as (evsC & [] & w' & HeqC & HC & (Hr1 & Hr2 & Hr3)).
  exists (evsK ++ evsC), (set_closers [] p), w'.
  split.
  { unfold TakeSnapshot, mbind, M_bind. rewrite HeqK, HeqC. simpl.
    by rewrite app_nil_r. }
  rewrite (cs_cpuProfiling _ _ _ _ HC), (cs_BlockProfileRate _ _ _ _ HC).
  repeat split; congruence.
Qed.

(** ** The switches after activation, and the panic of a failed open *)

Lemma cpuprof_rate_refused (hz old : Z) :
  0 < hz -> old <> 0 -> cpuprof_rate hz old = old.
Proof.
  intros Hhz Hold. unfold cpuprof_rate.
  destruct (Z.ltb_spec 0 (Z.min (Z.max hz 0) 1000000)); [|lia].
  by destruct (Z.eqb_spec old 0).
Qed.

Lemma cpuprof_rate_set (hz : Z) :
  0 < hz -> cpuprof_rate hz 0 = Z.min hz 1000000.
Proof.
  intros Hhz. unfold cpuprof_rate.
  destruct (Z.ltb_spec 0 (Z.min (Z.max hz 0) 1000000)); [|lia].
  simpl. lia.
Qed.

(** The CPU rate of the runtime after the activation phase of [Run] with
    CPU on, from the configured rate [cr], the rate [old] and the state
    [running] of the CPU profile before. *)
Lemma activation_rate (cr old : Z) (running : option File) :
  match running with
  | Some _ => if 0 <? cr then cpuprof_rate cr old else old
  | None => cpuprof_rate 100 (if 0 <? cr then cpuprof_rate cr old else old)
  end
  = if old =? 0
    then if 0 <? cr then Z.min cr 1000000
         else match running with Some _ => 0 | None => 100 end
    else old.
Proof.
  destruct (Z.eqb_spec old 0) as [->|Hold], (Z.ltb_spec 0 cr) as [Hcr|Hcr].
  - rewrite cpuprof_rate_set by done.
    destruct running; [done|]. apply cpuprof_rate_refused; lia.
  - by destruct running.
  - rewrite cpuprof_rate_refused by done.
    destruct running; [done|]. by apply cpuprof_rate_refused.
  - destruct running; [done|]. by apply cpuprof_rate_refused.
Qed.

(** X2. When the CPU artifact opens (or CPU is off), the activation phase of
    [Run] returns and leaves each switch of the runtime as follows. With
    Memory on the memory rate is the configured value, whatever it is; with
    Block on the block rate is 1; with Mutex on the mutex fraction is the
    configured value unless that is negative, and then it is as it was.
    With CPU on a CPU profile runs on the new file if none ran before, and
    the CPU rate is as it was if it was not 0 (the runtime refuses a new
    rate while one is set); if it was 0 it is the configured rate, at most
    1000000, when that is positive, and otherwise the 100 of
    [pprof.StartCPUProfile] if that call started the profile. The switch of
    a kind that is off is not touched. *)
Theorem Run_activate_switches (env : Env) (p : profiler) (w : World) :
  cpu_create_err env p w = None ->
  exists evs p' w',
    Run_activate env p w = (evs, Done p' w')
    /\ rt_CPUProfileRate w' =
         (if CPU (conf p)
          then if rt_CPUProfileRate w =? 0
               then if 0 <? CPUProfileRate (conf p)
                    then Z.min (CPUProfileRate (conf p)) 1000000
                    else match rt_cpuProfiling w with
                         | Some _ => 0
                         | None => 100
                         end
               else rt_CPUProfileRate w
          else rt_CPUProfileRate w)
    /\ rt_MemProfileRate w' =
         (if Memory (conf p) then MemoryProfileRate (conf p)
          else rt_MemProfileRate w)
    /\ rt_BlockProfileRate w' =
         (if Block (conf p) then 1 else rt_BlockProfileRate w)
    /\ rt_MutexProfileFraction w' =
         (if Mutex (conf p) && negb (MutexProfileFraction (conf p) <? 0)
          then MutexProfileFraction (conf p)
          else rt_MutexProfileFraction w)
    /\ rt_cpuProfiling w' =
         (if CPU (conf p)
          then match rt_cpuProfiling w with
               | Some f => Some f
               | None => Some (Some (nextFd w))
               end
          else rt_cpuProfiling w).
Proof.
  destruct p as [[c m b g x pre itv mr cr xr] ch cs lg].
  unfold cpu_create_err, cpu_name, artifact_name, Run_activate, when,
    startProfilingCPU, os_Create, time_Now_Unix, pprof_StartCPUProfile,
    runtime_SetBlockProfileRate, runtime_SetCPUProfileRate,
    runtime_MemProfileRate_assign, runtime_SetMutexProfileFraction,
    Logger_Println, emit, panic, mbind, M_bind, mret, M_ret.
  simpl. intros Hcreate.
  pose proof (activation_rate cr (rt_CPUProfileRate w) (rt_cpuProfiling w))
    as Hrate.
  destruct c; simpl in *.
  - change (create_err env (S (tick w))
              (pre +:+ "cpu." +:+ string_of_Z (clock env (tick w)) +:+ ".pprof")
            = None) in Hcreate.
    destruct (0 <? cr); simpl; rewrite Hcreate; simpl.
    all: destruct (rt_cpuProfiling w) eqn:Hcpu; simpl.
    all: destruct m, b, x; simpl; do 3 eexists; (split; [reflexivity|]).
    all: simpl; rewrite ?Hcpu; destruct (xr <? 0); simpl; auto 10.
  - destruct m, b, x; simpl; do 3 eexists; (split; [reflexivity|]).
    all: simpl; destruct (xr <? 0); simpl; auto 10.
Qed.

Lemma Run_activate_switches_witness :
  cpu_create_err (calm 100) (sys_p (boot conf_banana world0))
    (sys_w (boot conf_banana world0)) = None
  /\ exists evs p' w',
    Run_activate (calm 100) (sys_p (boot conf_banana world0))
      (sys_w (boot conf_banana world0)) = (evs, Done p' w')
    /\ rt_CPUProfileRate w' = 100
    /\ rt_MemProfileRate w' = 1
    /\ rt_BlockProfileRate w' = 1
    /\ rt_MutexProfileFraction w' = 5
    /\ rt_cpuProfiling w' = Some (Some 3%nat).
Proof.
  split; [reflexivity|].
  apply (Run_activate_switches (calm 100) (sys_p (boot conf_banana world0))
           (sys_w (boot conf_banana world0))).
  reflexivity.
Defined.

(** X3. When CPU is on and the CPU artifact cannot be opened, [Run] panics with
    the error of [os.Create], whatever the interval: the failed create is
    its only call to the file system, no CPU profile was started, no timer
    armed, and the panic comes before the switches of the other kinds, which
    are as they were. Only the CPU rate may have changed: it is the
    configured rate, at most 1000000, if that is positive and the rate was
    0 before; it is as it was otherwise. *)
Theorem Run_panics_on_failed_open (env : Env) (p : profiler) (w : World)
    (wakes : list SelectCase) (e : error) :
  CPU (conf p) = true ->
  cpu_create_err env p w = Some e ->
  exists evs w',
    Run env wakes p w = (evs, Panic e w')
    /\ opens evs = [None]
    /\ started evs = []
    /\ timers evs = []
    /\ snapshots evs = []
    /\ rt_cpuProfiling w' = rt_cpuProfiling w
    /\ rt_MemProfileRate w' = rt_MemProfileRate w
    /\ rt_BlockProfileRate w' = rt_BlockProfileRate w
    /\ rt_MutexProfileFraction w' = rt_MutexProfileFraction w
    /\ rt_CPUProfileRate w' =
         (if (0 <? CPUProfileRate (conf p)) && (rt_CPUProfileRate w =? 0)
          then Z.min (CPUProfileRate (conf p)) 1000000
          else rt_CPUProfileRate w).
Proof.
  destruct p as [[c m b g x pre itv mr cr xr] ch cs lg].
  unfold cpu_create_err, cpu_name, artifact_name, Run, Run_enter,
    Run_activate, when, startProfilingCPU, os_Create, time_Now_Unix,
    runtime_SetCPUProfileRate, Logger_Println, emit, panic, mbind, M_bind,
    mret, M_ret.
  simpl. intros -> Hcreate. simpl in *.
  change (create_err env (S (tick w))
            (pre +:+ "cpu." +:+ string_of_Z (clock env (tick w)) +:+ ".pprof")
          = Some e) in Hcreate.
  destruct (Z.ltb_spec 0 cr) as [Hcr|Hcr]; simpl; rewrite Hcreate; simpl.
  all: do 2 eexists; (split; [reflexivity|]); simpl.
  all: do 8 (split; [reflexivity|]).
  - destruct (Z.eqb_spec (rt_CPUProfileRate w) 0) as [->|Hold].
    + by apply cpuprof_rate_set.
    + by apply cpuprof_rate_refused.
  - done.
Qed.

Lemma Run_panics_on_failed_open_witness :
  CPU (conf (sys_p (boot conf_banana world0))) = true
  /\ cpu_create_err (failing 100 ["/tmp/t.cpu.100.pprof"])
       (sys_p (boot conf_banana world0)) (sys_w (boot conf_banana world0))
     = Some (Err "open /tmp/t.cpu.100.pprof")
  /\ exists evs w',
    Run (failing 100 ["/tmp/t.cpu.100.pprof"]) [case_timer_C]
      (sys_p (boot conf_banana world0)) (sys_w (boot conf_banana world0))
    = (evs, Panic (Err "open /tmp/t.cpu.100.pprof") w')
    /\ opens evs = [None]
    /\ rt_BlockProfileRate w' = 0.
Proof.
  split; [reflexivity|]. split; [reflexivity|].
  destruct (Run_panics_on_failed_open (failing 100 ["/tmp/t.cpu.100.pprof"])
              (sys_p (boot conf_banana world0))
              (sys_w (boot conf_banana world0)) [case_timer_C]
              (Err "open /tmp/t.cpu.100.pprof") eq_refl eq_refl)
    as (evs & w' & H1 & H2 & _ & _ & _ & _ & _ & H3 & _).
  exists evs, w'. split; [exact H1|]. split; [exact H2|].
  rewrite H3. reflexivity.
Defined.

(** ** Opening, starting, stopping and closing *)

(** X4. [startProfilingCPU] while a CPU profile is running (as when [Run] is
    called again before any snapshot): the new artifact is opened,
    [pprof.StartCPUProfile] refuses it and the refusal is logged, the
    running profile stays on its own file, and the new file is put on the
    cleanup list all the same. *)
Theorem startProfilingCPU_while_profiling (env : Env) (p : profiler)
    (w : World) (f0 : File) :
  rt_cpuProfiling w = Some f0 ->
  create_err env (S (tick w)) (cpu_name env p w) = None ->
  exists evs p' w',
    startProfilingCPU env p w = (evs, Done p' w')
    /\ calls evs =
         [ECreate (cpu_name env p w) (Some (nextFd w)) None;
          EStartCPUProfile (Some (nextFd w)) (Some ErrCPUInUse)]
    /\ logged evs = []
    /\ In (ELog (logger p)
             [LStr "could not start CPU profile: "; LErr ErrCPUInUse]) evs
    /\ rt_cpuProfiling w' = Some f0
    /\ closers p' = closers p ++ [CloseFile (Some (nextFd w))].
Proof.
  unfold cpu_name, artifact_name, startProfilingCPU, os_Create,
    time_Now_Unix, pprof_StartCPUProfile, Logger_Println, emit, panic,
    mbind, M_bind, mret, M_ret.
  simpl. intros Hcpu Hcreate.
  change (create_err env (S (tick w))
            (Prefix (conf p) +:+ "cpu." +:+ string_of_Z (clock env (tick w))
             +:+ ".pprof") = None) in Hcreate.
  rewrite Hcreate. simpl. rewrite Hcpu. simpl.
  do 3 eexists. split; [reflexivity|]. simpl. auto 10.
Qed.

Lemma startProfilingCPU_while_profiling_witness :
  rt_cpuProfiling (sys_w calm_example) = Some (Some 3%nat)
  /\ create_err (calm 100) (S (tick (sys_w calm_example)))
       (cpu_name (calm 100) (sys_p calm_example) (sys_w calm_example)) = None
  /\ exists evs p' w',
    startProfilingCPU (calm 100) (sys_p calm_example) (sys_w calm_example)
    = (evs, Done p' w')
    /\ calls evs =
         [ECreate (cpu_name (calm 100) (sys_p calm_example)
                     (sys_w calm_example))
            (Some (nextFd (sys_w calm_example))) None;
          EStartCPUProfile (Some (nextFd (sys_w calm_example)))
            (Some ErrCPUInUse)]
    /\ logged evs = []
    /\ In (ELog (logger (sys_p calm_example))
             [LStr "could not start CPU profile: "; LErr ErrCPUInUse]) evs
    /\ rt_cpuProfiling w' = Some (Some 3%nat)
    /\ closers p' =
         closers (sys_p calm_example)
         ++ [CloseFile (Some (nextFd (sys_w calm_example)))].
Proof.
  split; [reflexivity|]. split; [reflexivity|].
  apply (startProfilingCPU_while_profiling (calm 100) (sys_p calm_example)
           (sys_w calm_example) (Some 3%nat)); reflexivity.
Defined.

(** X5. With CPU on, [TakeSnapshot] first stops the CPU profile and closes
    files only afterwards; the files it closes are, in this order, the
    files it opened itself and then the files of the cleanup list. The CPU
    profile is stopped once. *)
Theorem TakeSnapshot_stops_before_closing (env : Env) (p : profiler)
    (w : World) :
  CPU (conf p) = true ->
  exists evs' p' w',
    TakeSnapshot env p w =
      (ELog (logger p) [LStr "Stopping CPU Profiler"]
       :: EStopCPUProfile :: evs', Done p' w')
    /\ closed evs' = opens evs' ++ map closer_file (closers p)
    /\ ~ In cpu (snapshots evs').
Proof.
  intros HCPU.
  destruct (proj1 (returns_eq _ _ _) (TakeSnapshot_spec env p w))
    as (evs & p' & w' & Heq & -> & evsK & wK & evsC & HeqK & -> & HK & HC & _).
  destruct HK as [HKs _ _ HKc _ _ _ _ _].
  destruct HC as [HCc HCo _ HCs _ _ _ _ _ _ _].
  assert (exists evsR,
            evsK = ELog (logger p) [LStr "Stopping CPU Profiler"]
                   :: EStopCPUProfile :: evsR) as (evsR & ->).
  { revert HeqK. unfold snapshot_kinds. rewrite HCPU.
    unfold mbind at 1, M_bind at 1. cbn [when].
    rewrite takeCPUSnapshot_eq. cbv beta iota.
    match goal with
    | |- context [match ?m with (evs', r) => _ end] =>
        destruct m as [evsR r]
    end.
    intros [= <- _]. by exists evsR. }
  exists (evsR ++ evsC), (set_closers [] p), w'.
  split; [exact Heq|].
  simpl in HKs, HKc. unfold all_kinds in HKs. simpl in HKs.
  rewrite HCPU in HKs. injection HKs as HKs.
  split.
  - by rewrite closed_app, opens_app, HKc, HCc, HCo, app_nil_r.
  - rewrite snapshots_app, HCs, app_nil_r, HKs.
    destruct (Memory (conf p)), (Block (conf p)), (Goroutine (conf p)),
      (Mutex (conf p)); simpl; intuition discriminate.
Qed.

Lemma TakeSnapshot_stops_before_closing_witness :
  CPU (conf (sys_p calm_example)) = true
  /\ exists evs' p' w',
    TakeSnapshot (calm 100) (sys_p calm_example) (sys_w calm_example) =
      (ELog (logger (sys_p calm_example)) [LStr "Stopping CPU Profiler"]
       :: EStopCPUProfile :: evs', Done p' w')
    /\ closed evs' = opens evs' ++ map closer_file (closers (sys_p calm_example))
    /\ ~ In cpu (snapshots evs').
Proof.
  split; [reflexivity|].
  apply (TakeSnapshot_stops_before_closing (calm 100) (sys_p calm_example)
           (sys_w calm_example)).
  reflexivity.
Defined.

(** X6. The snapshots of the memory, the goroutine and the mutex kind make,
    besides logging, three calls in this order: [os.Create] on
    [<prefix><kind>.<time>.pprof]; the write of the profile
    ([WriteHeapProfile], or [WriteTo] of the named profile with debug level
    2) on the file that call returned, the nil file included; [Close] of
    that file. Unlike the block snapshot they leave every switch of the
    runtime alone: mutex sampling is not switched off by its snapshot. *)
Theorem file_snapshots_order (env : Env) (p : profiler) (w : World) :
  (exists f e1 e2 e3 evs w',
     takeMemorySnapshot env p w = (evs, Done tt w')
     /\ calls evs =
          [ECreate (artifact_name (Prefix (conf p)) mem (clock env (tick w)))
             f e1;
           EWriteHeapProfile f e2;
           EClose f e3]
     /\ (f = None /\ e1 <> None \/ f = Some (nextFd w) /\ e1 = None)
     /\ keeps_rates w w'
     /\ rt_BlockProfileRate w' = rt_BlockProfileRate w
     /\ rt_cpuProfiling w' = rt_cpuProfiling w)
  /\ (exists f e1 e2 e3 evs w',
     takeGoroutineSnapshot env p w = (evs, Done tt w')
     /\ calls evs =
          [ECreate (artifact_name (Prefix (conf p)) goroutine
                      (clock env (tick w))) f e1;
           EWriteTo "goroutine" f 2 e2;
           EClose f e3]
     /\ (f = None /\ e1 <> None \/ f = Some (nextFd w) /\ e1 = None)
     /\ keeps_rates w w'
     /\ rt_BlockProfileRate w' = rt_BlockProfileRate w
     /\ rt_cpuProfiling w' = rt_cpuProfiling w)
  /\ (exists f e1 e2 e3 evs w',
     takeMutexSnapshot env p w = (evs, Done tt w')
     /\ calls evs =
          [ECreate (artifact_name (Prefix (conf p)) mutex (clock env (tick w)))
             f e1;
           EWriteTo "mutex" f 2 e2;
           EClose f e3]
     /\ (f = None /\ e1 <> None \/ f = Some (nextFd w) /\ e1 = None)
     /\ keeps_rates w w'
     /\ rt_BlockProfileRate w' = rt_BlockProfileRate w
     /\ rt_cpuProfiling w' = rt_cpuProfiling w).
Proof.
  unfold takeMemorySnapshot, takeGoroutineSnapshot, takeMutexSnapshot,
    keeps_rates, log_err, os_Create, File_Close, time_Now_Unix,
    pprof_WriteHeapProfile, Profile_WriteTo, pprof_Lookup, Logger_Println,
    emit, mbind, M_bind, mret, M_ret, artifact_name.
  simpl.
  repeat split.
  all: destruct (create_err env _ _) as [x1|]; simpl.
  all: destruct (write_err env _ _) as [x2|]; simpl.
  all: try (destruct (close_err env _ _) as [x3|]; simpl).
  all: do 6 eexists; (split; [reflexivity|]); simpl.
  all: split; [reflexivity|].
  all: split; [first [by left|by right]|auto].
Qed.


(** ** Two controllers *)

(** X7. Two calls of [NewProfiler] give controllers with the configurations
    they were given, empty cleanup lists and two different termination
    channels, both open: [Stop] on the first returns and leaves the channel
    of the second open, so that [Stop] on the second returns as well. *)
Theorem NewProfiler_channels_apart (c1 c2 : Config) (w : World) :
  exists evs1 p1 w1 evs2 p2 w2,
    NewProfiler c1 w = (evs1, Done p1 w1)
    /\ NewProfiler c2 w1 = (evs2, Done p2 w2)
    /\ conf p1 = c1 /\ conf p2 = c2
    /\ closers p1 = [] /\ closers p2 = []
    /\ terminateCh p1 <> terminateCh p2
    /\ chans w2 !! terminateCh p1 = Some false
    /\ chans w2 !! terminateCh p2 = Some false
    /\ exists w3 w4,
         Stop p1 w2 = ([ECloseChan (terminateCh p1)], Done tt w3)
         /\ chan_closed w3 (terminateCh p1) = true
         /\ chan_closed w3 (terminateCh p2) = false
         /\ Stop p2 w3 = ([ECloseChan (terminateCh p2)], Done tt w4)
         /\ chan_closed w4 (terminateCh p1) = true
         /\ chan_closed w4 (terminateCh p2) = true.
Proof.
  unfold NewProfiler, make_chan, mbind, M_bind, mret, M_ret. simpl.
  do 6 eexists. split; [reflexivity|]. split; [reflexivity|]. simpl.
  assert (Hne : nextCh w <> S (nextCh w)) by lia.
  assert (Hne' : S (nextCh w) <> nextCh w) by lia.
  do 4 (split; [reflexivity|]).
  split; [exact Hne|].
  split; [by rewrite lookup_insert_ne, lookup_insert_eq|].
  split; [by rewrite lookup_insert_eq|].
  unfold Stop, close_chan, chan_closed. simpl.
  rewrite lookup_insert_ne, lookup_insert_eq by exact Hne'.
  do 2 eexists. split; [reflexivity|]. simpl.
  rewrite !lookup_insert_eq.
  rewrite (lookup_insert_ne _ (nextCh w) (S (nextCh w))) by exact Hne.
  rewrite lookup_insert_eq.
  do 2 (split; [reflexivity|]).
  split; [reflexivity|]. simpl.
  rewrite lookup_insert_eq.
  rewrite lookup_insert_ne, lookup_insert_eq by exact Hne'.
  split; reflexivity.
Qed.


(** ** The books of the files *)

Lemma somes_app (l1 l2 : list File) : somes (l1 ++ l2) = somes l1 ++ somes l2.
Proof. apply omap_app. Qed.

Lemma ledger_refl (p : profiler) (w : World) : ledger p w [] p w.
Proof. split; simpl; [lia|by rewrite Nat.sub_diag|done]. Qed.

Lemma balance_trans (o1 o2 c1 c2 k0 k1 k2 : list Fd) :
  o1 ++ k0 ≡ₚ c1 ++ k1 -> o2 ++ k1 ≡ₚ c2 ++ k2 ->
  (o1 ++ o2) ++ k0 ≡ₚ (c1 ++ c2) ++ k2.
Proof.
  intros B1 B2.
  rewrite <- (assoc_L (++) c1), <- B2.
  rewrite (assoc_L (++) c1 o2 k1).
  rewrite (Permutation_app_comm c1 o2).
  rewrite <- (assoc_L (++) o2 c1 k1), <- B1.
  rewrite !(assoc_L (++)).
  f_equiv. apply Permutation_app_comm.
Qed.

Lemma ledger_trans p w e1 p1 w1 e2 p2 w2 :
  ledger p w e1 p1 w1 -> ledger p1 w1 e2 p2 w2 ->
  ledger p w (e1 ++ e2) p2 w2.
Proof.
  intros [F1 O1 B1] [F2 O2 B2]. split; [lia| |].
  - rewrite opens_app, somes_app, O1, O2.
    replace (nextFd w2 - nextFd w)%nat
      with ((nextFd w1 - nextFd w) + (nextFd w2 - nextFd w1))%nat by lia.
    rewrite seq_app. do 2 f_equal. lia.
  - rewrite opens_app, closed_app, !somes_app.
    eapply balance_trans; eauto.
Qed.

(** A step that opens and closes nothing and keeps the cleanup list. *)
Lemma ledger_idle p w evs p' w' :
  opens evs = [] -> closed evs = [] -> closers p' = closers p ->
  nextFd w' = nextFd w ->
  ledger p w evs p' w'.
Proof.
  intros Ho Hc Hp Hw. split.
  - lia.
  - by rewrite Ho, Hw, Nat.sub_diag.
  - unfold closer_fds. by rewrite Ho, Hc, Hp.
Qed.

Lemma takeKind_ledger (env : Env) (k : Kind) (p : profiler) (w : World) :
  returns (takeKind env k p) w (fun evs _ w' => ledger p w evs p w').
Proof.
  unfold returns, wp, takeKind, takeCPUSnapshot, takeMemorySnapshot,
    takeBlockSnapshot, takeGoroutineSnapshot, takeMutexSnapshot, log_err,
    os_Create, File_Close, time_Now_Unix, pprof_WriteHeapProfile,
    Profile_WriteTo, pprof_Lookup, pprof_StopCPUProfile,
    runtime_SetBlockProfileRate, Logger_Println, emit, mbind, M_bind,
    mret, M_ret.
  destruct k; simpl.
  all: try (destruct (create_err env _ _) as [e1|]; simpl).
  all: try (destruct (write_err env _ _) as [e2|]; simpl).
  all: try (destruct (close_err env _ _) as [e3|]; simpl).
  all: split; simpl; try lia; try done.
  all: try (by rewrite Nat.sub_diag).
  all: by replace (S (nextFd w) - nextFd w)%nat with 1%nat by lia.
Qed.

Lemma snapshot_kinds_ledger (env : Env) (p : profiler) (w : World) :
  returns (snapshot_kinds env p) w (fun evs _ w' => ledger p w evs p w').
Proof.
  assert (forall k w0,
            returns (when (enabled (conf p) k) (takeKind env k p)) w0
              (fun evs _ w' => ledger p w0 evs p w')) as Hk.
  { intros k w0. apply returns_when; intros _;
      [apply takeKind_ledger|apply ledger_refl]. }
  unfold snapshot_kinds.
  apply returns_bind.
  eapply returns_mono; [apply (Hk cpu)|]. intros e1 [] w1 H1.
  apply returns_bind.
  eapply returns_mono; [apply (Hk mem)|]. intros e2 [] w2 H2.
  apply returns_bind.
  eapply returns_mono; [apply (Hk block)|]. intros e3 [] w3 H3.
  apply returns_bind.
  eapply returns_mono; [apply (Hk goroutine)|]. intros e4 [] w4 H4.
  eapply returns_mono; [apply (Hk mutex)|]. intros e5 [] w5 H5.
  eauto using ledger_trans.
Qed.

Lemma TakeSnapshot_ledger (env : Env) (p : profiler) (w : World) :
  returns (TakeSnapshot env p) w (fun evs p' w' => ledger p w evs p' w').
Proof.
  pose proof (snapshot_kinds_ledger env p w) as HL.
  eapply returns_mono; [apply TakeSnapshot_spec|].
  intros evs p' w' (-> & evsK & wK & evsC & HeqK & -> & _ & HC & _).
  unfold returns, wp in HL. rewrite HeqK in HL.
  eapply ledger_trans; [exact HL|].
  destruct HC as [Hcl Ho _ _ _ _ _ _ Hfd _ _].
  split; rewrite ?Ho, ?Hcl, ?Hfd; simpl.
  - lia.
  - by rewrite Nat.sub_diag.
  - unfold closer_fds. simpl. by rewrite app_nil_r.
Qed.

Lemma Run_activate_ledger (env : Env) (p : profiler) (w : World) :
  wp (Run_activate env p) w (fun evs p' w' => ledger p w evs p' w')
    (fun _ _ _ => True).
Proof.
  destruct p as [[c m b g x pre itv mr cr xr] ch cs lg].
  unfold wp, Run_activate, when, startProfilingCPU, os_Create,
    time_Now_Unix, pprof_StartCPUProfile, runtime_SetBlockProfileRate,
    runtime_SetCPUProfileRate, runtime_MemProfileRate_assign,
    runtime_SetMutexProfileFraction, Logger_Println, emit, panic,
    mbind, M_bind, mret, M_ret.
  simpl.
  destruct c, m, b, x; simpl.
  all: try (destruct (0 <? cr); simpl).
  all: try (destruct (create_err env _ _) as [e|]; simpl).
  all: try (destruct (rt_cpuProfiling w); simpl).
  all: try done.
  all: try apply ledger_refl.
  all: try (apply ledger_idle; reflexivity).
  all: split; simpl; try lia.
  all: try (by replace (S (nextFd w) - nextFd w)%nat with 1%nat by lia).
  all: unfold closer_fds; simpl; rewrite map_app, somes_app; simpl.
  all: by rewrite Permutation_app_comm.
Qed.

Lemma Run_enter_ledger (env : Env) (p : profiler) (w : World) :
  wp (Run_enter env p) w (fun evs r w' => ledger p w evs r.1 w')
    (fun _ _ _ => True).
Proof.
  unfold Run_enter. apply wp_bind.
  eapply wp_mono; [apply Run_activate_ledger| |]; simpl; [|done].
  intros e1 p1 w1 H1. unfold wp. rewrite Run_schedule_eq.
  destruct (isOn (conf p1) && negb (String.eqb "" (Interval (conf p1))));
    [destruct (ParseDuration env (Interval (conf p1)))|]; simpl.
  all: eapply ledger_trans; [exact H1|by apply ledger_idle].
Qed.

Lemma Run_select_ledger (env : Env) (c : SelectCase) (p : profiler)
    (w : World) :
  wp (Run_select env c p) w (fun evs r w' => ledger p w evs r.1 w')
    (fun _ _ _ => True).
Proof.
  destruct c; unfold Run_select; apply wp_bind.
  all: eapply wp_mono; [apply TakeSnapshot_ledger| |]; simpl; [|done].
  all: intros e1 p1 w1 H1.
  - eapply wp_mono; [apply Run_enter_ledger| |]; simpl; [|done].
    intros e2 r w2 H2. eapply ledger_trans; eauto.
  - unfold wp. simpl. by rewrite app_nil_r.
Qed.

Lemma step_ledger (env : Env) (o : Op) (s s' : System) :
  step env o s = Next s' ->
  exists evs,
    sys_trace s' = sys_trace s ++ evs
    /\ ledger (sys_p s) (sys_w s) evs (sys_p s') (sys_w s').
Proof.
  destruct s as [p st w tr]. unfold step, op_call. simpl.
  destruct o as [|c| |]; simpl.
  - destruct st; [|done].
    pose proof (Run_enter_ledger env p w) as H. unfold wp in H.
    destruct (Run_enter env p w) as [evs [[p1 st1] w1|e w1]]; [|done].
    intros [= <-]. by exists evs.
  - destruct st; [done|].
    destruct (select_enabled env w p c); [|done].
    pose proof (Run_select_ledger env c p w) as H. unfold wp in H.
    destruct (Run_select env c p w) as [evs [[p1 st1] w1|e w1]]; [|done].
    intros [= <-]. by exists evs.
  - pose proof (TakeSnapshot_ledger env p w) as H.
    unfold returns, wp in H. unfold mbind, M_bind.
    destruct (TakeSnapshot env p w) as [evs [p1 w1|e w1]]; [|done].
    simpl. intros [= <-]. exists (evs ++ []). simpl.
    by rewrite app_nil_r.
  - unfold mbind, M_bind. rewrite Stop_eq.
    destruct (chans w !! terminateCh p) as [[|]|]; [done| |done].
    simpl. intros [= <-]. eexists. simpl. split; [reflexivity|].
    by apply ledger_idle.
Qed.

Lemma exec_ledger (env : Env) (ops : list Op) (s s' : System) :
  exec env ops s = Next s' ->
  exists evs,
    sys_trace s' = sys_trace s ++ evs
    /\ ledger (sys_p s) (sys_w s) evs (sys_p s') (sys_w s').
Proof.
  revert s. induction ops as [|o ops IH]; intros s; simpl.
  - intros [= <-]. exists []. rewrite app_nil_r. auto using ledger_refl.
  - destruct (step env o s) as [s1|e s1|] eqn:Hstep; [|done|done].
    intros H. apply IH in H as (e2 & Ht2 & H2).
    destruct (step_ledger env o s s1 Hstep) as (e1 & Ht1 & H1).
    exists (e1 ++ e2). rewrite Ht2, Ht1, app_assoc. split; [done|].
    eapply ledger_trans; eauto.
Qed.

(** X8. Whatever operations were run on a controller built by [NewProfiler]
    without a panic: [os.Create] never handed out a file twice; every
    file it handed out has been closed or is on the cleanup list of the
    controller, and on one of the two only; no file was closed twice, and
    no file on the cleanup list is closed already. *)
Theorem files_closed_or_listed (env : Env) (c : Config) (w : World)
    (ops : list Op) (s : System) :
  exec env ops (boot c w) = Next s ->
  NoDup (somes (opens (sys_trace s)))
  /\ somes (opens (sys_trace s))
     ≡ₚ somes (closed (sys_trace s)) ++ closer_fds (sys_p s)
  /\ NoDup (somes (closed (sys_trace s)))
  /\ NoDup (closer_fds (sys_p s))
  /\ forall fd, In fd (closer_fds (sys_p s)) ->
                ~ In (Some fd) (closed (sys_trace s)).
Proof.
  intros H. apply exec_ledger in H as (evs & Ht & [_ Ho Hb]).
  rewrite boot_eq in Ht, Ho, Hb. simpl in Ht, Ho, Hb.
  assert (opens (sys_trace s) = opens evs) as -> by (by rewrite Ht).
  assert (closed (sys_trace s) = closed evs) as -> by (by rewrite Ht).
  unfold closer_fds in Hb at 1. simpl in Hb. rewrite app_nil_r in Hb.
  assert (NoDup (somes (opens evs))) as Hnd
    by (rewrite Ho; apply NoDup_ListNoDup, List.seq_NoDup).
  pose proof Hnd as Hnd'. rewrite Hb in Hnd'.
  apply NoDup_app in Hnd' as (Hc & Hdis & Hl).
  repeat split; auto.
  intros fd Hfd Hin. apply (Hdis fd).
  - unfold somes. apply list_elem_of_omap.
    exists (Some fd). split; [by apply list_elem_of_In|done].
  - by apply list_elem_of_In.
Qed.


Lemma files_closed_or_listed_witness :
  exec (calm 100) [op_Run; op_Run] (boot conf_cpu_once world0)
  = Next two_closers_example
  /\ NoDup (somes (opens (sys_trace two_closers_example)))
  /\ somes (opens (sys_trace two_closers_example))
     ≡ₚ somes (closed (sys_trace two_closers_example))
        ++ closer_fds (sys_p two_closers_example)
  /\ NoDup (somes (closed (sys_trace two_closers_example)))
  /\ NoDup (closer_fds (sys_p two_closers_example))
  /\ forall fd, In fd (closer_fds (sys_p two_closers_example)) ->
                ~ In (Some fd) (closed (sys_trace two_closers_example)).
Proof.
  split; [vm_compute; reflexivity|].
  apply (files_closed_or_listed (calm 100) conf_cpu_once world0
           [op_Run; op_Run] two_closers_example).
  vm_compute; reflexivity.
Defined.


(** ** Rounds of snapshots and timers *)

Lemma paced_nil (env : Env) (c : Config) : paced env c [] [].
Proof. split; simpl; auto. Qed.

Lemma paced_app env c ops1 ops2 e1 e2 :
  paced env c ops1 e1 -> paced env c ops2 e2 ->
  paced env c (ops1 ++ ops2) (e1 ++ e2).
Proof.
  intros [S1 T1 C1] [S2 T2 C2]. split.
  - by rewrite snapshots_app, flat_map_app, S1, S2.
  - rewrite timers_app. by apply Forall_app.
  - rewrite timers_app, List.filter_app, !length_app. lia.
Qed.

Lemma Run_enter_paced (env : Env) (p : profiler) (w : World) :
  wp (Run_enter env p) w
    (fun evs r w' =>
       conf r.1 = conf p
       /\ snapshots evs = []
       /\ timers evs = match r.2 with Blocked d => [d] | Returned => [] end
       /\ forall d, r.2 = Blocked d -> scheduled env (conf p) d)
    (fun _ _ _ => True).
Proof.
  unfold Run_enter. apply wp_bind.
  eapply wp_mono; [apply Run_activate_spec| |]; simpl; [|done].
  intros e1 p1 w1 H1.
  assert (conf p1 = conf p) as Hconf
    by apply (eff_conf _ _ _ _ _ _ (activated_effect env _ _ _ _ _ H1)).
  destruct H1 as [_ _ _ _ _ _ Hsn Hti _ _ _ _ _ _].
  unfold wp, scheduled. rewrite Run_schedule_eq, Hconf.
  destruct (isOn (conf p)); cbn [andb];
    [|simpl; rewrite !app_nil_r; by repeat split].
  destruct (String.eqb "" (Interval (conf p))) eqn:Heq; cbn [negb];
    [simpl; rewrite !app_nil_r; by repeat split|].
  destruct (ParseDuration env (Interval (conf p))) as [d|x] eqn:Hd; simpl.
  - rewrite snapshots_app, timers_app, Hsn, Hti. simpl.
    repeat split; auto.
    + intros Hi. rewrite Hi in Heq. discriminate.
    + by injection H as <-.
  - rewrite snapshots_app, timers_app, Hsn, Hti. by repeat split.
Qed.

Lemma step_paced (env : Env) (o : Op) (s s' : System) :
  step env o s = Next s' ->
  conf (sys_p s') = conf (sys_p s)
  /\ ((forall d, sys_run s' = Blocked d ->
                 scheduled env (conf (sys_p s)) d)
      \/ sys_run s' = sys_run s)
  /\ exists evs,
       sys_trace s' = sys_trace s ++ evs
       /\ paced env (conf (sys_p s)) [o] evs.
Proof.
  destruct s as [p st w tr]. unfold step, op_call. simpl.
  destruct o as [|c| |]; simpl.
  - destruct st; [|done].
    pose proof (Run_enter_paced env p w) as H. unfold wp in H.
    destruct (Run_enter env p w) as [evs [[p1 st1] w1|e w1]]; [|done].
    intros [= <-]. simpl in *. destruct H as (Hc & Hs & Ht & Hd).
    split; [done|]. split; [by left|]. exists evs. split; [done|].
    split; simpl; rewrite ?Hs, ?Ht; auto.
    + destruct st1; [constructor|].
      constructor; [by apply Hd|constructor].
    + destruct st1; simpl; lia.
  - destruct st; [done|].
    destruct (select_enabled env w p c); [|done].
    destruct c; unfold Run_select, mbind, M_bind.
    + destruct (proj1 (returns_eq _ _ _) (TakeSnapshot_trace env p w))
        as (e1 & p1 & w1 & -> & -> & Hs1 & _ & _ & _ & Ht1 & _).
      pose proof (Run_enter_paced env (set_closers [] p) w1) as H.
      unfold wp in H.
      destruct (Run_enter env (set_closers [] p) w1)
        as [e2 [[p2 st2] w2|e w2]]; [|done].
      intros [= <-]. simpl in *. destruct H as (Hc & Hs & Ht & Hd).
      split; [done|]. split; [by left|]. exists (e1 ++ e2).
      split; [done|].
      split; simpl; rewrite ?snapshots_app, ?timers_app, ?Hs1, ?Hs, ?Ht1, ?Ht;
        simpl; auto.
      * destruct st2; [constructor|].
        constructor; [by apply Hd|constructor].
      * destruct st2; simpl; lia.
    + destruct (proj1 (returns_eq _ _ _) (TakeSnapshot_trace env p w))
        as (e1 & p1 & w1 & -> & -> & Hs1 & _ & _ & _ & Ht1 & _).
      simpl. intros [= <-]. simpl.
      split; [done|]. split; [left; intros ? [=]|]. exists (e1 ++ []).
      split; [done|].
      split; simpl; rewrite !app_nil_r, ?Hs1, ?Ht1; simpl; auto.
  - unfold mbind, M_bind.
    destruct (proj1 (returns_eq _ _ _) (TakeSnapshot_trace env p w))
      as (e1 & p1 & w1 & -> & -> & Hs1 & _ & _ & _ & Ht1 & _).
    simpl. intros [= <-]. simpl.
    split; [done|]. split; [by right|]. exists (e1 ++ []).
    split; [done|].
    split; simpl; rewrite !app_nil_r, ?Hs1, ?Ht1; simpl; auto.
  - unfold mbind, M_bind. rewrite Stop_eq.
    destruct (chans w !! terminateCh p) as [[|]|]; [done| |done].
    simpl. intros [= <-]. simpl.
    split; [done|]. split; [by right|]. eexists.
    split; [reflexivity|]. split; simpl; auto.
Qed.

Lemma exec_paced (env : Env) (ops : list Op) (s s' : System) :
  exec env ops s = Next s' ->
  conf (sys_p s') = conf (sys_p s)
  /\ exists evs,
       sys_trace s' = sys_trace s ++ evs
       /\ paced env (conf (sys_p s)) ops evs.
Proof.
  revert s. induction ops as [|o ops IH]; intros s; simpl.
  - intros [= <-]. split; [done|]. exists []. rewrite app_nil_r.
    auto using paced_nil.
  - destruct (step env o s) as [s1|e s1|] eqn:Hstep; [|done|done].
    intros H. apply IH in H as (Hc2 & e2 & Ht2 & H2).
    destruct (step_paced env o s s1 Hstep) as (Hc1 & _ & e1 & Ht1 & H1).
    split; [congruence|].
    exists (e1 ++ e2). rewrite Ht2, Ht1, app_assoc. split; [done|].
    rewrite Hc1 in H2. apply (paced_app env _ [o] ops _ _ H1 H2).
Qed.

(** X9. Whatever operations were run on a controller built by [NewProfiler c]
    without a panic, the capture calls made are one round of the enabled
    kinds, in the order of the code, for every call of [TakeSnapshot] and
    for every case a [select] took, and nothing else: [Run] captures
    nothing before its [select] and [Stop] captures nothing. Every timer
    armed carries the interval of [c] as [time.ParseDuration] read it, and
    there is at most one timer for each call of [Run] and each expiry. *)
Theorem captures_in_rounds (env : Env) (c : Config) (w : World)
    (ops : list Op) (s : System) :
  exec env ops (boot c w) = Next s ->
  snapshots (sys_trace s) = flat_map (rounds c) ops
  /\ Forall (scheduled env c) (timers (sys_trace s))
  /\ (length (timers (sys_trace s))
      <= length (List.filter enters_Run ops))%nat.
Proof.
  intros H. apply exec_paced in H as (_ & evs & Ht & [Hs Hti Hn]).
  rewrite boot_eq in Ht, Hs, Hti. simpl in Ht, Hs, Hti.
  rewrite Ht. simpl. auto.
Qed.

Lemma captures_in_rounds_witness :
  exec (ticking 100) [op_Run] (boot conf_cpu_mem world0) = Next blocked_example
  /\ snapshots (sys_trace blocked_example) = []
  /\ Forall (scheduled (ticking 100) conf_cpu_mem)
       (timers (sys_trace blocked_example))
  /\ (length (timers (sys_trace blocked_example)) <= 1)%nat.
Proof.
  split; [vm_compute; reflexivity|].
  apply (captures_in_rounds (ticking 100) conf_cpu_mem world0 [op_Run]
           blocked_example).
  vm_compute; reflexivity.
Defined.


Lemma exec_unscheduled (env : Env) (c : Config) (ops : list Op)
    (s0 s : System) :
  (forall d, ~ scheduled env c d) ->
  conf (sys_p s0) = c ->
  sys_run s0 = Returned ->
  exec env ops s0 = Next s ->
  sys_run s = Returned /\ existsb is_select ops = false.
Proof.
  intros Hno. revert s0. induction ops as [|o ops IH]; intros s0 Hc Hr; simpl.
  - by intros [= <-].
  - destruct (step env o s0) as [s1|e s1|] eqn:Hstep; [|done|done].
    intros H.
    destruct (step_paced env o s0 s1 Hstep) as (Hc1 & Hrun & _).
    assert (sys_run s1 = Returned) as Hr1.
    { destruct Hrun as [Hd|Heq]; [|congruence].
      destruct (sys_run s1) as [|d]; [done|].
      destruct (Hno d). rewrite <- Hc. by apply Hd. }
    destruct (IH s1) as [H1 H2]; [congruence|done|done|].
    split; [done|]. rewrite H2.
    destruct o; try done.
    unfold step, op_call in Hstep. by rewrite Hr in Hstep.
Qed.

(** X10. A controller built by [NewProfiler c] whose interval is empty, whose
    interval does not parse, or which has no kind enabled, never waits:
    whatever operations were run without a panic, [Run] is not blocked in
    its [select], no timer was ever armed, and no operation was a case of
    the [select]. [Stop] then only closes the channel, and the capture
    calls are those of the calls of [TakeSnapshot]. *)
Theorem unscheduled_never_waits (env : Env) (c : Config) (w : World)
    (ops : list Op) (s : System) :
  (forall d, ~ scheduled env c d) ->
  exec env ops (boot c w) = Next s ->
  sys_run s = Returned
  /\ timers (sys_trace s) = []
  /\ existsb is_select ops = false
  /\ (forall x, step env (op_select x) s = Disabled)
  /\ snapshots (sys_trace s)
     = flat_map (fun o => match o with
                          | op_TakeSnapshot =>
                              List.filter (enabled c) all_kinds
                          | _ => []
                          end) ops.
Proof.
  intros Hno H.
  destruct (exec_unscheduled env c ops (boot c w) s Hno) as [Hr Hsel];
    [by rewrite boot_eq|by rewrite boot_eq|done|].
  apply exec_paced in H as (_ & evs & Ht & [Hs Hti _]).
  rewrite boot_eq in Ht, Hs, Hti. simpl in Ht, Hs, Hti.
  split; [done|]. split; [|split; [done|split]].
  - rewrite Ht. simpl. destruct (timers evs) as [|d ds]; [done|].
    apply Forall_cons in Hti as [Hd _]. by destruct (Hno d).
  - intros x. unfold step, op_call. by rewrite Hr.
  - rewrite Ht. simpl. rewrite Hs. clear -Hsel.
    induction ops as [|o ops IH]; [done|]. simpl in *.
    apply orb_false_iff in Hsel as [Ho Hops].
    rewrite (IH Hops). by destruct o.
Qed.

Lemma unscheduled_never_waits_witness :
  (forall d, ~ scheduled (calm 100) conf_cpu_once d)
  /\ exec (calm 100) [op_Run; op_Run] (boot conf_cpu_once world0)
     = Next two_closers_example
  /\ sys_run two_closers_example = Returned
  /\ timers (sys_trace two_closers_example) = []
  /\ (forall x, step (calm 100) (op_select x) two_closers_example = Disabled)
  /\ snapshots (sys_trace two_closers_example) = [].
Proof.
  assert (forall d, ~ scheduled (calm 100) conf_cpu_once d) as Hno
    by (intros d (_ & H & _); by apply H).
  split; [exact Hno|]. split; [vm_compute; reflexivity|].
  destruct (unscheduled_never_waits (calm 100) conf_cpu_once world0
              [op_Run; op_Run] two_closers_example Hno
              ltac:(vm_compute; reflexivity))
    as (H1 & H2 & _ & H3 & H4).
  auto.
Defined.


(** ** The loop of [Run] *)

Lemma Run_enter_scheduled (env : Env) (p : profiler) (w : World)
    (d : Duration) :
  scheduled env (conf p) d ->
  cpu_create_err env p w = None ->
  exists evs p' w',
    Run_enter env p w = (evs, Done (p', Blocked d) w')
    /\ conf p' = conf p
    /\ timers evs = [d]
    /\ snapshots evs = [].
Proof.
  intros (Hon & Hitv & Hparse) Hcreate.
  pose proof (Run_activate_spec env p w) as H. unfold wp in H.
  destruct (Run_activate env p w) as [evs [p' w'|e w']] eqn:Hact;
    [|destruct H as (_ & Hc & _); congruence].
  assert (conf p' = conf p) as Hconf
    by apply (eff_conf _ _ _ _ _ _ (activated_effect env _ _ _ _ _ H)).
  destruct H as [_ _ _ _ _ _ Hsn Hti _ _ _ _ _ _].
  exists (evs ++ [ENewTimer d]), p', w'.
  unfold Run_enter, mbind, M_bind. rewrite Hact.
  rewrite Run_schedule_eq, Hconf, Hon, Hparse.
  apply String.eqb_neq in Hitv. rewrite String.eqb_sym, Hitv. simpl.
  rewrite timers_app, snapshots_app, Hti, Hsn. auto.
Qed.

Lemma Run_resume_loop (env : Env) (c : Config) (d : Duration)
    (wakes : list SelectCase) (p : profiler) (w : World) :
  scheduled env c d ->
  cpu_opens env c ->
  conf p = c ->
  exists evs p' w',
    Run_resume env wakes (p, Blocked d) w
    = (evs, Done (p', if terminated wakes then Returned else Blocked d) w')
    /\ timers evs = repeat d (expiries wakes)
    /\ snapshots evs
       = concat (repeat (List.filter (enabled c) all_kinds)
                   (expiries wakes + if terminated wakes then 1 else 0)).
Proof.
  intros Hsched Hopen. revert p w.
  remember (List.filter (enabled c) all_kinds) as K eqn:HK.
  induction wakes as [|x wakes IH]; intros p w Hc.
  - exists [], p, w. by simpl.
  - destruct (proj1 (returns_eq _ _ _) (TakeSnapshot_trace env p w))
      as (e1 & p1 & w1 & HT & -> & Hs1 & _ & _ & _ & Ht1 & _).
    rewrite Hc, <- HK in Hs1.
    destruct x; simpl Run_resume; unfold Run_select, mbind, M_bind;
      rewrite HT.
    + destruct (Run_enter_scheduled env (set_closers [] p) w1 d)
        as (e2 & p2 & w2 & HE & Hc2 & Ht2 & Hs2);
        [simpl; by rewrite Hc|by apply Hopen|].
      rewrite HE.
      destruct (IH p2 w2) as (e3 & p3 & w3 & HR & Ht3 & Hs3);
        [by rewrite Hc2|].
      rewrite HR. exists ((e1 ++ e2) ++ e3), p3, w3.
      split; [done|].
      rewrite !timers_app, !snapshots_app, Ht1, Ht2, Ht3, Hs1, Hs2, Hs3.
      by simpl; rewrite app_nil_r.
    + simpl. rewrite Run_resume_Returned.
      exists ((e1 ++ []) ++ []), (set_closers [] p), w1.
      split; [done|].
      rewrite !app_nil_r, Ht1, Hs1. simpl. by rewrite ?app_nil_r.
Qed.

(** X11. A call of [Run] on a controller with a kind enabled and an interval
    that parses to [d], when [os.Create] never refuses the CPU artifact,
    through the wake-ups [wakes] of its [select]s. It does not panic. It
    has returned if a termination is among the wake-ups, and is blocked
    with a timer of [d] otherwise. It armed one timer of [d] at its start
    and one after each expiry before the first termination; it took one
    round of snapshots of the enabled kinds at each of these expiries and
    one at the termination, and none otherwise. *)
Theorem Run_loop (env : Env) (p : profiler) (w : World)
    (wakes : list SelectCase) (d : Duration) :
  scheduled env (conf p) d ->
  cpu_opens env (conf p) ->
  exists evs p' w',
    Run env wakes p w
    = (evs, Done (p', if terminated wakes then Returned else Blocked d) w')
    /\ timers evs = repeat d (S (expiries wakes))
    /\ snapshots evs
       = concat (repeat (List.filter (enabled (conf p)) all_kinds)
                   (expiries wakes + if terminated wakes then 1 else 0)).
Proof.
  intros Hsched Hopen.
  destruct (Run_enter_scheduled env p w d Hsched)
    as (e1 & p1 & w1 & HE & Hc1 & Ht1 & Hs1); [by apply Hopen|].
  destruct (Run_resume_loop env (conf p) d wakes p1 w1 Hsched Hopen Hc1)
    as (e2 & p2 & w2 & HR & Ht2 & Hs2).
  exists (e1 ++ e2), p2, w2.
  unfold Run, mbind, M_bind. rewrite HE, HR.
  split; [done|].
  by rewrite timers_app, snapshots_app, Ht1, Ht2, Hs1, Hs2.
Qed.

Lemma Run_loop_witness :
  scheduled (calm 100) conf_cpu_mem 50000000
  /\ cpu_opens (calm 100) conf_cpu_mem
  /\ exists evs p' w',
       Run (calm 100) [case_timer_C; case_timer_C; case_terminateCh]
         (sys_p (boot conf_cpu_mem world0)) (sys_w (boot conf_cpu_mem world0))
       = (evs, Done (p', Returned) w')
       /\ timers evs = [50000000; 50000000; 50000000]
       /\ snapshots evs = [cpu; mem; cpu; mem; cpu; mem].
Proof.
  assert (scheduled (calm 100) conf_cpu_mem 50000000) as Hs
    by (split; [reflexivity|split; [discriminate|reflexivity]]).
  assert (cpu_opens (calm 100) conf_cpu_mem) as Ho
    by (intros p w Hp; unfold cpu_create_err; rewrite Hp; reflexivity).
  split; [exact Hs|]. split; [exact Ho|].
  apply (Run_loop (calm 100) (sys_p (boot conf_cpu_mem world0))
           (sys_w (boot conf_cpu_mem world0))
           [case_timer_C; case_timer_C; case_terminateCh] 50000000 Hs Ho).
Defined.


(** ** The earlier revision: the CPU files are never closed *)

Lemma started_app e1 e2 : started (e1 ++ e2) = started e1 ++ started e2.
Proof. apply flat_map_app. Qed.

Lemma apart_nil (w : World) : apart w [] w.
Proof. split; simpl; [lia|intros ? []|intros ? []|intros ? []]. Qed.

Lemma apart_app w e1 w1 e2 w2 :
  apart w e1 w1 -> apart w1 e2 w2 -> apart w (e1 ++ e2) w2.
Proof.
  intros [F1 S1 C1 D1] [F2 S2 C2 D2]. split; [lia| | |].
  - intros f. rewrite started_app, in_app_iff. intros [H|H].
    + destruct (S1 f H) as (fd & -> & ?). exists fd. split; [done|lia].
    + destruct (S2 f H) as (fd & -> & ?). exists fd. split; [done|lia].
  - intros fd. rewrite closed_app, in_app_iff. intros [H|H].
    + apply C1 in H. lia.
    + apply C2 in H. lia.
  - intros f. rewrite started_app, closed_app, !in_app_iff.
    intros [H|H] [H'|H'].
    + by apply (D1 f).
    + destruct (S1 f H) as (fd & -> & ?). apply C2 in H'. lia.
    + destruct (S2 f H) as (fd & -> & ?). apply C1 in H'. lia.
    + by apply (D2 f).
Qed.

(** A trace without a start of the CPU profile, whose closed files were
    handed out in the run. *)
Lemma apart_no_start w evs w' :
  (nextFd w <= nextFd w')%nat ->
  started evs = [] ->
  (forall fd, In (Some fd) (closed evs) -> (nextFd w <= fd < nextFd w')%nat) ->
  apart w evs w'.
Proof.
  intros Hfd Hs Hc. split; auto; rewrite Hs; intros ? [].
Qed.

Lemma Earlier_kinds_apart (env : Env) (p : Earlier.profiler) (w : World) :
  returns (when (Earlier.CPU (Earlier.conf p)) (Earlier.takeCPUSnapshot p)) w
    (fun evs _ w' => apart w evs w')
  /\ returns (when (Earlier.Memory (Earlier.conf p))
                (Earlier.takeMemorySnapshot env p)) w
       (fun evs _ w' => apart w evs w')
  /\ returns (when (Earlier.Block (Earlier.conf p))
                (Earlier.takeBlockSnapshot env p)) w
       (fun evs _ w' => apart w evs w')
  /\ returns (when (Earlier.Goroutine (Earlier.conf p))
                (Earlier.takeGoroutineSnapshot env p)) w
       (fun evs _ w' => apart w evs w').
Proof.
  unfold returns, wp, when, Earlier.takeCPUSnapshot,
    Earlier.takeMemorySnapshot, Earlier.takeBlockSnapshot,
    Earlier.takeGoroutineSnapshot, Earlier.fmt_Println, os_Create,
    File_Close, time_Now_Unix, pprof_WriteHeapProfile, Profile_WriteTo,
    pprof_Lookup, pprof_StopCPUProfile, runtime_SetBlockProfileRate,
    emit, mbind, M_bind, mret, M_ret.
  destruct (Earlier.CPU _), (Earlier.Memory _), (Earlier.Block _),
    (Earlier.Goroutine _); simpl.
  all: repeat match goal with
         | |- context [create_err ?e ?a ?b] =>
             destruct (create_err e a b); simpl
         end.
  all: repeat match goal with |- _ /\ _ => split end.
  all: apply apart_no_start; simpl; [lia|done|].
  all: intros fd H; intuition (try discriminate).
  all: match goal with H : Some _ = Some _ |- _ => injection H as <-; lia end.
Qed.

Lemma Earlier_TakeSnapshot_apart (env : Env) (p : Earlier.profiler)
    (w : World) :
  Earlier.closers p = [] ->
  returns (Earlier.TakeSnapshot env p) w (fun evs _ w' => apart w evs w').
Proof.
  intros Hcs. unfold Earlier.TakeSnapshot. rewrite Hcs.
  apply returns_bind. eapply returns_mono;
    [apply (Earlier_kinds_apart env p w)|]. intros e1 [] w1 H1.
  apply returns_bind. eapply returns_mono;
    [apply (Earlier_kinds_apart env p w1)|]. intros e2 [] w2 H2.
  apply returns_bind. eapply returns_mono;
    [apply (Earlier_kinds_apart env p w2)|]. intros e3 [] w3 H3.
  apply returns_bind. eapply returns_mono;
    [apply (Earlier_kinds_apart env p w3)|]. intros e4 [] w4 H4.
  unfold returns, wp. simpl. rewrite !app_nil_r.
  eauto using apart_app.
Qed.

Lemma Earlier_Run_enter_apart (env : Env) (p : Earlier.profiler)
    (w : World) :
  wp (Earlier.Run_enter env p) w (fun evs _ w' => apart w evs w')
    (fun evs _ w' => apart w evs w').
Proof.
  destruct p as [[c m b g pre itv mr cr] ch cs].
  unfold wp, Earlier.Run_enter, Earlier.startProfilingCPU, Earlier.isOn,
    Earlier.fmt_Println, when, os_Create, time_Now_Unix,
    pprof_StartCPUProfile, runtime_SetBlockProfileRate,
    runtime_SetCPUProfileRate, runtime_MemProfileRate_assign,
    time_NewTimer, emit, panic, mbind, M_bind, mret, M_ret.
  simpl.
  destruct c, m, b, g; simpl.
  all: try (destruct (0 <? cr); simpl).
  all: try (destruct (create_err env _ _) as [e|]; simpl).
  all: try (destruct (rt_cpuProfiling w); simpl).
  all: destruct itv as [|a itv]; simpl.
  all: try match goal with
         | |- context [ParseDuration ?e ?s] =>
             destruct (ParseDuration e s); simpl
         end.
  all: try (apply apart_no_start; simpl; [lia|done|by intros ? []]).
  all: split; simpl; try lia; try (by intros ? []).
  all: try (intros ? [<-|[]]; exists (nextFd w); split; [done|lia]).
Qed.

Lemma Earlier_Run_select_apart (env : Env) (c : SelectCase)
    (p : Earlier.profiler) (w : World) :
  Earlier.closers p = [] ->
  wp (Earlier.Run_select env c p) w (fun evs _ w' => apart w evs w')
    (fun evs _ w' => apart w evs w').
Proof.
  intros Hcs. destruct c; unfold Earlier.Run_select; apply wp_bind.
  all: eapply wp_mono; [by apply Earlier_TakeSnapshot_apart| |];
    simpl; [|done].
  all: intros e1 [] w1 H1.
  - eapply wp_mono; [apply Earlier_Run_enter_apart| |]; simpl;
      eauto using apart_app.
  - unfold wp. simpl. by rewrite app_nil_r.
Qed.

Lemma Earlier_Run_resume_apart (env : Env) (wakes : list SelectCase)
    (p : Earlier.profiler) (st : RunState) (w : World) :
  Earlier.closers p = [] ->
  wp (Earlier.Run_resume env wakes p st) w (fun evs _ w' => apart w evs w')
    (fun evs _ w' => apart w evs w').
Proof.
  intros Hcs. revert st w.
  induction wakes as [|c wakes IH]; intros st w.
  - destruct st; apply apart_nil.
  - destruct st as [|d]; [apply apart_nil|].
    simpl Earlier.Run_resume. apply wp_bind.
    eapply wp_mono; [by apply Earlier_Run_select_apart| |]; simpl; [|done].
    intros e1 st1 w1 H1.
    eapply wp_mono; [apply IH| |]; simpl; eauto using apart_app.
Qed.

(** X12. The earlier revision. A call of [Run] on a controller built by its
    [NewProfiler] (the cleanup list is empty), through any wake-ups and
    whether it returns, is left blocked or panics: no file the CPU profile
    was started on is closed in the call. When CPU is on and [os.Create]
    does not refuse the first artifact, there is such a file: the first
    descriptor handed out. *)
Theorem Earlier_cpu_files_never_closed (env : Env) (p : Earlier.profiler)
    (w : World) (wakes : list SelectCase) :
  Earlier.closers p = [] ->
  (forall f, In f (started (fst (Earlier.Run env wakes p w))) ->
             f <> None /\ ~ In f (closed (fst (Earlier.Run env wakes p w))))
  /\ (Earlier.CPU (Earlier.conf p) = true ->
      (forall n, create_err env (S (tick w)) n = None) ->
      In (Some (nextFd w)) (started (fst (Earlier.Run env wakes p w)))).
Proof.
  intros Hcs. split.
  - assert (wp (Earlier.Run env wakes p) w (fun evs _ w' => apart w evs w')
              (fun evs _ w' => apart w evs w')) as H.
    { unfold Earlier.Run. apply wp_bind.
      eapply wp_mono; [apply Earlier_Run_enter_apart| |]; simpl; [|done].
      intros e1 st1 w1 H1.
      eapply wp_mono; [by apply Earlier_Run_resume_apart| |]; simpl;
        eauto using apart_app. }
    unfold wp in H.
    destruct (Earlier.Run env wakes p w) as [evs [a w'|x w']]; simpl.
    all: intros f Hf; split; [|by apply (apart_disjoint _ _ _ H)].
    all: by destruct (apart_started _ _ _ H f Hf) as (fd & -> & _).
  - intros HCPU Hcreate.
    assert (exists e1 st1 w1,
              Earlier.Run_enter env p w = (e1, Done st1 w1)
              /\ In (Some (nextFd w)) (started e1)) as (e1 & st1 & w1 & HE & Hin).
    { destruct p as [[c m b g pre itv mr cr] ch cs]. simpl in HCPU. subst c.
      unfold Earlier.Run_enter, Earlier.startProfilingCPU, Earlier.isOn,
        Earlier.fmt_Println, when, os_Create, time_Now_Unix,
        pprof_StartCPUProfile, runtime_SetBlockProfileRate,
        runtime_SetCPUProfileRate, runtime_MemProfileRate_assign,
        time_NewTimer, emit, panic, mbind, M_bind, mret, M_ret.
      simpl.
      destruct (0 <? cr); simpl; rewrite Hcreate; simpl.
      all: destruct (rt_cpuProfiling w); simpl.
      all: destruct m, b; simpl.
      all: destruct itv as [|a itv]; simpl.
      all: try match goal with
             | |- context [ParseDuration ?e ?s] =>
                 destruct (ParseDuration e s); simpl
             end.
      all: do 3 eexists; (split; [reflexivity|]); simpl; auto. }
    unfold Earlier.Run, mbind, M_bind. rewrite HE.
    destruct (Earlier.Run_resume env wakes p st1 w1) as [e2 r]. simpl.
    rewrite started_app, in_app_iff. by left.
Qed.

Lemma Earlier_cpu_files_never_closed_witness :
  Earlier.closers earlier_example = []
  /\ (forall f,
        In f (started (fst (Earlier.Run (calm 100) [case_terminateCh]
                              earlier_example world0))) ->
        f <> None
        /\ ~ In f (closed (fst (Earlier.Run (calm 100) [case_terminateCh]
                                  earlier_example world0))))
  /\ In (Some 3%nat)
       (started (fst (Earlier.Run (calm 100) [case_terminateCh]
                        earlier_example world0))).
Proof.
  split; [reflexivity|].
  destruct (Earlier_cpu_files_never_closed (calm 100) earlier_example world0
              [case_terminateCh] eq_refl) as [H1 H2].
  split; [exact H1|]. apply H2; reflexivity.
Defined.


(** ** Names of artifacts *)

Lemma string_of_Z_inj (a b : Z) : string_of_Z a = string_of_Z b -> a = b.
Proof.
  unfold string_of_Z. intros H.
  assert (forall z, NilZero.int_of_string (NilZero.string_of_int (Z.to_int z))
                    = Some (Z.to_int z)) as Hisi.
  { intros z. apply NilZero.isi; destruct z; simpl; try discriminate.
    all: intros [= Hp]; by apply DecimalPos.Unsigned.to_uint_nonnil in Hp. }
  apply DecimalZ.to_int_inj.
  pose proof (Hisi a) as Ha. rewrite H, Hisi in Ha. congruence.
Qed.

Lemma append_length (s t : string) :
  String.length (s +:+ t) = (String.length s + String.length t)%nat.
Proof. induction s as [|a s IH]; simpl; [done|by rewrite IH]. Qed.

Lemma append_inj_r (s1 s2 t : string) : s1 +:+ t = s2 +:+ t -> s1 = s2.
Proof.
  revert s2. induction s1 as [|a s1 IH]; intros [|b s2] H.
  - done.
  - apply (f_equal String.length) in H.
    rewrite !append_length in H. simpl in H. lia.
  - apply (f_equal String.length) in H.
    rewrite !append_length in H. simpl in H. lia.
  - cbv [String.append] in H. fold String.append in H.
    injection H as -> H. f_equal. by apply IH.
Qed.

(** X13. Under one prefix, two artifacts carry the same name exactly when they
    are of the same kind and carry the same time: files of different kinds
    never share a name, and two files of one kind do when they are stamped
    within the same second. *)
Theorem artifact_name_inj (pre : string) (k1 k2 : Kind) (t1 t2 : Z) :
  artifact_name pre k1 t1 = artifact_name pre k2 t2 <-> k1 = k2 /\ t1 = t2.
Proof.
  split; [|by intros [-> ->]].
  unfold artifact_name. intros H.
  apply (inj (String.append pre)) in H.
  remember (string_of_Z t1 +:+ ".pprof") as r1 eqn:H1.
  remember (string_of_Z t2 +:+ ".pprof") as r2 eqn:H2.
  destruct k1, k2; cbv [kind_label String.append] in H; try discriminate H.
  all: injection H as H; subst r1 r2.
  all: split; [done|]; by apply append_inj_r, string_of_Z_inj in H.
Qed.


Lemma Run_enter_created (env : Env) (p : profiler) (w : World) :
  created (fst (Run_enter env p w))
  = if CPU (conf p) then [cpu_name env p w] else [].
Proof.
  pose proof (Run_activate_spec env p w) as H. unfold wp in H.
  unfold Run_enter, mbind, M_bind.
  destruct (Run_activate env p w) as [e1 [p1 w1|x w1]].
  - rewrite Run_schedule_eq.
    destruct H as [_ _ _ Hcr _ _ _ _ _ _ _ _ _ _].
    destruct (isOn (conf p1) && negb (String.eqb "" (Interval (conf p1))));
      [destruct (ParseDuration env (Interval (conf p1)))|]; simpl.
    all: by rewrite created_app, Hcr, app_nil_r.
  - simpl. destruct H as (-> & _ & _ & Hcr & _). done.
Qed.

(** X14. One turn of the loop of [Run] (the timer case of its [select]) under a
    clock that gives the one time [t] from the start of the turn on. The
    names passed to [os.Create], whether the calls succeed or not, are
    those of the enabled kinds other than CPU in the order of the code,
    then that of the new CPU artifact when CPU is on, all with the time
    [t]: they depend on the configuration and on [t] only, so that a
    second turn within the same second asks for the same files again. *)
Theorem turn_names (env : Env) (p : profiler) (w : World) (t : Z) :
  (forall i, (tick w <= i)%nat -> clock env i = t) ->
  created (fst (Run_select env case_timer_C p w))
  = map (fun k => artifact_name (Prefix (conf p)) k t)
      (file_kinds (List.filter (enabled (conf p)) all_kinds)
       ++ if CPU (conf p) then [cpu] else []).
Proof.
  intros Hclock.
  destruct (proj1 (returns_eq _ _ _)
              (returns_and _ _ _ _ (TakeSnapshot_trace env p w)
                 (TakeSnapshot_effect env p w)))
    as (e1 & p1 & w1 & Heq & (-> & _ & Hn & _) & Heff & _).
  pose proof (eff_tick _ _ _ _ _ _ Heff) as Htick.
  pose proof (Run_enter_created env (set_closers [] p) w1) as HE.
  unfold Run_select, mbind, M_bind. rewrite Heq.
  assert (created e1
          = map (fun k => artifact_name (Prefix (conf p)) k t)
              (file_kinds (List.filter (enabled (conf p)) all_kinds))) as H1.
  { apply Forall2_map_eq. eapply Forall2_impl; [exact Hn|].
    intros k n (i & Hi & ->). rewrite Hclock; [done|lia]. }
  assert (created (fst (Run_enter env (set_closers [] p) w1))
          = map (fun k => artifact_name (Prefix (conf p)) k t)
              (if CPU (conf p) then [cpu] else [])) as H2.
  { rewrite HE. simpl. destruct (CPU (conf p)); [|done].
    unfold cpu_name. simpl. by rewrite Hclock. }
  rewrite map_app, <- H1, <- H2.
  destruct (Run_enter env (set_closers [] p) w1) as [e2 [r w2|x w2]]; simpl.
  - by rewrite created_app.
  - by rewrite created_app.
Qed.

Lemma turn_names_witness :
  (forall i, (tick (sys_w calm_example) <= i)%nat -> clock (calm 100) i = 100)
  /\ created (fst (Run_select (calm 100) case_timer_C (sys_p calm_example)
                     (sys_w calm_example)))
     = ["/tmp/t.mem.100.pprof"; "/tmp/t.cpu.100.pprof"].
Proof.
  split; [reflexivity|].
  apply (turn_names (calm 100) (sys_p calm_example) (sys_w calm_example) 100).
  reflexivity.
Defined.


(** ** A controller that was stopped *)

(** X15. [Run] called on a controller whose channel is closed already ([Stop]
    came first), with a kind enabled, an interval that parses to [d] and
    the CPU artifact opened without error: it activates the kinds, arms the
    timer and reaches its [select]; as long as the timer has not expired
    the termination case is the only one ready, and it takes one round of
    snapshots and [Run] has returned. Nothing in the package opens the
    channel again, so a controller that was stopped never loops. *)
Theorem Run_after_Stop (env : Env) (s : System) (d : Duration) :
  sys_run s = Returned ->
  chan_closed (sys_w s) (terminateCh (sys_p s)) = true ->
  scheduled env (conf (sys_p s)) d ->
  cpu_create_err env (sys_p s) (sys_w s) = None ->
  (forall i, timer_fired env i = false) ->
  exists s1 s2 evs1 evs2,
    step env op_Run s = Next s1
    /\ sys_run s1 = Blocked d
    /\ sys_trace s1 = sys_trace s ++ evs1
    /\ timers evs1 = [d] /\ snapshots evs1 = []
    /\ select_enabled env (sys_w s1) (sys_p s1) case_timer_C = false
    /\ step env (op_select case_terminateCh) s1 = Next s2
    /\ sys_run s2 = Returned
    /\ sys_trace s2 = sys_trace s1 ++ evs2
    /\ timers evs2 = []
    /\ snapshots evs2 = List.filter (enabled (conf (sys_p s))) all_kinds
    /\ closers (sys_p s2) = []
    /\ chan_closed (sys_w s2) (terminateCh (sys_p s2)) = true.
Proof.
  destruct s as [p st w tr]. simpl. intros -> Hch Hsched Hcreate Hfired.
  destruct (Run_enter_scheduled env p w d Hsched Hcreate)
    as (e1 & p1 & w1 & HE & Hc1 & Ht1 & Hs1).
  pose proof (Run_enter_effect env p w) as Heff. unfold wp in Heff.
  rewrite HE in Heff. simpl in Heff. destruct Heff as [Heff Hchans].
  pose proof (eff_chan _ _ _ _ _ _ Heff) as Hterm.
  destruct (proj1 (returns_eq _ _ _) (TakeSnapshot_trace env p1 w1))
    as (e2 & p2 & w2 & HT & -> & Hs2 & _ & _ & _ & Ht2 & Hchans2).
  assert (chan_closed w1 (terminateCh p1) = true) as Hch1
    by (unfold chan_closed in *; by rewrite Hchans, Hterm).
  eexists _, _, e1, (e2 ++ []).
  split; [unfold step, op_call; simpl; rewrite HE; reflexivity|]. simpl.
  split; [done|]. split; [done|]. split; [done|]. split; [done|].
  split; [by rewrite Hch1, Hfired|].
  split.
  { unfold step, op_call. simpl. rewrite Hch1.
    unfold Run_select, mbind, M_bind. rewrite HT. reflexivity. }
  simpl. rewrite app_nil_r, Hc1 in *.
  repeat split; auto.
  unfold chan_closed in *. by rewrite Hchans2.
Qed.

Lemma Run_after_Stop_witness :
  sys_run stopped_example = Returned
  /\ chan_closed (sys_w stopped_example) (terminateCh (sys_p stopped_example))
     = true
  /\ exists s1 s2,
       step (calm 100) op_Run stopped_example = Next s1
       /\ sys_run s1 = Blocked 50000000
       /\ step (calm 100) (op_select case_terminateCh) s1 = Next s2
       /\ sys_run s2 = Returned.
Proof.
  split; [reflexivity|]. split; [reflexivity|].
  destruct (Run_after_Stop (calm 100) stopped_example 50000000)
    as (s1 & s2 & e1 & e2 & H1 & H2 & _ & _ & _ & _ & H3 & H4 & _).
  - reflexivity.
  - reflexivity.
  - split; [reflexivity|split; [discriminate|reflexivity]].
  - reflexivity.
  - reflexivity.
  - by exists s1, s2.
Defined.
